(** * LD2410C radar sketch (src/main.cpp): a shallow embedding and its properties

    The sketch is a thin relay: it polls the [ld2410] library object
    [radar], prints the decoded fields on the monitor serial port and answers
    one text command.  The library and the Arduino core are not part of the
    sketch; they are taken here as an interface ([Board]) over an abstract
    hardware state.  The sketch itself is embedded as a state-passing program
    that also produces a time-stamped trace of everything it does to the
    outside (monitor output, library calls, delays, clock reads). *)

From Stdlib Require Import ZArith String Ascii List Bool Lia.
From Stdlib Require Import DecimalString HexadecimalString.
Import ListNotations.
Local Open Scope string_scope.
Local Open Scope list_scope.
Local Open Scope Z_scope.

(** ** Machine integers *)

(** [uint32_t] arithmetic: [millis()], [lastReading] and [lastConfigRead] are
    32-bit unsigned, and so is their difference. *)
Definition wrap32 (z : Z) : Z := z mod 2 ^ 32.

(** ** What is written to the monitor serial port *)

(** One argument of a [MONITOR_SERIAL.print]/[println] call. *)
Inductive Token : Type :=
| TStr (s : string)      (* print(F("...")) / print("...") *)
| TChar (c : ascii)      (* print('.') *)
| TDec (v : Z)           (* print(n), base 10 *)
| THex (v : Z)           (* print(n, HEX) *)
| TLn.                   (* the line end written by println *)

Definition nl : string := String "010"%char EmptyString.
Definition crlf : string := String "013"%char (String "010"%char EmptyString).

Definition upper_hex_digit (c : ascii) : ascii :=
  let n := nat_of_ascii c in
  if ((97 <=? n) && (n <=? 102))%nat then ascii_of_nat (n - 32) else c.

Fixpoint map_string (f : ascii -> ascii) (s : string) : string :=
  match s with
  | EmptyString => EmptyString
  | String c r => String (f c) (map_string f r)
  end.

Definition dec (v : Z) : string := DecimalString.NilZero.string_of_int (Z.to_int v).
Definition hex (v : Z) : string :=
  map_string upper_hex_digit
    (HexadecimalString.NilZero.string_of_uint (N.to_hex_uint (Z.to_N v))).

Definition render_token (t : Token) : string :=
  match t with
  | TStr s => s
  | TChar c => String c EmptyString
  | TDec v => dec v
  | THex v => hex v
  | TLn => crlf
  end.

Definition render (ts : list Token) : string :=
  String.concat "" (map render_token ts).

(** ** Events *)

(** The [ld2410] methods of the sketch that return [bool] and may block. *)
Inductive LibCall : Type :=
| Begin
| Read
| IsConnected
| RequestCurrentConfiguration
| RequestStartEngineeringMode.

Inductive Event : Type :=
| Out (t : Token)                               (* MONITOR_SERIAL.print... *)
| SerialBegin (baud : Z)                        (* Serial.begin / MONITOR_SERIAL.begin *)
| SerialFlush                                   (* MONITOR_SERIAL.flush() *)
| SerialAvailable (n : Z)                       (* MONITOR_SERIAL.available() = n *)
| SerialReadStringUntil (c : ascii) (s : string)(* readStringUntil(c) = s *)
| Serial1Begin (baud rx tx : Z)                 (* RADAR_SERIAL.begin(...) *)
| Delay (ms : Z)                                (* delay(ms) *)
| Millis (v : Z)                                (* millis() = v *)
| RadarDebug                                    (* radar.debug(MONITOR_SERIAL) *)
| Call (c : LibCall)                            (* a library call is entered *)
| Ret (c : LibCall) (r : bool).                 (* ... and returns r *)

(** An event with the time (ms since boot, not wrapped) at which it happens. *)
Definition Trace : Type := list (Z * Event).

Definition events (t : Trace) : list Event := map snd t.

Definition LibCall_eqb (a b : LibCall) : bool :=
  match a, b with
  | Begin, Begin | Read, Read | IsConnected, IsConnected
  | RequestCurrentConfiguration, RequestCurrentConfiguration
  | RequestStartEngineeringMode, RequestStartEngineeringMode => true
  | _, _ => false
  end.

(** The tokens written to the monitor, in order. *)
Fixpoint output (es : list Event) : list Token :=
  match es with
  | [] => []
  | Out t :: r => t :: output r
  | _ :: r => output r
  end.

(** The library calls and returns, in order. *)
Fixpoint lib_events (es : list Event) : list Event :=
  match es with
  | [] => []
  | Call c :: r => Call c :: lib_events r
  | Ret c b :: r => Ret c b :: lib_events r
  | _ :: r => lib_events r
  end.

(** How many times library method [c] is entered. *)
Fixpoint calls_of (c : LibCall) (es : list Event) : nat :=
  match es with
  | [] => 0%nat
  | Call c' :: r => ((if LibCall_eqb c c' then 1 else 0) + calls_of c r)%nat
  | _ :: r => calls_of c r
  end.

(** The number of library calls entered and not yet returned stays at most
    one along the whole list, and is zero at its end. *)
Fixpoint one_at_a_time (pending : option LibCall) (es : list Event) : bool :=
  match es with
  | [] => match pending with None => true | Some _ => false end
  | Call c :: r =>
      match pending with
      | None => one_at_a_time (Some c) r
      | Some _ => false
      end
  | Ret c _ :: r =>
      match pending with
      | Some c' => LibCall_eqb c c' && one_at_a_time None r
      | None => false
      end
  | _ :: r => one_at_a_time pending r
  end.

(** ** The board: Arduino core and [ld2410] library *)

Class Board (W : Type) : Type := {
  (* build flags tested by #if in setup *)
  ARDUINO_USB_MODE : bool;
  ARDUINO_USB_CDC_ON_BOOT : bool;
  (* the clock: ms since boot, as the hardware counts them *)
  now : W -> Z;
  millis : W -> Z * W;
  delay : Z -> W -> W;
  (* monitor serial port (input side and set-up) *)
  Serial_begin : Z -> W -> W;
  Serial_flush : W -> W;
  Serial_available : W -> Z * W;
  Serial_readStringUntil : ascii -> W -> string * W;
  String_trim : string -> string;
  (* radar UART *)
  Serial1_begin : Z -> Z -> Z -> W -> W;
  (* ld2410 methods *)
  radar_debug : W -> W;
  radar_begin : W -> bool * W;
  radar_read : W -> bool * W;
  radar_isConnected : W -> bool * W;
  radar_requestCurrentConfiguration : W -> bool * W;
  radar_requestStartEngineeringMode : W -> bool * W;
  presenceDetected : W -> bool;
  stationaryTargetDetected : W -> bool;
  stationaryTargetDistance : W -> Z;
  stationaryTargetEnergy : W -> Z;
  movingTargetDetected : W -> bool;
  movingTargetDistance : W -> Z;
  movingTargetEnergy : W -> Z;
  (* ld2410 public fields *)
  firmware_major_version : W -> Z;
  firmware_minor_version : W -> Z;
  firmware_bugfix_version : W -> Z;
  max_gate : W -> Z;
  max_moving_gate : W -> Z;
  max_stationary_gate : W -> Z;
  sensor_idle_time : W -> Z;
  motion_sensitivity : W -> nat -> Z;
  stationary_sensitivity : W -> nat -> Z;
  engineering_moving_energy : W -> nat -> Z;
  engineering_stationary_energy : W -> nat -> Z
}.

(** The clock never runs backwards, and [millis()] is the clock modulo 2^32. *)
Class BoardLaws (W : Type) {B : Board W} : Prop := {
  millis_now : forall w, fst (millis w) = wrap32 (now (snd (millis w)));
  millis_mono : forall w, now w <= now (snd (millis w));
  delay_mono : forall ms w, now w <= now (delay ms w);
  Serial_begin_mono : forall b w, now w <= now (Serial_begin b w);
  Serial_flush_mono : forall w, now w <= now (Serial_flush w);
  Serial_available_mono : forall w, now w <= now (snd (Serial_available w));
  Serial_readStringUntil_mono :
    forall c w, now w <= now (snd (Serial_readStringUntil c w));
  Serial1_begin_mono : forall b rx tx w, now w <= now (Serial1_begin b rx tx w);
  radar_debug_mono : forall w, now w <= now (radar_debug w);
  radar_begin_mono : forall w, now w <= now (snd (radar_begin w));
  radar_read_mono : forall w, now w <= now (snd (radar_read w));
  radar_isConnected_mono : forall w, now w <= now (snd (radar_isConnected w));
  radar_requestCurrentConfiguration_mono :
    forall w, now w <= now (snd (radar_requestCurrentConfiguration w));
  radar_requestStartEngineeringMode_mono :
    forall w, now w <= now (snd (radar_requestStartEngineeringMode w))
}.

(** ** Sketch state *)

(** The globals of main.cpp (lines 25-28) and the function-static
    [debugCounter] of printDetectionInfo (line 108). *)
Record Globals : Type := mkGlobals {
  lastReading : Z;
  lastConfigRead : Z;
  configDisplayed : bool;
  engineeringMode : bool;
  debugCounter : Z
}.

Definition initial_globals : Globals :=
  {| lastReading := 0; lastConfigRead := 0; configDisplayed := false;
     engineeringMode := false; debugCounter := 0 |}.

Definition set_lastReading (v : Z) (g : Globals) : Globals :=
  {| lastReading := v; lastConfigRead := lastConfigRead g;
     configDisplayed := configDisplayed g; engineeringMode := engineeringMode g;
     debugCounter := debugCounter g |}.
Definition set_lastConfigRead (v : Z) (g : Globals) : Globals :=
  {| lastReading := lastReading g; lastConfigRead := v;
     configDisplayed := configDisplayed g; engineeringMode := engineeringMode g;
     debugCounter := debugCounter g |}.
Definition set_configDisplayed (v : bool) (g : Globals) : Globals :=
  {| lastReading := lastReading g; lastConfigRead := lastConfigRead g;
     configDisplayed := v; engineeringMode := engineeringMode g;
     debugCounter := debugCounter g |}.
Definition set_engineeringMode (v : bool) (g : Globals) : Globals :=
  {| lastReading := lastReading g; lastConfigRead := lastConfigRead g;
     configDisplayed := configDisplayed g; engineeringMode := v;
     debugCounter := debugCounter g |}.
Definition set_debugCounter (v : Z) (g : Globals) : Globals :=
  {| lastReading := lastReading g; lastConfigRead := lastConfigRead g;
     configDisplayed := configDisplayed g; engineeringMode := engineeringMode g;
     debugCounter := v |}.

Record St (W : Type) : Type := mkSt { world : W; globals : Globals }.
Arguments mkSt {W} _ _.
Arguments world {W} _.
Arguments globals {W} _.

(** ** The sketch monad: state passing plus the trace of what was done *)

Definition M (W A : Type) : Type := St W -> A * St W * Trace.

Definition ret {W A} (a : A) : M W A := fun s => (a, s, []).

Definition bind {W A B} (m : M W A) (f : A -> M W B) : M W B :=
  fun s =>
    let r1 := m s in
    let r2 := f (fst (fst r1)) (snd (fst r1)) in
    (fst (fst r2), snd (fst r2), snd r1 ++ snd r2).

Declare Scope sketch_scope.
Delimit Scope sketch_scope with sketch.
Notation "x <- c1 ;; c2" := (bind c1 (fun x => c2))
  (at level 61, c1 at next level, right associativity) : sketch_scope.
Notation "c1 ;; c2" := (bind c1 (fun _ => c2))
  (at level 61, right associativity) : sketch_scope.
Local Open Scope sketch_scope.

(** Value, final state and trace of a run. *)
Definition value_of {W A} (r : A * St W * Trace) : A := fst (fst r).
Definition state_of {W A} (r : A * St W * Trace) : St W := snd (fst r).
Definition trace_of {W A} (r : A * St W * Trace) : Trace := snd r.

Definition when {W} (b : bool) (m : M W unit) : M W unit :=
  if b then m else ret tt.

(** [for (x : l) body] without break. *)
Fixpoint for_each {W A} (l : list A) (body : A -> M W unit) : M W unit :=
  match l with
  | [] => ret tt
  | x :: r => body x ;; for_each r body
  end.

(** A [for] loop with a local variable of type [L] and [break]: the body
    returns the new local and whether it left the loop by [break]. *)
Fixpoint for_break {W A L} (l : list A) (body : A -> L -> M W (L * bool))
    (local : L) : M W L :=
  match l with
  | [] => ret local
  | x :: r =>
      lb <- body x local ;;
      if snd lb then ret (fst lb) else for_break r body (fst lb)
  end.

(** [0, 1, ..., n-1], the values of [i] in [for(int i = 0; i < n; i++)]. *)
Definition upto (n : nat) : list nat := seq 0 n.

Section Sketch.
Context {W : Type} {B : Board W}.

(** *** Primitive actions *)

Definition emit (e : Event) : M W unit :=
  fun s => (tt, s, [(now (world s), e)]).

Definition get_globals : M W Globals := fun s => (globals s, s, []).
Definition modify_globals (f : Globals -> Globals) : M W unit :=
  fun s => (tt, mkSt (world s) (f (globals s)), []).

(** Reading a field or calling a const accessor of [radar]. *)
Definition radar_get {A} (f : W -> A) : M W A := fun s => (f (world s), s, []).

(** A board operation without result: the event is stamped when it starts. *)
Definition act (e : Event) (f : W -> W) : M W unit :=
  fun s => (tt, mkSt (f (world s)) (globals s), [(now (world s), e)]).

(** A board operation with a result: the event is stamped when it returns. *)
Definition ask {A} (e : A -> Event) (f : W -> A * W) : M W A :=
  fun s =>
    let r := f (world s) in
    (fst r, mkSt (snd r) (globals s), [(now (snd r), e (fst r))]).

(** A blocking library call: entered at one time, returned at a later one. *)
Definition call (c : LibCall) (f : W -> bool * W) : M W bool :=
  fun s =>
    let r := f (world s) in
    (fst r, mkSt (snd r) (globals s),
     [(now (world s), Call c); (now (snd r), Ret c (fst r))]).

Definition print_str (s : string) : M W unit := emit (Out (TStr s)).
Definition print_char (c : ascii) : M W unit := emit (Out (TChar c)).
Definition print_dec (v : Z) : M W unit := emit (Out (TDec v)).
Definition print_hex (v : Z) : M W unit := emit (Out (THex v)).
Definition println : M W unit := emit (Out TLn).
Definition println_str (s : string) : M W unit := print_str s ;; println.
Definition println_dec (v : Z) : M W unit := print_dec v ;; println.

Definition sk_delay (ms : Z) : M W unit := act (Delay ms) (delay ms).
Definition sk_millis : M W Z := ask Millis millis.

(** *** Pin macros (lines 21-22) *)
Definition RADAR_RX_PIN : Z := 4.
Definition RADAR_TX_PIN : Z := 5.

(** *** printSeparator (lines 30-32) *)
Definition printSeparator : M W unit :=
  println_str "====================================".

(** *** printConfiguration (lines 34-68) *)
Definition printConfiguration : M W unit :=
  printSeparator ;;
  println_str "SENSOR CONFIGURATION:" ;;
  printSeparator ;;
  print_str "Max gate: " ;;
  v <- radar_get max_gate ;; println_dec v ;;
  print_str "Max moving gate: " ;;
  v <- radar_get max_moving_gate ;; println_dec v ;;
  print_str "Max stationary gate: " ;;
  v <- radar_get max_stationary_gate ;; println_dec v ;;
  print_str "Sensor idle time: " ;;
  v <- radar_get sensor_idle_time ;; print_dec v ;;
  println_str " seconds" ;;
  println_str (nl ++ "Motion Sensitivity (per gate):")%string ;;
  for_each (upto 9) (fun i =>
    print_str "  Gate " ;;
    print_dec (Z.of_nat i) ;;
    print_str ": " ;;
    v <- radar_get (fun w => motion_sensitivity w i) ;; println_dec v) ;;
  println_str (nl ++ "Stationary Sensitivity (per gate):")%string ;;
  for_each (upto 9) (fun i =>
    print_str "  Gate " ;;
    print_dec (Z.of_nat i) ;;
    print_str ": " ;;
    v <- radar_get (fun w => stationary_sensitivity w i) ;; println_dec v) ;;
  printSeparator.

(** *** printDetectionInfo (lines 69-114) *)

(** Lines 70-91: the presence line. *)
Definition detection_line : M W unit :=
  print_str "Presence: " ;;
  present <- radar_get presenceDetected ;;
  if present then
    print_str "YES" ;;
    stationary <- radar_get stationaryTargetDetected ;;
    when stationary (
      print_str " | Stationary: " ;;
      d <- radar_get stationaryTargetDistance ;; print_dec d ;;
      print_str "cm E:" ;;
      e <- radar_get stationaryTargetEnergy ;; print_dec e) ;;
    moving <- radar_get movingTargetDetected ;;
    when moving (
      print_str " | Moving: " ;;
      d <- radar_get movingTargetDistance ;; print_dec d ;;
      print_str "cm E:" ;;
      e <- radar_get movingTargetEnergy ;; print_dec e) ;;
    println
  else
    println_str "NO".

(** Lines 93-113: the per-gate line, or the debug reminder every 50th call.
    [debugCounter] is an [int] that starts at 0 and is reset when it reaches
    50, so [++debugCounter] never leaves the range of [int]. *)
Definition gate_lines : M W unit :=
  g <- get_globals ;;
  if engineeringMode g then
    print_str "GATES_MOV:" ;;
    for_each (upto 9) (fun i =>
      v <- radar_get (fun w => engineering_moving_energy w i) ;; print_dec v ;;
      when (Z.of_nat i <? 8) (print_str ",")) ;;
    print_str " | GATES_STAT:" ;;
    for_each (upto 9) (fun i =>
      v <- radar_get (fun w => engineering_stationary_energy w i) ;; print_dec v ;;
      when (Z.of_nat i <? 8) (print_str ",")) ;;
    println
  else
    modify_globals (fun g => set_debugCounter (debugCounter g + 1) g) ;;
    g <- get_globals ;;
    when (debugCounter g >=? 50) (
      println_str "DEBUG: Engineering mode not enabled" ;;
      modify_globals (set_debugCounter 0)).

Definition printDetectionInfo : M W unit :=
  detection_line ;; gate_lines.

(** *** setup (lines 116-214) *)

(** Lines 181-197: the retry loop; the local is [eng_success]. *)
Definition enable_engineering_mode : M W bool :=
  for_break (upto 3) (fun attempt (eng_success : bool) =>
    print_str "Attempt " ;;
    print_dec (Z.of_nat attempt + 1) ;;
    print_str "/3... " ;;
    act SerialFlush Serial_flush ;;
    ok <- call RequestStartEngineeringMode radar_requestStartEngineeringMode ;;
    if ok then
      println_str "SUCCESS" ;;
      modify_globals (set_engineeringMode true) ;;
      ret (true, true)
    else
      println_str "FAILED" ;;
      sk_delay 1000 ;;
      ret (eng_success, false)) false.

Definition setup : M W unit :=
  when ARDUINO_USB_MODE (act (SerialBegin 115200) (Serial_begin 115200)) ;;
  when ARDUINO_USB_CDC_ON_BOOT (sk_delay 100) ;;
  act (SerialBegin 115200) (Serial_begin 115200) ;;
  sk_delay 2000 ;;
  act RadarDebug radar_debug ;;
  printSeparator ;;
  println_str "ESP32-C6 LD2410C Radar Sensor" ;;
  printSeparator ;;
  print_str "Radar TX connected to GPIO " ;;
  println_dec RADAR_RX_PIN ;;
  print_str "Radar RX connected to GPIO " ;;
  println_dec RADAR_TX_PIN ;;
  println_str "Initializing radar UART..." ;;
  act (Serial1Begin 256000 RADAR_RX_PIN RADAR_TX_PIN)
      (Serial1_begin 256000 RADAR_RX_PIN RADAR_TX_PIN) ;;
  sk_delay 1000 ;;
  println_str "UART initialized, connecting to radar..." ;;
  print_str (nl ++ "Initializing LD2410 radar: ")%string ;;
  began <- call Begin radar_begin ;;
  if began then
    println_str "SUCCESS" ;;
    printSeparator ;;
    println_str "FIRMWARE INFORMATION:" ;;
    printSeparator ;;
    print_str "Version: " ;;
    v <- radar_get firmware_major_version ;; print_dec v ;;
    print_char "."%char ;;
    v <- radar_get firmware_minor_version ;; print_dec v ;;
    print_char "."%char ;;
    v <- radar_get firmware_bugfix_version ;; print_hex v ;;
    println ;;
    println_str (nl ++ "Requesting configuration...")%string ;;
    got <- call RequestCurrentConfiguration radar_requestCurrentConfiguration ;;
    (if got then
       println_str "Configuration read successfully" ;;
       sk_delay 500 ;;
       printConfiguration ;;
       modify_globals (set_configDisplayed true)
     else
       println_str "Failed to read configuration") ;;
    println_str (nl ++ "Enabling engineering mode...")%string ;;
    sk_delay 1000 ;;
    act RadarDebug radar_debug ;;
    eng_success <- enable_engineering_mode ;;
    when (negb eng_success) (
      println_str "Engineering mode could not be enabled" ;;
      println_str "Note: Some LD2410 variants may not support engineering mode" ;;
      println_str "Continuing with basic detection mode...") ;;
    printSeparator ;;
    println_str "REAL-TIME DETECTION DATA:" ;;
    println_str "(Updates every 500ms)" ;;
    println_str
      "Format: Presence: YES/NO | Stationary: XXcm E:YY | Moving: XXcm E:YY" ;;
    printSeparator
  else
    println_str "FAILED - Check connections".

(** *** loop (lines 216-270) *)

(** Lines 219-221. *)
Definition poll_radar : M W unit :=
  for_each (upto 10) (fun _ => _ <- call Read radar_read ;; ret tt).

(** Lines 230-243: the reply to GET_CONFIG. *)
Definition send_config : M W unit :=
  println_str "CONFIG_START" ;;
  for_each (upto 9) (fun i =>
    print_str "SENSITIVITY_MOTION:" ;;
    print_dec (Z.of_nat i) ;;
    print_str ":" ;;
    v <- radar_get (fun w => motion_sensitivity w i) ;; println_dec v) ;;
  for_each (upto 9) (fun i =>
    print_str "SENSITIVITY_STATIC:" ;;
    print_dec (Z.of_nat i) ;;
    print_str ":" ;;
    v <- radar_get (fun w => stationary_sensitivity w i) ;; println_dec v) ;;
  println_str "CONFIG_END".

(** Lines 228-244: what is done with the trimmed line [cmd]. *)
Definition dispatch (cmd : string) : M W unit :=
  when (String.eqb cmd "GET_CONFIG") send_config.

(** Lines 224-245. *)
Definition serve_monitor : M W unit :=
  n <- ask SerialAvailable Serial_available ;;
  when (negb (n =? 0)) (
    line <- ask (SerialReadStringUntil "010"%char)
                (Serial_readStringUntil "010"%char) ;;
    dispatch (String_trim line)).

(** Lines 249-252. *)
Definition report_detection : M W unit :=
  m <- sk_millis ;;
  g <- get_globals ;;
  when (wrap32 (m - lastReading g) >? 500) (
    m' <- sk_millis ;;
    modify_globals (set_lastReading m') ;;
    printDetectionInfo).

(** Lines 255-263.  [&&] is short-circuit: [millis()] is read only while
    [configDisplayed] is false. *)
Definition retry_configuration : M W unit :=
  g <- get_globals ;;
  due <- (if negb (configDisplayed g) then
            m <- sk_millis ;; ret (wrap32 (m - lastConfigRead g) >? 30000)
          else ret false) ;;
  when due (
    m' <- sk_millis ;;
    modify_globals (set_lastConfigRead m') ;;
    println_str (nl ++ "Retrying configuration read...")%string ;;
    got <- call RequestCurrentConfiguration radar_requestCurrentConfiguration ;;
    when got (
      sk_delay 500 ;;
      printConfiguration ;;
      modify_globals (set_configDisplayed true))).

(** Lines 265-268. *)
Definition report_disconnected : M W unit :=
  m <- sk_millis ;;
  g <- get_globals ;;
  when (wrap32 (m - lastReading g) >? 5000) (
    m' <- sk_millis ;;
    modify_globals (set_lastReading m') ;;
    println_str "Radar disconnected - Check connections").

Definition loop : M W unit :=
  poll_radar ;;
  serve_monitor ;;
  connected <- call IsConnected radar_isConnected ;;
  if connected then
    report_detection ;;
    retry_configuration
  else
    report_disconnected.

(** [n] iterations of [loop], as the Arduino runtime runs them. *)
Fixpoint run (n : nat) : M W unit :=
  match n with
  | O => ret tt
  | S k => loop ;; run k
  end.

End Sketch.

(** * Views of a trace and properties of runs *)

Section Views.
Context {W : Type} {B : Board W}.

(** ** Frame properties of a computation *)

(** No event selected by [keep] is produced. *)
Definition Silent {A} (keep : Event -> bool) (m : M W A) : Prop :=
  forall s, Forall (fun te => keep (snd te) = false) (trace_of (m s)).

(** The part [proj] of the globals is left as it was. *)
Definition Keeps {A X} (proj : Globals -> X) (m : M W A) : Prop :=
  forall s, proj (globals (state_of (m s))) = proj (globals s).

(** The clock does not go back. *)
Definition Forward {A} (m : M W A) : Prop :=
  forall s, now (world s) <= now (world (state_of (m s))).

(** The hardware state is left as it was. *)
Definition Pure {A} (m : M W A) : Prop :=
  forall s, world (state_of (m s)) = world s.

(** A flag of the globals goes from false to true only in a run that
    contains the event [e]. *)
Definition Justified {A} (flag : Globals -> bool) (e : Event) (m : M W A) : Prop :=
  forall s,
    flag (globals s) = false ->
    flag (globals (state_of (m s))) = true ->
    In e (events (trace_of (m s))).

(** A flag of the globals that is true stays true. *)
Definition Stays {A} (flag : Globals -> bool) (m : M W A) : Prop :=
  forall s, flag (globals s) = true -> flag (globals (state_of (m s))) = true.

(** The library calls and returns of every run satisfy [P]. *)
Definition Shape {A} (P : list Event -> Prop) (m : M W A) : Prop :=
  forall s, P (lib_events (events (trace_of (m s)))).

Definition is_call_of (c : LibCall) (e : Event) : bool :=
  match e with
  | Call c' => LibCall_eqb c c'
  | _ => false
  end.

(** The trace of one [radar.read()] that returned [r]. *)
Definition read_pair (r : bool) : list Event := [Call Read; Ret Read r].

(** Monitor output. *)
Definition is_out (e : Event) : bool :=
  match e with
  | Out _ => true
  | _ => false
  end.

Definition is_lib_event (e : Event) : bool :=
  match e with
  | Call _ | Ret _ _ => true
  | _ => false
  end.

(** *** The retry loop of setup *)

(** What attempt number [i] (from 0) does when the call returns [ok]. *)
Definition attempt_block (i : nat) (ok : bool) : list Event :=
  [Out (TStr "Attempt "); Out (TDec (Z.of_nat i + 1)); Out (TStr "/3... ");
   SerialFlush;
   Call RequestStartEngineeringMode; Ret RequestStartEngineeringMode ok] ++
  (if ok then [Out (TStr "SUCCESS"); Out TLn]
   else [Out (TStr "FAILED"); Out TLn; Delay 1000]).

(** The attempts numbered from [i] with the given results. *)
Fixpoint attempt_blocks (i : nat) (results : list bool) : list Event :=
  match results with
  | [] => []
  | ok :: r => attempt_block i ok ++ attempt_blocks (S i) r
  end.

(** Only the last attempt may have succeeded. *)
Fixpoint stops_at_first_success (results : list bool) : bool :=
  match results with
  | [] => true
  | ok :: r => if ok then match r with [] => true | _ => false end
               else stops_at_first_success r
  end.

(** A return of the library call [c]. *)
Definition is_return_of (c : LibCall) (e : Event) : bool :=
  match e with
  | Ret c' _ => LibCall_eqb c c'
  | _ => false
  end.

(** The values returned by the calls of [c], oldest first. *)
Fixpoint returns_of (c : LibCall) (es : list Event) : list bool :=
  match es with
  | [] => []
  | Ret c' r :: rest =>
      if LibCall_eqb c c' then r :: returns_of c rest else returns_of c rest
  | _ :: rest => returns_of c rest
  end.

(** What the attempts of the retry loop can return when it is run to its
    end: there is a first attempt, a failed attempt is followed by the next
    one until the third, and a success is the last attempt. *)
Definition retry_outcomes : list (list bool) :=
  [[true]; [false; true]; [false; false; true]; [false; false; false]].

(** The retry loop as a part of a run that starts with the flag
    [engineeringMode] false and comes after the return of radar.begin: the
    attempts are consecutive blocks of the run, their results are one of
    [retry_outcomes], no other part of the run calls
    requestStartEngineeringMode, and the flag ends up true exactly when an
    attempt succeeded. *)
Definition Retry {A} (m : M W A) : Prop :=
  forall s,
    engineeringMode (globals s) = false ->
    exists (pre post : list Event) (results : list bool),
      events (trace_of (m s)) = pre ++ attempt_blocks 0 results ++ post /\
      returns_of Begin pre = [] /\
      calls_of RequestStartEngineeringMode pre = 0%nat /\
      calls_of RequestStartEngineeringMode post = 0%nat /\
      In results retry_outcomes /\
      engineeringMode (globals (state_of (m s))) = existsb (fun ok => ok) results.

(** The same for a run that contains the call of radar.begin: it returns
    once, before the attempts; the retry loop is run to its end when it
    returned true, and there is no attempt at all when it returned false. *)
Definition Retried {A} (m : M W A) : Prop :=
  forall s,
    engineeringMode (globals s) = false ->
    exists (began : bool) (pre post : list Event) (results : list bool),
      events (trace_of (m s)) = pre ++ attempt_blocks 0 results ++ post /\
      returns_of Begin pre = [began] /\
      (if began then In results retry_outcomes else results = []) /\
      calls_of RequestStartEngineeringMode pre = 0%nat /\
      calls_of RequestStartEngineeringMode post = 0%nat /\
      engineeringMode (globals (state_of (m s))) = existsb (fun ok => ok) results.

(** *** The commands of setup *)

Definition engineering_pair (r : bool) : list Event :=
  [Call RequestStartEngineeringMode; Ret RequestStartEngineeringMode r].

(** The library calls of setup when radar.begin returns [began],
    requestCurrentConfiguration returns [got] and the attempts to start
    engineering mode return [attempts]. *)
Definition setup_commands (began got : bool) (attempts : list bool) : list Event :=
  [Call Begin; Ret Begin began] ++
  (if began then
     [Call RequestCurrentConfiguration; Ret RequestCurrentConfiguration got] ++
     flat_map engineering_pair attempts
   else []).

(** *** The reply to GET_CONFIG, as the console protocol words it *)

Definition config_reply_lines (w : W) : list string :=
  ["CONFIG_START"] ++
  map (fun i => "SENSITIVITY_MOTION:" ++ dec (Z.of_nat i) ++ ":" ++
                dec (motion_sensitivity w i))%string (upto 9) ++
  map (fun i => "SENSITIVITY_STATIC:" ++ dec (Z.of_nat i) ++ ":" ++
                dec (stationary_sensitivity w i))%string (upto 9) ++
  ["CONFIG_END"].

(** Lines as they appear on the wire, each ended by CR LF. *)
Definition wire (lines : list string) : string :=
  String.concat "" (map (fun l => l ++ crlf)%string lines).

(** *** The per-gate line, as the console protocol words it *)

Definition gates_line (w : W) : string :=
  ("GATES_MOV:" ++
   String.concat "," (map (fun i => dec (engineering_moving_energy w i)) (upto 9)) ++
   " | GATES_STAT:" ++
   String.concat "," (map (fun i => dec (engineering_stationary_energy w i)) (upto 9)) ++
   crlf)%string.

(** *** The two periodic reports of loop *)

Inductive Report : Type := Detection | Disconnected.

Definition report_of (e : Event) : option Report :=
  match e with
  | Out (TStr s) =>
      if String.eqb s "Presence: " then Some Detection
      else if String.eqb s "Radar disconnected - Check connections"
           then Some Disconnected
           else None
  | _ => None
  end.

(** The minimum distance in ms to the report before. *)
Definition threshold (r : Report) : Z :=
  match r with
  | Detection => 500
  | Disconnected => 5000
  end.

(** A re-request of the configuration. *)
Definition retry_of (e : Event) : option unit :=
  match e with
  | Call RequestCurrentConfiguration => Some tt
  | _ => None
  end.

(** While [configDisplayed] is true it stays true and the configuration is
    not requested. *)
Definition Dormant {A} (m : M W A) : Prop :=
  forall s,
    configDisplayed (globals s) = true ->
    configDisplayed (globals (state_of (m s))) = true /\
    calls_of RequestCurrentConfiguration (events (trace_of (m s))) = 0%nat.

(** A command line [cmd] (already trimmed) is recognised when handling it
    does anything at all: some output, or some change of state. *)
Definition recognised (cmd : string) : Prop :=
  exists s : St W, dispatch cmd s <> (tt, s, []).

End Views.

(** The marked events of a trace with their times, for a marking [mark]. *)
Fixpoint marks {K} (mark : Event -> option K) (t : Trace) : list (Z * K) :=
  match t with
  | [] => []
  | (time, e) :: r =>
      match mark e with
      | Some k => (time, k) :: marks mark r
      | None => marks mark r
      end
  end.

(** Every marked event comes more than its threshold after the one before
    it ([prev] is the time of the last one seen so far, if any). *)
Fixpoint paced {K} (thr : K -> Z) (prev : option Z) (l : list (Z * K)) : bool :=
  match l with
  | [] => true
  | (time, k) :: r =>
      match prev with
      | None => true
      | Some t0 => thr k <? time - t0
      end && paced thr (Some time) r
  end.

(** The events that [mark] selects. *)
Definition marked {K} (mark : Event -> option K) (e : Event) : bool :=
  match mark e with
  | Some _ => true
  | None => false
  end.

Definition Report_eqb (a b : Report) : bool :=
  match a, b with
  | Detection, Detection | Disconnected, Disconnected => true
  | _, _ => false
  end.

(** The events that are a report of kind [r]. *)
Definition is_report (r : Report) (e : Event) : bool :=
  match report_of e with
  | Some r' => Report_eqb r r'
  | None => false
  end.

(** The discipline of a time stamp kept in the globals ([stamp]) for the
    events selected by [mark]: a run produces no such event and leaves the
    stamp alone, or it produces one, at a time [t] that it stores (modulo
    2^32) in the stamp and that is more than [thr] after the time of any
    earlier stamp.  In both cases the clock does not go back. *)
Definition Step {W} {B : Board W} {K A} (mark : Event -> option K) (thr : K -> Z)
    (stamp : Globals -> Z) (m : M W A) : Prop :=
  forall s,
    now (world s) <= now (world (state_of (m s))) /\
    ((marks mark (trace_of (m s)) = [] /\
      stamp (globals (state_of (m s))) = stamp (globals s)) \/
     (exists t k,
        marks mark (trace_of (m s)) = [(t, k)] /\
        stamp (globals (state_of (m s))) = wrap32 t /\
        t <= now (world (state_of (m s))) /\
        forall t0, stamp (globals s) = wrap32 t0 -> t0 <= now (world s) ->
                   thr k < t - t0)).

(** What is known of the stamp before a run: nothing, or the time [t0] of
    the last marked event. *)
Definition stamped {W} {B : Board W} (stamp : Globals -> Z) (prev : option Z)
    (s : St W) : Prop :=
  match prev with
  | None => True
  | Some t0 => stamp (globals s) = wrap32 t0 /\ t0 <= now (world s)
  end.

(** * The frame decoder of the ld2410 library *)

Module Decoder.

(** Modelled from the spec: the frame decoder of the [ld2410] library, which
    main.cpp only calls (through [radar.read()] and the accessors).  The spec
    (4.2, 8) says that the target-state byte of a data-report frame is an
    enumerated value for the presence/moving/stationary combination, and that
    the decoder maps it to the flags of a DetectionReport. *)
Inductive TargetState : Type :=
| NoTarget
| MovingOnly
| StationaryOnly
| MovingAndStationary.

(** Modelled from the spec: the DetectionReport record of section 3. *)
Record DetectionReport : Type := mkReport {
  presence : bool;
  stationaryDetected : bool;
  stationaryDistanceCm : Z;
  stationaryEnergy : Z;
  movingDetected : bool;
  movingDistanceCm : Z;
  movingEnergy : Z
}.

(** Modelled from the spec: decoding of the fields of a data-report frame
    (target state, then moving distance, moving energy, stationary distance,
    stationary energy). *)
Definition decode (t : TargetState) (md me sd se : Z) : DetectionReport :=
  {| presence := match t with NoTarget => false | _ => true end;
     stationaryDetected :=
       match t with StationaryOnly | MovingAndStationary => true | _ => false end;
     stationaryDistanceCm := sd;
     stationaryEnergy := se;
     movingDetected :=
       match t with MovingOnly | MovingAndStationary => true | _ => false end;
     movingDistanceCm := md;
     movingEnergy := me |}.

(** Modelled from the spec: the accessors of the library read the flags of
    the latest report. *)
Definition presenceDetected (r : DetectionReport) : bool := presence r.
Definition movingTargetDetected (r : DetectionReport) : bool := movingDetected r.
Definition stationaryTargetDetected (r : DetectionReport) : bool :=
  stationaryDetected r.

End Decoder.

(** * The command engine of the library *)

Module Engine.

(** Modelled from the spec: the commands of the command/response engine of
    the [ld2410] library, which main.cpp only calls (through
    [radar.requestStartEngineeringMode()] and the like).  Section 2 names
    them: enter and exit configuration mode, read configuration, enable
    engineering mode. *)
Inductive Command : Type :=
| EnterConfiguration
| ExitConfiguration
| ReadConfiguration
| EnableEngineering.

(** Modelled from the spec: a reply is matched to a command by equality of
    the command code (3). *)
Definition Command_eqb (a b : Command) : bool :=
  match a, b with
  | EnterConfiguration, EnterConfiguration
  | ExitConfiguration, ExitConfiguration
  | ReadConfiguration, ReadConfiguration
  | EnableEngineering, EnableEngineering => true
  | _, _ => false
  end.

(** Modelled from the spec: the CommandFrame of section 3, a command code
    with parameter bytes. *)
Record CommandFrame : Type := mkCommand {
  command_code : Command;
  parameters : list Z
}.

(** Modelled from the spec: the AckFrame of section 3, a command code, a
    status (success or fail) and a return payload. *)
Record AckFrame : Type := mkAck {
  ack_code : Command;
  status : bool;
  payload : list Z
}.

(** Modelled from the spec: what the assembler and decoder deliver at a
    poll, a data report or the reply to a command (4.1, 4.2). *)
Inductive Frame : Type :=
| DataReport
| Ack (a : AckFrame).

(** Modelled from the spec: the result of sendCommand (4.3). *)
Inductive Outcome : Type :=
| Acked (a : AckFrame)
| Timeout.

(** Modelled from the spec: the engine with its transport.  [written] holds
    the command frames written to the transport, oldest first; [pending]
    the frames that the sensor sends, in the order in which the polls find
    them. *)
Record State : Type := mkState {
  in_configuration : bool;
  written : list CommandFrame;
  pending : list Frame
}.

(** Modelled from the spec: a command frame is written to the transport. *)
Definition emit_frame (c : CommandFrame) (e : State) : State :=
  mkState (in_configuration e) (written e ++ [c]) (pending e).

(** Modelled from the spec: a poll consumes the frame it finds. *)
Definition set_pending (l : list Frame) (e : State) : State :=
  mkState (in_configuration e) (written e) l.

(** Modelled from the spec: configuration mode is entered or left. *)
Definition set_in_configuration (b : bool) (e : State) : State :=
  mkState b (written e) (pending e).

(** Modelled from the spec: steps (3) and (4) of sendCommand.  The engine
    polls for an AckFrame whose command code matches, and discards the data
    reports seen in between; a match within the timeout is returned, and
    the outcome is Timeout otherwise.  The timeout is counted in polls. *)
Fixpoint await (code : Command) (timeout : nat) (e : State) : Outcome * State :=
  match timeout with
  | O => (Timeout, e)
  | S t =>
      match pending e with
      | [] => await code t e
      | DataReport :: rest => await code t (set_pending rest e)
      | Ack a :: rest =>
          if Command_eqb (ack_code a) code then (Acked a, set_pending rest e)
          else await code t (set_pending rest e)
      end
  end.

(** Modelled from the spec: sendCommand(code, params, timeout) of 4.3.
    (1) An enter-configuration frame is emitted if the engine is not in
    configuration mode, and its ACK awaited; (2) the target frame is
    emitted; (3), (4) the matching ACK is awaited; (5) an exit-configuration
    frame is emitted if the caller's policy [exit_after] says so.  Nothing
    is emitted again after a timeout. *)
Definition sendCommand (code : Command) (params : list Z) (timeout : nat)
    (exit_after : bool) (e : State) : Outcome * State :=
  let entered :=
    if in_configuration e then (true, e)
    else
      match await EnterConfiguration timeout
                  (emit_frame (mkCommand EnterConfiguration []) e) with
      | (Acked _, e1) => (true, set_in_configuration true e1)
      | (Timeout, e1) => (false, e1)
      end in
  if fst entered then
    let r := await code timeout (emit_frame (mkCommand code params) (snd entered)) in
    (fst r,
     if exit_after
     then set_in_configuration false
            (emit_frame (mkCommand ExitConfiguration []) (snd r))
     else snd r)
  else (Timeout, snd entered).

(** Modelled from the spec: the request to enable engineering mode; its
    reply decodes into a bare success flag (4.2), and a timeout is a
    failure of the request (7). *)
Definition requestStartEngineeringMode (timeout : nat) (exit_after : bool)
    (e : State) : bool * State :=
  match sendCommand EnableEngineering [] timeout exit_after e with
  | (Acked a, e') => (status a, e')
  | (Timeout, e') => (false, e')
  end.

(** The command frames that one call writes when the engine was in
    configuration mode or not ([was_in]) and configuration mode could be
    entered or not ([entered]): the target frame appears once at most. *)
Definition frames_of_call (target : CommandFrame) (exit_after was_in entered : bool)
  : list CommandFrame :=
  (if was_in then [] else [mkCommand EnterConfiguration []]) ++
  (if entered
   then target :: (if exit_after then [mkCommand ExitConfiguration []] else [])
   else []).

(** How often the command [c] has been written to the transport. *)
Definition sent (c : Command) (e : State) : nat :=
  List.length (filter (fun f => Command_eqb c (command_code f)) (written e)).

End Engine.

(** * A simulated board *)

(** A small concrete board, used to run the sketch on examples: the clock
    advances by fixed amounts, the library answers from scripts. *)
Module Sim.

Record World : Type := mkWorld {
  clock : Z;                      (* ms since boot *)
  begin_reply : bool;             (* what radar.begin returns *)
  config_replies : list bool;     (* successive requestCurrentConfiguration *)
  engineering_replies : list bool;(* successive requestStartEngineeringMode *)
  link : bool;                    (* what radar.isConnected returns *)
  monitor_lines : list string;    (* lines waiting on the monitor port *)
  report : Decoder.DetectionReport(* the latest decoded report *)
}.

Definition tick (d : Z) (w : World) : World :=
  {| clock := clock w + Z.max 0 d; begin_reply := begin_reply w;
     config_replies := config_replies w;
     engineering_replies := engineering_replies w; link := link w;
     monitor_lines := monitor_lines w; report := report w |}.

Definition pop_config (w : World) : bool * World :=
  (hd false (config_replies w),
   {| clock := clock w + 100; begin_reply := begin_reply w;
      config_replies := tl (config_replies w);
      engineering_replies := engineering_replies w; link := link w;
      monitor_lines := monitor_lines w; report := report w |}).

Definition pop_engineering (w : World) : bool * World :=
  (hd false (engineering_replies w),
   {| clock := clock w + 100; begin_reply := begin_reply w;
      config_replies := config_replies w;
      engineering_replies := tl (engineering_replies w); link := link w;
      monitor_lines := monitor_lines w; report := report w |}).

Definition pop_line (w : World) : string * World :=
  (hd EmptyString (monitor_lines w),
   {| clock := clock w + 1; begin_reply := begin_reply w;
      config_replies := config_replies w;
      engineering_replies := engineering_replies w; link := link w;
      monitor_lines := tl (monitor_lines w); report := report w |}).

Definition isspace (c : ascii) : bool :=
  let n := nat_of_ascii c in
  ((n =? 32) || ((9 <=? n) && (n <=? 13)))%nat.

Fixpoint trim_left (s : string) : string :=
  match s with
  | EmptyString => EmptyString
  | String c r => if isspace c then trim_left r else s
  end.

Fixpoint trim_right (s : string) : string :=
  match s with
  | EmptyString => EmptyString
  | String c r =>
      match trim_right r with
      | EmptyString => if isspace c then EmptyString else String c EmptyString
      | r' => String c r'
      end
  end.

Definition trim (s : string) : string := trim_right (trim_left s).

#[global] Instance board : Board World := {|
  ARDUINO_USB_MODE := true;
  ARDUINO_USB_CDC_ON_BOOT := false;
  now := clock;
  millis := fun w => (wrap32 (clock w + 1), tick 1 w);
  delay := tick;
  Serial_begin := fun _ w => w;
  Serial_flush := fun w => w;
  Serial_available := fun w => (Z.of_nat (List.length (monitor_lines w)), w);
  Serial_readStringUntil := fun _ w => pop_line w;
  String_trim := trim;
  Serial1_begin := fun _ _ _ w => w;
  radar_debug := fun w => w;
  radar_begin := fun w => (begin_reply w, tick 50 w);
  radar_read := fun w => (true, tick 5 w);
  radar_isConnected := fun w => (link w, w);
  radar_requestCurrentConfiguration := pop_config;
  radar_requestStartEngineeringMode := pop_engineering;
  presenceDetected := fun w => Decoder.presenceDetected (report w);
  stationaryTargetDetected := fun w => Decoder.stationaryTargetDetected (report w);
  stationaryTargetDistance := fun w => Decoder.stationaryDistanceCm (report w);
  stationaryTargetEnergy := fun w => Decoder.stationaryEnergy (report w);
  movingTargetDetected := fun w => Decoder.movingTargetDetected (report w);
  movingTargetDistance := fun w => Decoder.movingDistanceCm (report w);
  movingTargetEnergy := fun w => Decoder.movingEnergy (report w);
  firmware_major_version := fun _ => 2;
  firmware_minor_version := fun _ => 4;
  firmware_bugfix_version := fun _ => 587268369;
  max_gate := fun _ => 8;
  max_moving_gate := fun _ => 8;
  max_stationary_gate := fun _ => 8;
  sensor_idle_time := fun _ => 5;
  motion_sensitivity := fun _ i => nth i [50; 50; 40; 30; 20; 15; 15; 15; 15] 0;
  stationary_sensitivity := fun _ i => nth i [0; 0; 40; 40; 30; 30; 20; 20; 20] 0;
  engineering_moving_energy := fun _ i => Z.of_nat i;
  engineering_stationary_energy := fun _ i => 10 + Z.of_nat i
|}.

(** The board at boot: radar answering, configuration read at the third
    request, engineering mode accepted at the second attempt, one command
    waiting on the monitor port, a moving and a stationary target. *)
Definition boot : World :=
  {| clock := 0; begin_reply := true;
     config_replies := [false; false; true];
     engineering_replies := [false; true];
     link := true;
     monitor_lines := [" GET_CONFIG" ++ String "013"%char EmptyString]%string;
     report := Decoder.decode Decoder.MovingAndStationary 75 60 120 45 |}.

Definition start : St World := mkSt boot initial_globals.

(** The same board with the radar unplugged. *)
Definition unplugged : St World :=
  mkSt {| clock := 0; begin_reply := false; config_replies := [];
          engineering_replies := []; link := false; monitor_lines := [];
          report := Decoder.decode Decoder.NoTarget 0 0 0 0 |}
       initial_globals.

(** The state in which loop first runs. *)
Definition after_setup : St World := state_of (setup start).

End Sim.


(** * Further views of a run *)

(** How many events of a list satisfy [p]. *)
Definition count (p : Event -> bool) (es : list Event) : nat :=
  List.length (filter p es).

(** printDetectionInfo is entered (it starts by printing "Presence: "). *)
Definition is_detection : Event -> bool := is_report Detection.

(** The reminder of line 110. *)
Definition is_debug_notice (e : Event) : bool :=
  match e with
  | Out (TStr s) => String.eqb s "DEBUG: Engineering mode not enabled"
  | _ => false
  end.

(** The start of the per-gate line (line 95). *)
Definition is_gates_line (e : Event) : bool :=
  match e with
  | Out (TStr s) => String.eqb s "GATES_MOV:"
  | _ => false
  end.

Definition is_available (e : Event) : bool :=
  match e with
  | SerialAvailable _ => true
  | _ => false
  end.

Definition is_line_read (e : Event) : bool :=
  match e with
  | SerialReadStringUntil _ _ => true
  | _ => false
  end.

Definition is_delay (e : Event) : bool :=
  match e with
  | Delay _ => true
  | _ => false
  end.

(** The arguments of the delay() calls, in order. *)
Fixpoint delays (es : list Event) : list Z :=
  match es with
  | [] => []
  | Delay ms :: r => ms :: delays r
  | _ :: r => delays r
  end.

(** The time spent in delay(), in ms. *)
Definition total_delay (es : list Event) : Z := fold_right Z.add 0 (delays es).

(** The events that take time: library calls, their returns, and delays. *)
Definition timing (e : Event) : bool := is_lib_event e || is_delay e.

(** ** A ledger: an invariant and a relation that add up along a run *)

(** A part of the globals ([part]), a condition on it that runs keep
    ([holds]), and a relation [rel x es y] between that part before a run,
    the events of the run and the part after it.  Events that are [neutral]
    do not count for the relation. *)
Record Ledger (X : Type) : Type := mkLedger {
  part : Globals -> X;
  holds : X -> Prop;
  neutral : Event -> bool;
  rel : X -> list Event -> X -> Prop
}.
Arguments part {X} _ _.
Arguments holds {X} _ _.
Arguments neutral {X} _ _.
Arguments rel {X} _ _ _ _.

(** The relation ignores neutral events and composes along concatenation. *)
Record LedgerLaws {X : Type} (L : Ledger X) : Prop := mkLedgerLaws {
  rel_neutral : forall x es, forallb (neutral L) es = true -> rel L x es x;
  rel_app : forall x y z a b, rel L x a y -> rel L y b z -> rel L x (a ++ b) z
}.

(** A computation respects a ledger. *)
Definition Acc {W X A} (L : Ledger X) (m : M W A) : Prop :=
  forall s,
    holds L (part L (globals s)) ->
    holds L (part L (globals (state_of (m s)))) /\
    rel L (part L (globals s)) (events (trace_of (m s)))
          (part L (globals (state_of (m s)))).

(** With engineering mode off: [debugCounter] stays in 0..49 and counts the
    calls of printDetectionInfo modulo 50, one reminder per full 50. *)
Definition tally : Ledger (bool * Z) :=
  {| part := fun g => (engineeringMode g, debugCounter g);
     holds := fun x => fst x = false /\ 0 <= snd x < 50;
     neutral := fun e => negb (is_detection e || is_debug_notice e);
     rel := fun x es y =>
       snd x + Z.of_nat (count is_detection es) =
       50 * Z.of_nat (count is_debug_notice es) + snd y |}.

(** With engineering mode on: [debugCounter] is not touched, no reminder is
    printed, and there is one per-gate line for each call of
    printDetectionInfo. *)
Definition gated : Ledger (bool * Z) :=
  {| part := fun g => (engineeringMode g, debugCounter g);
     holds := fun x => fst x = true;
     neutral := fun e =>
       negb (is_detection e || is_debug_notice e || is_gates_line e);
     rel := fun x es y =>
       snd y = snd x /\
       count is_debug_notice es = 0%nat /\
       count is_gates_line es = count is_detection es |}.

Section MoreViews.
Context {W : Type} {B : Board W}.

(** What the Arduino runtime runs: setup once, then loop again and again
    (here [n] times). *)
Definition sketch (n : nat) : M W unit := bind setup (fun _ => run n).

(** The events selected by [keep], in every run, satisfy [P]. *)
Definition View {A} (keep : Event -> bool) (P : list Event -> Prop) (m : M W A) : Prop :=
  forall s, P (filter keep (events (trace_of (m s)))).

(** *** The timing of setup *)

(** What one attempt to start engineering mode costs. *)
Definition attempt_timing (ok : bool) : list Event :=
  [Call RequestStartEngineeringMode; Ret RequestStartEngineeringMode ok] ++
  (if ok then [] else [Delay 1000]).

(** The library calls and delays of setup, for the build flag [cdc]
    (ARDUINO_USB_CDC_ON_BOOT) and the results of the calls. *)
Definition setup_timing (cdc began got : bool) (attempts : list bool) : list Event :=
  (if cdc then [Delay 100] else []) ++
  [Delay 2000; Delay 1000; Call Begin; Ret Begin began] ++
  (if began then
     [Call RequestCurrentConfiguration; Ret RequestCurrentConfiguration got] ++
     (if got then [Delay 500] else []) ++
     [Delay 1000] ++
     flat_map attempt_timing attempts
   else []).

(** *** The text of printConfiguration *)

Definition separator : string := "====================================".

Definition configuration_lines (w : W) : list string :=
  [separator; "SENSOR CONFIGURATION:"; separator;
   ("Max gate: " ++ dec (max_gate w))%string;
   ("Max moving gate: " ++ dec (max_moving_gate w))%string;
   ("Max stationary gate: " ++ dec (max_stationary_gate w))%string;
   ("Sensor idle time: " ++ dec (sensor_idle_time w) ++ " seconds")%string;
   (nl ++ "Motion Sensitivity (per gate):")%string] ++
  map (fun i => "  Gate " ++ dec (Z.of_nat i) ++ ": " ++
                dec (motion_sensitivity w i))%string (upto 9) ++
  [(nl ++ "Stationary Sensitivity (per gate):")%string] ++
  map (fun i => "  Gate " ++ dec (Z.of_nat i) ++ ": " ++
                dec (stationary_sensitivity w i))%string (upto 9) ++
  [separator].

(** *** What setup prints when radar.begin fails *)

Definition setup_failure_lines : list string :=
  [separator; "ESP32-C6 LD2410C Radar Sensor"; separator;
   "Radar TX connected to GPIO 4"; "Radar RX connected to GPIO 5";
   "Initializing radar UART..."; "UART initialized, connecting to radar...";
   (nl ++ "Initializing LD2410 radar: FAILED - Check connections")%string].

(** Monitor output and library events. *)
Definition said_or_called (e : Event) : bool := is_out e || is_lib_event e.

End MoreViews.

(** The header line of printConfiguration. *)
Definition is_config_header (e : Event) : bool :=
  match e with
  | Out (TStr s) => String.eqb s "SENSOR CONFIGURATION:"
  | _ => false
  end.

(** requestCurrentConfiguration returns true. *)
Definition is_config_success (e : Event) : bool :=
  match e with
  | Ret RequestCurrentConfiguration true => true
  | _ => false
  end.

(** printConfiguration runs once for each successful
    requestCurrentConfiguration, and [configDisplayed] is true after a run
    exactly when it was true before or a request succeeded in it. *)
Definition shown : Ledger bool :=
  {| part := configDisplayed;
     holds := fun _ => True;
     neutral := fun e =>
       negb (is_config_header e || is_config_success e ||
             is_call_of RequestCurrentConfiguration e);
     rel := fun x es y =>
       count is_config_header es = count is_config_success es /\
       y = x || (0 <? count is_config_success es)%nat /\
       (count is_config_success es <=
        calls_of RequestCurrentConfiguration es)%nat |}.

(** In loop: no successful request once [configDisplayed] is true, at most
    one while it is false. *)
Definition once : Ledger bool :=
  {| part := configDisplayed;
     holds := fun _ => True;
     neutral := fun e => negb (is_config_success e);
     rel := fun x es y =>
       y = x || (0 <? count is_config_success es)%nat /\
       (if x then count is_config_success es = 0%nat
        else (count is_config_success es <= 1)%nat) |}.

(** The globals change only in a run in which radar.begin returned true. *)
Definition touched : Ledger Globals :=
  {| part := fun g => g;
     holds := fun _ => True;
     neutral := fun _ => true;
     rel := fun x es y => In (Ret Begin true) es \/ y = x |}.

(** A simulated board on which engineering mode is refused. *)
Definition Sim_basic : St Sim.World :=
  state_of (setup
    (mkSt {| Sim.clock := 0; Sim.begin_reply := true;
             Sim.config_replies := [true];
             Sim.engineering_replies := [];
             Sim.link := true;
             Sim.monitor_lines := [];
             Sim.report := Decoder.decode Decoder.MovingOnly 80 55 0 0 |}
          initial_globals)).

(** * Reasoning about runs *)

(** ** Projections of a trace distribute over concatenation *)

Lemma events_app (a b : Trace) : events (a ++ b) = events a ++ events b.
Proof. apply map_app. Qed.

Lemma output_app (a b : list Event) : output (a ++ b) = output a ++ output b.
Proof.
  induction a as [|e a IH]; [reflexivity|].
  destruct e; simpl; rewrite ?IH; try reflexivity.
Qed.

Lemma lib_events_app (a b : list Event) :
  lib_events (a ++ b) = lib_events a ++ lib_events b.
Proof.
  induction a as [|e a IH]; [reflexivity|].
  destruct e; simpl; rewrite ?IH; reflexivity.
Qed.

Lemma calls_of_app c (a b : list Event) :
  calls_of c (a ++ b) = (calls_of c a + calls_of c b)%nat.
Proof.
  induction a as [|e a IH]; [reflexivity|].
  destruct e; simpl; rewrite ?IH; try reflexivity.
  destruct (LibCall_eqb c c0); simpl; reflexivity.
Qed.

(** ** Strings *)

Lemma string_app_assoc (a b c : string) :
  ((a ++ b) ++ c)%string = (a ++ (b ++ c))%string.
Proof. induction a as [|x a IH]; simpl; [reflexivity | now rewrite IH]. Qed.

Lemma string_app_nil_r (a : string) : (a ++ "")%string = a.
Proof. induction a as [|x a IH]; simpl; [reflexivity | now rewrite IH]. Qed.

(** Bring both sides of an equation between strings to right-nested form. *)
Ltac string_normal :=
  cbn; repeat (progress (rewrite ?string_app_assoc, ?string_app_nil_r; cbn)).

Section Runs.
Context {W : Type} {B : Board W}.

(** ** Runs of composed computations *)

Lemma trace_bind {A C} (m : M W A) (f : A -> M W C) s :
  trace_of (bind m f s) =
  trace_of (m s) ++ trace_of (f (value_of (m s)) (state_of (m s))).
Proof. reflexivity. Qed.

Lemma state_bind {A C} (m : M W A) (f : A -> M W C) s :
  state_of (bind m f s) = state_of (f (value_of (m s)) (state_of (m s))).
Proof. reflexivity. Qed.

Lemma value_bind {A C} (m : M W A) (f : A -> M W C) s :
  value_of (bind m f s) = value_of (f (value_of (m s)) (state_of (m s))).
Proof. reflexivity. Qed.

Section Silent.
Variable keep : Event -> bool.

Lemma Silent_ret {A} (a : A) : Silent keep (ret a : M W A).
Proof. intros s. constructor. Qed.

Lemma Silent_bind {A C} (m : M W A) (f : A -> M W C) :
  Silent keep m -> (forall a, Silent keep (f a)) -> Silent keep (bind m f).
Proof.
  intros Hm Hf s. rewrite trace_bind. apply Forall_app. split; [apply Hm | apply Hf].
Qed.

Lemma Silent_emit e : keep e = false -> Silent keep (emit e).
Proof. intros H s. repeat constructor. exact H. Qed.

Lemma Silent_act e f : keep e = false -> Silent keep (act e f).
Proof. intros H s. repeat constructor. exact H. Qed.

Lemma Silent_ask {A} (e : A -> Event) f :
  (forall a, keep (e a) = false) -> Silent keep (ask e f).
Proof. intros H s. repeat constructor. apply H. Qed.

Lemma Silent_call c f :
  keep (Call c) = false -> (forall r, keep (Ret c r) = false) ->
  Silent keep (call c f).
Proof. intros H1 H2 s. repeat constructor; [exact H1 | apply H2]. Qed.

Lemma Silent_get_globals : Silent keep (get_globals : M W _).
Proof. intros s. constructor. Qed.

Lemma Silent_modify_globals f : Silent keep (modify_globals f : M W _).
Proof. intros s. constructor. Qed.

Lemma Silent_radar_get {A} (f : W -> A) : Silent keep (radar_get f).
Proof. intros s. constructor. Qed.

Lemma Silent_when b (m : M W unit) : Silent keep m -> Silent keep (when b m).
Proof. intros H. destruct b; [exact H | apply Silent_ret]. Qed.

Lemma Silent_if {A} (b : bool) (m1 m2 : M W A) :
  Silent keep m1 -> Silent keep m2 -> Silent keep (if b then m1 else m2).
Proof. destruct b; auto. Qed.

Lemma Silent_for_each {A} (l : list A) (body : A -> M W unit) :
  (forall x, Silent keep (body x)) -> Silent keep (for_each l body).
Proof.
  intros H. induction l as [|x l IH]; simpl.
  - apply Silent_ret.
  - apply Silent_bind; auto.
Qed.

Lemma Silent_for_break {A L} (l : list A) (body : A -> L -> M W (L * bool)) :
  (forall x v, Silent keep (body x v)) -> forall v, Silent keep (for_break l body v).
Proof.
  intros H. induction l as [|x l IH]; simpl; intros v.
  - apply Silent_ret.
  - apply Silent_bind; [apply H|]. intros a. apply Silent_if; [apply Silent_ret | apply IH].
Qed.

End Silent.

Section Keeps.
Context {X : Type}.
Variable proj : Globals -> X.

Lemma Keeps_ret {A} (a : A) : Keeps proj (ret a : M W A).
Proof. intros s. reflexivity. Qed.

Lemma Keeps_bind {A C} (m : M W A) (f : A -> M W C) :
  Keeps proj m -> (forall a, Keeps proj (f a)) -> Keeps proj (bind m f).
Proof. intros Hm Hf s. rewrite state_bind, Hf. apply Hm. Qed.

Lemma Keeps_emit e : Keeps proj (emit e).
Proof. intros s. reflexivity. Qed.

Lemma Keeps_act e f : Keeps proj (act e f).
Proof. intros s. reflexivity. Qed.

Lemma Keeps_ask {A} (e : A -> Event) f : Keeps proj (ask e f).
Proof. intros s. reflexivity. Qed.

Lemma Keeps_call c f : Keeps proj (call c f).
Proof. intros s. reflexivity. Qed.

Lemma Keeps_get_globals : Keeps proj (get_globals : M W _).
Proof. intros s. reflexivity. Qed.

Lemma Keeps_modify_globals f :
  (forall g, proj (f g) = proj g) -> Keeps proj (modify_globals f : M W _).
Proof. intros H s. apply H. Qed.

Lemma Keeps_radar_get {A} (f : W -> A) : Keeps proj (radar_get f).
Proof. intros s. reflexivity. Qed.

Lemma Keeps_when b (m : M W unit) : Keeps proj m -> Keeps proj (when b m).
Proof. intros H. destruct b; [exact H | apply Keeps_ret]. Qed.

Lemma Keeps_if {A} (b : bool) (m1 m2 : M W A) :
  Keeps proj m1 -> Keeps proj m2 -> Keeps proj (if b then m1 else m2).
Proof. destruct b; auto. Qed.

Lemma Keeps_for_each {A} (l : list A) (body : A -> M W unit) :
  (forall x, Keeps proj (body x)) -> Keeps proj (for_each l body).
Proof.
  intros H. induction l as [|x l IH]; simpl.
  - apply Keeps_ret.
  - apply Keeps_bind; auto.
Qed.

Lemma Keeps_for_break {A L} (l : list A) (body : A -> L -> M W (L * bool)) :
  (forall x v, Keeps proj (body x v)) -> forall v, Keeps proj (for_break l body v).
Proof.
  intros H. induction l as [|x l IH]; simpl; intros v.
  - apply Keeps_ret.
  - apply Keeps_bind; [apply H|]. intros a. apply Keeps_if; [apply Keeps_ret | apply IH].
Qed.

End Keeps.

Section Pure.

Lemma Pure_ret {A} (a : A) : Pure (ret a : M W A).
Proof. intros s. reflexivity. Qed.

Lemma Pure_bind {A C} (m : M W A) (f : A -> M W C) :
  Pure m -> (forall a, Pure (f a)) -> Pure (bind m f).
Proof. intros Hm Hf s. rewrite state_bind, Hf. apply Hm. Qed.

Lemma Pure_emit e : Pure (emit e).
Proof. intros s. reflexivity. Qed.

Lemma Pure_get_globals : Pure (get_globals : M W _).
Proof. intros s. reflexivity. Qed.

Lemma Pure_modify_globals f : Pure (modify_globals f : M W _).
Proof. intros s. reflexivity. Qed.

Lemma Pure_radar_get {A} (f : W -> A) : Pure (radar_get f).
Proof. intros s. reflexivity. Qed.

Lemma Pure_when b (m : M W unit) : Pure m -> Pure (when b m).
Proof. intros H. destruct b; [exact H | apply Pure_ret]. Qed.

Lemma Pure_if {A} (b : bool) (m1 m2 : M W A) :
  Pure m1 -> Pure m2 -> Pure (if b then m1 else m2).
Proof. destruct b; auto. Qed.

Lemma Pure_for_each {A} (l : list A) (body : A -> M W unit) :
  (forall x, Pure (body x)) -> Pure (for_each l body).
Proof.
  intros H. induction l as [|x l IH]; simpl.
  - apply Pure_ret.
  - apply Pure_bind; auto.
Qed.

End Pure.

Section Justified.
Variable flag : Globals -> bool.
Variable e : Event.

Lemma Justified_keeps {A} (m : M W A) : Keeps flag m -> Justified flag e m.
Proof. intros K s H0 H1. rewrite K in H1. congruence. Qed.

Lemma Justified_bind {A C} (m : M W A) (f : A -> M W C) :
  Justified flag e m -> (forall a, Justified flag e (f a)) ->
  Justified flag e (bind m f).
Proof.
  intros Hm Hf s H0 H1. rewrite trace_bind, events_app. apply in_or_app.
  destruct (flag (globals (state_of (m s)))) eqn:Hmid.
  - left. now apply Hm.
  - right. apply Hf; [exact Hmid|]. exact H1.
Qed.

Lemma Justified_if {A} (b : bool) (m1 m2 : M W A) :
  Justified flag e m1 -> Justified flag e m2 ->
  Justified flag e (if b then m1 else m2).
Proof. destruct b; auto. Qed.

Lemma Justified_call c g {C} (f : bool -> M W C) :
  Justified flag (Ret c true) (f false) ->
  Justified flag (Ret c true) (bind (call c g) f).
Proof.
  intros H s H0 H1. rewrite trace_bind, events_app. apply in_or_app.
  rewrite state_bind in H1.
  change (value_of (call c g s)) with (fst (g (world s))) in *.
  destruct (fst (g (world s))) eqn:E.
  - left. right. left. cbn. now rewrite E.
  - right. apply H; [exact H0 | exact H1].
Qed.

Lemma Stays_keeps {A} (m : M W A) : Keeps flag m -> Stays flag m.
Proof. intros K s H. now rewrite K. Qed.

Lemma Stays_bind {A C} (m : M W A) (f : A -> M W C) :
  Stays flag m -> (forall a, Stays flag (f a)) -> Stays flag (bind m f).
Proof. intros Hm Hf s H. rewrite state_bind. apply Hf, Hm, H. Qed.

Lemma Stays_if {A} (b : bool) (m1 m2 : M W A) :
  Stays flag m1 -> Stays flag m2 -> Stays flag (if b then m1 else m2).
Proof. destruct b; auto. Qed.

Lemma Stays_set (f : Globals -> Globals) :
  (forall g, flag (f g) = true) -> Stays flag (modify_globals f : M W unit).
Proof. intros H s _. apply H. Qed.

End Justified.

Section Shape.

Lemma lib_events_silent {A} (m : M W A) :
  Silent is_lib_event m -> forall s, lib_events (events (trace_of (m s))) = [].
Proof.
  intros H s. specialize (H s). unfold events.
  induction H as [|[t e] l He _ IH]; [reflexivity|].
  simpl in *. destruct e; try exact IH; discriminate.
Qed.

Lemma Shape_silent {A} (P : list Event -> Prop) (m : M W A) :
  Silent is_lib_event m -> P [] -> Shape P m.
Proof. intros H HP s. now rewrite lib_events_silent. Qed.

Lemma Shape_prefix {A C} (P : list Event -> Prop) (m : M W A) (f : A -> M W C) :
  Silent is_lib_event m -> (forall a, Shape P (f a)) -> Shape P (bind m f).
Proof.
  intros Hm Hf s. rewrite trace_bind, events_app, lib_events_app.
  rewrite lib_events_silent by exact Hm. apply Hf.
Qed.

Lemma Shape_suffix {A C} (P Q : list Event -> Prop) (m : M W A) (f : A -> M W C) :
  Shape Q m -> (forall a, Silent is_lib_event (f a)) ->
  (forall l, Q l -> P l) -> Shape P (bind m f).
Proof.
  intros Hm Hf HQ s. rewrite trace_bind, events_app, lib_events_app.
  rewrite (lib_events_silent (f _)) by apply Hf.
  rewrite app_nil_r. apply HQ, Hm.
Qed.

Lemma Shape_call {C} (P : list Event -> Prop) c g (f : bool -> M W C) :
  (forall r, Shape (fun l => P ([Call c; Ret c r] ++ l)) (f r)) ->
  Shape P (bind (call c g) f).
Proof.
  intros Hf s. rewrite trace_bind, events_app, lib_events_app. apply Hf.
Qed.

Lemma Shape_if {A} (P : list Event -> Prop) (b : bool) (m1 m2 : M W A) :
  Shape P m1 -> Shape P m2 -> Shape P (if b then m1 else m2).
Proof. destruct b; auto. Qed.

End Shape.

Section Forward.
Context {L : BoardLaws W}.

Lemma Forward_ret {A} (a : A) : Forward (ret a : M W A).
Proof. intros s. apply Z.le_refl. Qed.

Lemma Forward_bind {A C} (m : M W A) (f : A -> M W C) :
  Forward m -> (forall a, Forward (f a)) -> Forward (bind m f).
Proof.
  intros Hm Hf s. rewrite state_bind.
  etransitivity; [apply Hm | apply Hf].
Qed.

Lemma Forward_emit e : Forward (emit e).
Proof. intros s. apply Z.le_refl. Qed.

Lemma Forward_get_globals : Forward (get_globals : M W _).
Proof. intros s. apply Z.le_refl. Qed.

Lemma Forward_modify_globals f : Forward (modify_globals f : M W _).
Proof. intros s. apply Z.le_refl. Qed.

Lemma Forward_radar_get {A} (f : W -> A) : Forward (radar_get f).
Proof. intros s. apply Z.le_refl. Qed.

Lemma Forward_act e f : (forall w, now w <= now (f w)) -> Forward (act e f).
Proof. intros H s. apply H. Qed.

Lemma Forward_ask {A} (e : A -> Event) (f : W -> A * W) :
  (forall w, now w <= now (snd (f w))) -> Forward (ask e f).
Proof. intros H s. apply H. Qed.

Lemma Forward_call c f :
  (forall w, now w <= now (snd (f w))) -> Forward (call c f).
Proof. intros H s. apply H. Qed.

Lemma Forward_when b (m : M W unit) : Forward m -> Forward (when b m).
Proof. intros H. destruct b; [exact H | apply Forward_ret]. Qed.

Lemma Forward_if {A} (b : bool) (m1 m2 : M W A) :
  Forward m1 -> Forward m2 -> Forward (if b then m1 else m2).
Proof. destruct b; auto. Qed.

Lemma Forward_for_each {A} (l : list A) (body : A -> M W unit) :
  (forall x, Forward (body x)) -> Forward (for_each l body).
Proof.
  intros H. induction l as [|x l IH]; simpl.
  - apply Forward_ret.
  - apply Forward_bind; auto.
Qed.

Lemma Forward_for_break {A L'} (l : list A) (body : A -> L' -> M W (L' * bool)) :
  (forall x v, Forward (body x v)) -> forall v, Forward (for_break l body v).
Proof.
  intros H. induction l as [|x l IH]; simpl; intros v.
  - apply Forward_ret.
  - apply Forward_bind; [apply H|]. intros a. apply Forward_if; [apply Forward_ret | apply IH].
Qed.

End Forward.

End Runs.

Create HintDb laws discriminated.
#[export] Hint Resolve millis_mono delay_mono Serial_begin_mono Serial_flush_mono
  Serial_available_mono Serial_readStringUntil_mono Serial1_begin_mono
  radar_debug_mono radar_begin_mono radar_read_mono radar_isConnected_mono
  radar_requestCurrentConfiguration_mono radar_requestStartEngineeringMode_mono
  : laws.

(** One tactic for the frame properties: follow the structure of the
    computation, unfold the sketch's functions where they are met, and decide
    the side conditions by computation. *)
Ltac head_of t :=
  lazymatch t with
  | ?f _ => head_of f
  | _ => t
  end.

Ltac frame_step :=
  lazymatch goal with
  | |- forall _, _ => intros
  | |- Silent _ (bind _ _) => apply Silent_bind
  | |- Silent _ (ret _) => apply Silent_ret
  | |- Silent _ (emit _) => apply Silent_emit; reflexivity
  | |- Silent _ (act _ _) => apply Silent_act; reflexivity
  | |- Silent _ (ask _ _) => apply Silent_ask; intros; reflexivity
  | |- Silent _ (call _ _) => apply Silent_call; intros; reflexivity
  | |- Silent _ get_globals => apply Silent_get_globals
  | |- Silent _ (modify_globals _) => apply Silent_modify_globals
  | |- Silent _ (radar_get _) => apply Silent_radar_get
  | |- Silent _ (when _ _) => apply Silent_when
  | |- Silent _ (for_each _ _) => apply Silent_for_each
  | |- Silent _ (for_break _ _ _) => apply Silent_for_break
  | |- Silent _ (if _ then _ else _) => apply Silent_if
  | |- Silent _ ?m => let h := head_of m in unfold h
  | |- Keeps _ (bind _ _) => apply Keeps_bind
  | |- Keeps _ (ret _) => apply Keeps_ret
  | |- Keeps _ (emit _) => apply Keeps_emit
  | |- Keeps _ (act _ _) => apply Keeps_act
  | |- Keeps _ (ask _ _) => apply Keeps_ask
  | |- Keeps _ (call _ _) => apply Keeps_call
  | |- Keeps _ get_globals => apply Keeps_get_globals
  | |- Keeps _ (modify_globals _) => apply Keeps_modify_globals; intros; reflexivity
  | |- Keeps _ (radar_get _) => apply Keeps_radar_get
  | |- Keeps _ (when _ _) => apply Keeps_when
  | |- Keeps _ (for_each _ _) => apply Keeps_for_each
  | |- Keeps _ (for_break _ _ _) => apply Keeps_for_break
  | |- Keeps _ (if _ then _ else _) => apply Keeps_if
  | |- Keeps _ ?m => let h := head_of m in unfold h
  | |- Pure (bind _ _) => apply Pure_bind
  | |- Pure (ret _) => apply Pure_ret
  | |- Pure (emit _) => apply Pure_emit
  | |- Pure get_globals => apply Pure_get_globals
  | |- Pure (modify_globals _) => apply Pure_modify_globals
  | |- Pure (radar_get _) => apply Pure_radar_get
  | |- Pure (when _ _) => apply Pure_when
  | |- Pure (for_each _ _) => apply Pure_for_each
  | |- Pure (if _ then _ else _) => apply Pure_if
  | |- Pure ?m => let h := head_of m in unfold h
  | |- Forward (bind _ _) => apply Forward_bind
  | |- Forward (ret _) => apply Forward_ret
  | |- Forward (emit _) => apply Forward_emit
  | |- Forward get_globals => apply Forward_get_globals
  | |- Forward (modify_globals _) => apply Forward_modify_globals
  | |- Forward (radar_get _) => apply Forward_radar_get
  | |- Forward (act _ _) => apply Forward_act; solve [auto with laws]
  | |- Forward (ask _ _) => apply Forward_ask; solve [auto with laws]
  | |- Forward (call _ _) => apply Forward_call; solve [auto with laws]
  | |- Forward (when _ _) => apply Forward_when
  | |- Forward (for_each _ _) => apply Forward_for_each
  | |- Forward (for_break _ _ _) => apply Forward_for_break
  | |- Forward (if _ then _ else _) => apply Forward_if
  | |- Forward ?m => let h := head_of m in unfold h
  end.

Ltac frame := repeat frame_step.

Section Properties.
Context {W : Type} {B : Board W}.

Lemma Silent_calls_of {A} c (m : M W A) :
  Silent (is_call_of c) m ->
  forall s, calls_of c (events (trace_of (m s))) = 0%nat.
Proof.
  intros H s. specialize (H s). unfold events.
  induction H as [|[t e] l He _ IH]; [reflexivity|].
  simpl in *. destruct e; try exact IH.
  simpl in He. rewrite He. exact IH.
Qed.

(** ** Polling the radar *)

Lemma poll_events {A} (l : list A) (s : St W) :
  exists rs : list bool,
    length rs = length l /\
    events (trace_of (for_each l (fun _ => _ <- call Read radar_read ;; ret tt) s))
    = flat_map read_pair rs.
Proof.
  revert s. induction l as [|x l IH]; intros s.
  - exists []. split; reflexivity.
  - simpl for_each. rewrite trace_bind, events_app.
    destruct (IH (state_of
      ((_ <- call Read radar_read ;; ret tt) s))) as [rs [Hlen Hrs]].
    exists (fst (radar_read (world s)) :: rs). split.
    + simpl. now rewrite Hlen.
    + unfold value_of. rewrite Hrs. reflexivity.
Qed.

(** C3. Every iteration of [loop] starts with exactly ten calls of
    [radar.read()], each returned before the next, whatever the state of the
    hardware (and so whatever is pending on the radar UART); nothing that
    follows in the iteration calls [radar.read()] again. *)
Theorem loop_reads_ten_times (s : St W) :
  exists (rs : list bool) (rest : list Event),
    length rs = 10%nat /\
    events (trace_of (loop s)) = flat_map read_pair rs ++ rest /\
    calls_of Read rest = 0%nat /\
    calls_of Read (events (trace_of (loop s))) = 10%nat.
Proof.
  destruct (poll_events (upto 10) s) as [rs [Hlen Hrs]].
  assert (Hrest : forall s',
    calls_of Read (events (trace_of
      ((serve_monitor ;;
        connected <- call IsConnected radar_isConnected ;;
        if connected then report_detection ;; retry_configuration
        else report_disconnected) s'))) = 0%nat).
  { apply Silent_calls_of. frame. }
  eexists rs, _. split; [exact Hlen|].
  unfold loop. rewrite trace_bind, events_app.
  unfold poll_radar at 1. rewrite Hrs.
  split; [reflexivity|]. split; [apply Hrest|].
  rewrite calls_of_app, Hrest.
  clear -Hlen. simpl in Hlen.
  do 11 (destruct rs as [|? rs]; try discriminate). reflexivity.
Qed.

(** ** The presence line *)

Lemma detection_line_tokens (s : St W) :
  output (events (trace_of (detection_line s))) =
  TStr "Presence: " ::
  (if presenceDetected (world s) then
     TStr "YES" ::
     (if stationaryTargetDetected (world s) then
        [TStr " | Stationary: "; TDec (stationaryTargetDistance (world s));
         TStr "cm E:"; TDec (stationaryTargetEnergy (world s))]
      else []) ++
     (if movingTargetDetected (world s) then
        [TStr " | Moving: "; TDec (movingTargetDistance (world s));
         TStr "cm E:"; TDec (movingTargetEnergy (world s))]
      else []) ++ [TLn]
   else [TStr "NO"; TLn]).
Proof.
  unfold detection_line. cbn.
  destruct (presenceDetected (world s)); cbn; [|reflexivity].
  destruct (stationaryTargetDetected (world s)); cbn;
    destruct (movingTargetDetected (world s)); reflexivity.
Qed.

Lemma detection_line_state (s : St W) : state_of (detection_line s) = s.
Proof.
  unfold detection_line. cbn.
  destruct (presenceDetected (world s)); cbn; [|now destruct s].
  destruct (stationaryTargetDetected (world s)); cbn;
    destruct (movingTargetDetected (world s)); cbn; now destruct s.
Qed.

Lemma gate_lines_numbers (s : St W) v :
  In (TDec v) (output (events (trace_of (gate_lines s)))) ->
  engineeringMode (globals s) = true.
Proof.
  unfold gate_lines. cbn.
  destruct (engineeringMode (globals s)); [reflexivity|]. cbn.
  destruct (debugCounter (globals s) + 1 >=? 50); cbn; intuition discriminate.
Qed.

(** C1. In printDetectionInfo (lines 69-91) the stationary distance and
    energy are printed exactly when presenceDetected() and
    stationaryTargetDetected() are true, the moving pair exactly when
    presenceDetected() and movingTargetDetected() are true; every number on
    the presence line is one of these four values, printed under its flag;
    without presence the line is exactly "Presence: NO".  What
    printDetectionInfo prints after that line contains a number only in
    engineering mode (the per-gate values). *)
Theorem detection_fields_follow_flags (s : St W) :
  let w := world s in
  let line := output (events (trace_of (detection_line s))) in
  (In (TStr " | Stationary: ") line <->
     presenceDetected w = true /\ stationaryTargetDetected w = true) /\
  (In (TStr " | Moving: ") line <->
     presenceDetected w = true /\ movingTargetDetected w = true) /\
  (forall v, In (TDec v) line ->
     presenceDetected w = true /\
     ((stationaryTargetDetected w = true /\
       (v = stationaryTargetDistance w \/ v = stationaryTargetEnergy w)) \/
      (movingTargetDetected w = true /\
       (v = movingTargetDistance w \/ v = movingTargetEnergy w)))) /\
  (presenceDetected w = true -> stationaryTargetDetected w = true ->
     exists pre post, line =
       pre ++ [TStr " | Stationary: "; TDec (stationaryTargetDistance w);
               TStr "cm E:"; TDec (stationaryTargetEnergy w)] ++ post) /\
  (presenceDetected w = true -> movingTargetDetected w = true ->
     exists pre post, line =
       pre ++ [TStr " | Moving: "; TDec (movingTargetDistance w);
               TStr "cm E:"; TDec (movingTargetEnergy w)] ++ post) /\
  (presenceDetected w = false ->
     line = [TStr "Presence: "; TStr "NO"; TLn] /\
     render line = ("Presence: NO" ++ crlf)%string) /\
  (exists rest,
     output (events (trace_of (printDetectionInfo s))) = line ++ rest /\
     forall v, In (TDec v) rest -> engineeringMode (globals s) = true).
Proof.
  intros w line. subst line. rewrite detection_line_tokens. fold w.
  repeat split.
  - destruct (presenceDetected w); [reflexivity|].
    simpl in H. intuition discriminate.
  - destruct (presenceDetected w); [|simpl in H; intuition discriminate].
    destruct (stationaryTargetDetected w); [reflexivity|].
    destruct (movingTargetDetected w); simpl in H; intuition discriminate.
  - intros [-> ->]. simpl. auto.
  - destruct (presenceDetected w); [reflexivity|].
    simpl in H. intuition discriminate.
  - destruct (presenceDetected w); [|simpl in H; intuition discriminate].
    destruct (movingTargetDetected w); [reflexivity|].
    destruct (stationaryTargetDetected w); simpl in H; intuition discriminate.
  - intros [-> ->]. destruct (stationaryTargetDetected w); simpl; auto 10.
  - destruct (presenceDetected w); [reflexivity|].
    simpl in H. intuition discriminate.
  - destruct (presenceDetected w); [|simpl in H; intuition discriminate].
    destruct (stationaryTargetDetected w), (movingTargetDetected w);
      simpl in H; intuition (try discriminate);
      match goal with H : TDec _ = TDec _ |- _ => injection H as <- end; auto.
  - intros -> ->. exists [TStr "Presence: "; TStr "YES"]. eexists. reflexivity.
  - intros -> ->.
    destruct (stationaryTargetDetected w).
    + eexists [TStr "Presence: "; TStr "YES"; _; _; _; _]. eexists. reflexivity.
    + exists [TStr "Presence: "; TStr "YES"]. eexists. reflexivity.
  - rewrite H. reflexivity.
  - rewrite H. reflexivity.
  - exists (output (events (trace_of (gate_lines s)))). split.
    + unfold printDetectionInfo. rewrite trace_bind, events_app, output_app.
      rewrite detection_line_tokens, detection_line_state. reflexivity.
    + apply gate_lines_numbers.
Qed.

(** ** The per-gate line *)

Lemma detection_line_no_gates (s : St W) :
  ~ In (TStr "GATES_MOV:") (output (events (trace_of (detection_line s)))) /\
  ~ In (TStr " | GATES_STAT:") (output (events (trace_of (detection_line s)))).
Proof.
  rewrite detection_line_tokens.
  destruct (presenceDetected (world s)), (stationaryTargetDetected (world s)),
    (movingTargetDetected (world s)); simpl; intuition discriminate.
Qed.

Lemma gate_lines_tokens (s : St W) :
  let toks := output (events (trace_of (gate_lines s))) in
  (In (TStr "GATES_MOV:") toks <-> engineeringMode (globals s) = true) /\
  (In (TStr " | GATES_STAT:") toks <-> engineeringMode (globals s) = true) /\
  (engineeringMode (globals s) = true -> render toks = gates_line (world s)).
Proof.
  unfold gate_lines. cbn.
  destruct (engineeringMode (globals s)); cbn.
  - repeat split; auto 30.
    intros _. unfold render, gates_line. string_normal. reflexivity.
  - destruct (debugCounter (globals s) + 1 >=? 50); cbn;
      intuition discriminate.
Qed.

Lemma enable_engineering_mode_justified :
  Justified engineeringMode (Ret RequestStartEngineeringMode true)
            (enable_engineering_mode (W := W)).
Proof.
  intros s Hs. unfold enable_engineering_mode. cbn.
  repeat match goal with
  | |- context [if fst (?f ?w) then _ else _] =>
      let E := fresh "E" in destruct (fst (f w)) eqn:E; cbn
  end; rewrite ?Hs; try discriminate; intros _; auto 30.
Qed.

Lemma setup_engineering_flag :
  Justified engineeringMode (Ret RequestStartEngineeringMode true)
            (setup (W := W)).
Proof.
  unfold setup.
  repeat lazymatch goal with
  | |- Justified _ _ (bind enable_engineering_mode _) =>
      apply Justified_bind; [apply enable_engineering_mode_justified | intros]
  | |- Justified _ _ (bind _ _) =>
      apply Justified_bind; [now (apply Justified_keeps; frame) | intros]
  | |- Justified _ _ (if _ then _ else _) => apply Justified_if
  | |- Justified _ _ _ => now (apply Justified_keeps; frame)
  end.
Qed.

(** C6. On every call of printDetectionInfo the per-gate line (GATES_MOV
    and GATES_STAT with the nine values of each channel, gate 0 to 8,
    separated by commas) is printed if and only if the engineeringMode flag
    is true; printDetectionInfo and loop leave the flag as it is, and setup
    turns it from false to true only when a requestStartEngineeringMode call
    has returned true. *)
Theorem gate_data_iff_engineering_mode (s : St W) :
  let toks := output (events (trace_of (printDetectionInfo s))) in
  (In (TStr "GATES_MOV:") toks <-> engineeringMode (globals s) = true) /\
  (In (TStr " | GATES_STAT:") toks <-> engineeringMode (globals s) = true) /\
  (engineeringMode (globals s) = true ->
     exists line,
       toks = output (events (trace_of (detection_line s))) ++ line /\
       render line = gates_line (world s)) /\
  engineeringMode (globals (state_of (printDetectionInfo s))) =
    engineeringMode (globals s) /\
  engineeringMode (globals (state_of (loop s))) = engineeringMode (globals s) /\
  (engineeringMode (globals s) = false ->
   engineeringMode (globals (state_of (setup s))) = true ->
   In (Ret RequestStartEngineeringMode true) (events (trace_of (setup s)))).
Proof.
  intros toks.
  assert (Htoks : toks = output (events (trace_of (detection_line s))) ++
                         output (events (trace_of (gate_lines s)))).
  { subst toks. unfold printDetectionInfo.
    rewrite trace_bind, events_app, output_app, detection_line_state.
    reflexivity. }
  destruct (detection_line_no_gates s) as [Hm Hs].
  destruct (gate_lines_tokens s) as [Gm [Gs Gr]].
  rewrite Htoks. repeat split.
  - intros H. apply in_app_or in H. destruct H as [H|H]; [contradiction|].
    now apply Gm.
  - intros H. apply in_or_app. right. now apply Gm.
  - intros H. apply in_app_or in H. destruct H as [H|H]; [contradiction|].
    now apply Gs.
  - intros H. apply in_or_app. right. now apply Gs.
  - intros H. eexists. split; [reflexivity|]. now apply Gr.
  - assert (K : Keeps engineeringMode (printDetectionInfo (W := W))) by frame.
    apply K.
  - assert (K : Keeps engineeringMode (loop (W := W))) by frame.
    apply K.
  - apply setup_engineering_flag.
Qed.

(** ** The monitor commands *)

Lemma Silent_output {A} (m : M W A) :
  Silent is_out m -> forall s, output (events (trace_of (m s))) = [].
Proof.
  intros H s. specialize (H s). unfold events.
  induction H as [|[t e] l He _ IH]; [reflexivity|].
  simpl in *. destruct e; try exact IH. discriminate.
Qed.

Lemma send_config_render (s : St W) :
  render (output (events (trace_of (send_config s)))) =
  wire (config_reply_lines (world s)).
Proof.
  unfold send_config, render, wire, config_reply_lines.
  string_normal. reflexivity.
Qed.

Lemma dispatch_get_config (s : St W) :
  dispatch "GET_CONFIG" s = send_config s.
Proof. reflexivity. Qed.

Lemma dispatch_other (cmd : string) (s : St W) :
  cmd <> "GET_CONFIG" -> dispatch cmd s = (tt, s, []).
Proof.
  intros H. unfold dispatch.
  destruct (String.eqb_spec cmd "GET_CONFIG"); [contradiction | reflexivity].
Qed.

(** C4. When a line is waiting on the monitor port and it is GET_CONFIG
    after trimming, what loop writes for it is exactly the lines
    CONFIG_START, SENSITIVITY_MOTION:i:<motion_sensitivity[i]> for i = 0..8,
    SENSITIVITY_STATIC:i:<stationary_sensitivity[i]> for i = 0..8 and
    CONFIG_END, in this order, from the values stored in the radar object;
    it is the first thing loop writes in that iteration. *)
Theorem get_config_reply (s : St W) :
  let s1 := state_of (poll_radar s) in
  let avail := Serial_available (world s1) in
  let line := Serial_readStringUntil "010"%char (snd avail) in
  let reply := output (events (trace_of (serve_monitor s1))) in
  fst avail <> 0 ->
  String_trim (fst line) = "GET_CONFIG" ->
  render reply = wire (config_reply_lines (snd line)) /\
  exists rest, output (events (trace_of (loop s))) = reply ++ rest.
Proof.
  intros s1 avail line reply Havail Hline. split.
  - subst reply. unfold serve_monitor.
    rewrite trace_bind, events_app, output_app.
    cbn [ask trace_of value_of state_of fst snd events map output app].
    fold avail. apply Z.eqb_neq in Havail. rewrite Havail.
    cbn [negb when]. rewrite trace_bind, events_app, output_app.
    cbn [ask trace_of value_of state_of fst snd events map output app world].
    fold line. rewrite Hline, dispatch_get_config.
    apply send_config_render.
  - unfold loop. rewrite trace_bind, events_app, output_app.
    rewrite (Silent_output poll_radar) by frame.
    rewrite trace_bind, events_app, output_app.
    fold s1. fold reply. eexists. reflexivity.
Qed.

(** C5 (as the code has it). Exactly one command is recognised: on the
    trimmed line GET_CONFIG the configuration reply is written, and on every
    other trimmed line nothing is written and the state of the sketch and of
    the board is left as it was. *)
Theorem one_command_recognised (cmd : string) (s : St W) :
  (cmd = "GET_CONFIG" ->
     state_of (dispatch cmd s) = s /\
     output (events (trace_of (dispatch cmd s))) <> [] /\
     render (output (events (trace_of (dispatch cmd s)))) =
       wire (config_reply_lines (world s))) /\
  (cmd <> "GET_CONFIG" -> dispatch cmd s = (tt, s, [])).
Proof.
  split.
  - intros ->. rewrite dispatch_get_config. split; [|split].
    + assert (K : Keeps (fun g => g) (send_config (W := W))) by frame.
      assert (P : Pure (send_config (W := W))) by frame.
      specialize (K s). specialize (P s).
      destruct (state_of (send_config s)), s. simpl in *. congruence.
    + unfold send_config. cbn. discriminate.
    + apply send_config_render.
  - apply dispatch_other.
Qed.

(** ** The retry loop of setup *)

Lemma enable_engineering_mode_events (s : St W) :
  engineeringMode (globals s) = false ->
  exists results : list bool,
    events (trace_of (enable_engineering_mode s)) = attempt_blocks 0 results /\
    (List.length results <= 3)%nat /\
    stops_at_first_success results = true /\
    (In true results \/ List.length results = 3%nat) /\
    engineeringMode (globals (state_of (enable_engineering_mode s))) =
      existsb (fun ok => ok) results.
Proof.
  intros Hs. unfold enable_engineering_mode. cbn.
  destruct (fst (radar_requestStartEngineeringMode (Serial_flush (world s))))
    eqn:E1; cbn.
  { exists [true]. cbn. auto 10. }
  match goal with
  | |- context [if fst (?f ?w) then _ else _] =>
      destruct (fst (f w)) eqn:E2; cbn
  end.
  { exists [false; true]. cbn. auto 10. }
  match goal with
  | |- context [if fst (?f ?w) then _ else _] =>
      destruct (fst (f w)) eqn:E3; cbn
  end.
  { exists [false; false; true]. cbn. auto 10. }
  exists [false; false; false]. cbn. rewrite Hs. auto 10.
Qed.

Lemma calls_of_silent {A} c (m : M W A) s :
  Silent (is_call_of c) m -> calls_of c (events (trace_of (m s))) = 0%nat.
Proof. intros H. now apply Silent_calls_of. Qed.

Lemma returns_of_app c (a b : list Event) :
  returns_of c (a ++ b) = returns_of c a ++ returns_of c b.
Proof.
  induction a as [|e a IH]; [reflexivity|].
  destruct e; simpl; try exact IH.
  destruct (LibCall_eqb c c0); simpl; now rewrite IH.
Qed.

Lemma returns_of_silent {A} c (m : M W A) s :
  Silent (is_return_of c) m -> returns_of c (events (trace_of (m s))) = [].
Proof.
  intros H. specialize (H s). unfold events.
  induction H as [|[t e] l He _ IH]; [reflexivity|].
  simpl in *. destruct e; try exact IH.
  simpl in He. rewrite He. exact IH.
Qed.

(** The results of a loop that makes at most three attempts, stops at the
    first success and goes on after a failure are those of
    [retry_outcomes], and conversely. *)
Lemma retry_outcomes_intro (results : list bool) :
  (List.length results <= 3)%nat ->
  stops_at_first_success results = true ->
  In true results \/ List.length results = 3%nat ->
  In results retry_outcomes.
Proof.
  intros Hl Hs Hf.
  destruct results as [|[|] [|[|] [|[|] [|? ?]]]]; simpl in *;
    try discriminate; try lia; auto 6;
    destruct Hf as [Hf|Hf]; try discriminate; try lia;
    repeat (destruct Hf as [Hf|Hf]; try discriminate); try contradiction.
Qed.

Lemma retry_outcomes_elim (results : list bool) :
  In results retry_outcomes ->
  (List.length results <= 3)%nat /\ stops_at_first_success results = true.
Proof.
  intros H. simpl in H.
  repeat (destruct H as [<-|H]; [simpl; split; [lia | reflexivity] |]).
  contradiction.
Qed.

Lemma Retry_enable {C} (f : bool -> M W C) :
  (forall a, Silent (is_call_of RequestStartEngineeringMode) (f a)) ->
  (forall a, Keeps engineeringMode (f a)) ->
  Retry (bind enable_engineering_mode f).
Proof.
  intros Hf Kf s Hs.
  destruct (enable_engineering_mode_events s Hs)
    as [rs [He [Hl [Hstop [Hfull Hflag]]]]].
  exists [], (events (trace_of (f (value_of (enable_engineering_mode s))
                                (state_of (enable_engineering_mode s))))), rs.
  rewrite trace_bind, events_app, He, state_bind, Kf.
  repeat split; auto using retry_outcomes_intro. now apply calls_of_silent.
Qed.

Lemma Retry_prefix {A C} (m : M W A) (f : A -> M W C) :
  Silent (is_call_of RequestStartEngineeringMode) m ->
  Silent (is_return_of Begin) m ->
  Keeps engineeringMode m ->
  (forall a, Retry (f a)) -> Retry (bind m f).
Proof.
  intros Hm Rm Km Hf s Hs.
  destruct (Hf (value_of (m s)) (state_of (m s))) as
    [pre [post [rs [He [Hb [Hpre [Hpost [Hin Hflag]]]]]]]].
  { now rewrite Km. }
  exists (events (trace_of (m s)) ++ pre), post, rs.
  rewrite trace_bind, events_app, He, state_bind, calls_of_app, Hpre.
  rewrite returns_of_app, Hb, returns_of_silent by exact Rm.
  rewrite calls_of_silent by exact Hm.
  rewrite app_assoc. repeat split; auto.
Qed.

Lemma Retried_prefix {A C} (m : M W A) (f : A -> M W C) :
  Silent (is_call_of RequestStartEngineeringMode) m ->
  Silent (is_return_of Begin) m ->
  Keeps engineeringMode m ->
  (forall a, Retried (f a)) -> Retried (bind m f).
Proof.
  intros Hm Rm Km Hf s Hs.
  destruct (Hf (value_of (m s)) (state_of (m s))) as
    [began [pre [post [rs [He [Hb [Hin [Hpre [Hpost Hflag]]]]]]]]].
  { now rewrite Km. }
  exists began, (events (trace_of (m s)) ++ pre), post, rs.
  rewrite trace_bind, events_app, He, state_bind, calls_of_app, Hpre.
  rewrite returns_of_app, Hb, returns_of_silent by exact Rm.
  rewrite calls_of_silent by exact Hm.
  rewrite app_assoc. repeat split; auto.
Qed.

(** The two branches after radar.begin: the retry loop is in the first one
    only. *)
Lemma Retried_begin {C} g (m1 m2 : M W C) :
  Retry m1 ->
  Silent (is_call_of RequestStartEngineeringMode) m2 ->
  Silent (is_return_of Begin) m2 ->
  Keeps engineeringMode m2 ->
  Retried (bind (call Begin g) (fun began : bool => if began then m1 else m2)).
Proof.
  intros H1 S2 R2 K2 s Hs.
  rewrite trace_bind, state_bind, events_app.
  set (s1 := state_of (call Begin g s)).
  assert (G : engineeringMode (globals s1) = false) by exact Hs.
  change (events (trace_of (call Begin g s)))
    with [Call Begin; Ret Begin (value_of (call Begin g s))].
  destruct (value_of (call Begin g s)).
  - destruct (H1 s1 G) as [pre [post [rs [He [Hb [Hpre [Hpost [Hin Hflag]]]]]]]].
    exists true, ([Call Begin; Ret Begin true] ++ pre), post, rs.
    rewrite He, <- app_assoc, returns_of_app, Hb, calls_of_app, Hpre.
    repeat split; auto.
  - exists false, ([Call Begin; Ret Begin false] ++ events (trace_of (m2 s1))),
      [], [].
    rewrite K2, G, returns_of_app, calls_of_app.
    rewrite returns_of_silent by exact R2.
    rewrite calls_of_silent by exact S2.
    rewrite !app_nil_r. repeat split; auto.
Qed.

Lemma setup_retried : Retried (setup (W := W)).
Proof.
  unfold setup.
  repeat lazymatch goal with
  | |- Retried (bind (call Begin _) _) =>
      apply Retried_begin; [ | now frame | now frame | now frame ]
  | |- Retried (bind _ _) =>
      apply Retried_prefix; [now frame | now frame | now frame | intros]
  | |- Retry (bind enable_engineering_mode _) =>
      apply Retry_enable; frame
  | |- Retry (bind _ _) =>
      apply Retry_prefix; [now frame | now frame | now frame | intros]
  end.
Qed.

Lemma calls_of_attempt_blocks i results :
  calls_of RequestStartEngineeringMode (attempt_blocks i results) =
  List.length results.
Proof.
  revert i. induction results as [|ok r IH]; intros i; [reflexivity|].
  change (attempt_blocks i (ok :: r))
    with (attempt_block i ok ++ attempt_blocks (S i) r).
  rewrite calls_of_app, IH. destruct ok; reflexivity.
Qed.

(** ** The engine behind a request *)

Lemma await_keeps code timeout (e : Engine.State) :
  Engine.written (snd (Engine.await code timeout e)) = Engine.written e /\
  Engine.in_configuration (snd (Engine.await code timeout e)) =
    Engine.in_configuration e.
Proof.
  revert e. induction timeout as [|t IH]; intros e; [split; reflexivity|].
  simpl. destruct (Engine.pending e) as [|[|a] rest]; [apply IH | |].
  - destruct (IH (Engine.set_pending rest e)) as [H1 H2]. now rewrite H1, H2.
  - destruct (Engine.Command_eqb (Engine.ack_code a) code); [split; reflexivity|].
    destruct (IH (Engine.set_pending rest e)) as [H1 H2]. now rewrite H1, H2.
Qed.

(** One sendCommand writes the target frame once when configuration mode
    is (or gets) entered, and not at all otherwise, whatever its outcome. *)
Lemma sendCommand_frames code params timeout exit_after (e : Engine.State) :
  exists entered : bool,
    Engine.written (snd (Engine.sendCommand code params timeout exit_after e)) =
      Engine.written e ++
      Engine.frames_of_call (Engine.mkCommand code params) exit_after
                            (Engine.in_configuration e) entered /\
    (Engine.in_configuration e = true -> entered = true) /\
    (entered = false ->
     fst (Engine.sendCommand code params timeout exit_after e) = Engine.Timeout).
Proof.
  unfold Engine.sendCommand, Engine.frames_of_call.
  destruct (Engine.in_configuration e) eqn:Hin.
  - exists true. cbn [fst snd].
    destruct (await_keeps code timeout
                (Engine.emit_frame (Engine.mkCommand code params) e)) as [Hw _].
    repeat split; try discriminate.
    destruct exit_after; cbn; rewrite Hw; cbn; now rewrite <- ?app_assoc.
  - destruct (await_keeps Engine.EnterConfiguration timeout
                (Engine.emit_frame
                   (Engine.mkCommand Engine.EnterConfiguration []) e)) as [Hw _].
    destruct (Engine.await Engine.EnterConfiguration timeout _) as [[a|] e1];
      cbn [fst snd] in *.
    + exists true.
      destruct (await_keeps code timeout
                  (Engine.emit_frame (Engine.mkCommand code params)
                     (Engine.set_in_configuration true e1))) as [Hw2 _].
      repeat split; try discriminate.
      destruct exit_after; cbn; rewrite Hw2; cbn; rewrite Hw; cbn;
        now rewrite <- ?app_assoc.
    + exists false. repeat split; try discriminate. rewrite Hw. cbn.
      now rewrite ?app_nil_r.
Qed.

Lemma sent_app c (e : Engine.State) l w :
  Engine.written e = w ++ l ->
  Engine.sent c e =
  (List.length (filter (fun f => Engine.Command_eqb c (Engine.command_code f)) w) +
   List.length (filter (fun f => Engine.Command_eqb c (Engine.command_code f)) l))%nat.
Proof.
  intros H. unfold Engine.sent. now rewrite H, filter_app, length_app.
Qed.

(** C2. setup retries the single-shot requestStartEngineeringMode itself.
    Started with the flag engineeringMode false, its run contains the
    attempts as consecutive blocks, each one announcement, one flush, one
    call and its return, followed by FAILED and delay(1000) when the call
    returned false and by SUCCESS when it returned true.  radar.begin
    returns once, before the attempts.  When it returned true there is a
    first attempt, every failed attempt is followed by the next one until
    the third, and the first attempt that returns true is the last: the
    results are those of [retry_outcomes].  When it returned false there is
    no attempt.  Nothing else in setup calls requestStartEngineeringMode,
    so that it is called once per attempt, three times at most; and the flag
    is true afterwards exactly when one of the attempts returned true.
    Inside one call (the engine of the library, modelled from section 4.3
    of the spec) nothing is retried: whatever the timeout, the pending
    frames and the outcome, the enable-engineering command frame is written
    to the transport once at most, and exactly once when the engine is in
    configuration mode. *)
Theorem engineering_mode_retried_by_setup (s : St W) :
  engineeringMode (globals s) = false ->
  (exists (began : bool) (pre post : list Event) (results : list bool),
     events (trace_of (setup s)) = pre ++ attempt_blocks 0 results ++ post /\
     returns_of Begin pre = [began] /\
     (if began then In results retry_outcomes else results = []) /\
     calls_of RequestStartEngineeringMode pre = 0%nat /\
     calls_of RequestStartEngineeringMode post = 0%nat /\
     calls_of RequestStartEngineeringMode (events (trace_of (setup s))) =
       List.length results /\
     (List.length results <= 3)%nat /\
     stops_at_first_success results = true /\
     engineeringMode (globals (state_of (setup s))) =
       existsb (fun ok => ok) results) /\
  (forall (timeout : nat) (exit_after : bool) (e : Engine.State),
     let e' := snd (Engine.requestStartEngineeringMode timeout exit_after e) in
     (exists entered : bool,
        Engine.written e' =
          Engine.written e ++
          Engine.frames_of_call (Engine.mkCommand Engine.EnableEngineering [])
            exit_after (Engine.in_configuration e) entered /\
        (Engine.in_configuration e = true -> entered = true) /\
        (entered = false ->
         fst (Engine.requestStartEngineeringMode timeout exit_after e) = false)) /\
     (Engine.sent Engine.EnableEngineering e' <=
      Engine.sent Engine.EnableEngineering e + 1)%nat /\
     (Engine.in_configuration e = true ->
      Engine.sent Engine.EnableEngineering e' =
      (Engine.sent Engine.EnableEngineering e + 1)%nat)).
Proof.
  intros Hs. split.
  - destruct (setup_retried s Hs) as
      [began [pre [post [rs [He [Hb [Hin [Hpre [Hpost Hflag]]]]]]]]].
    assert (B2 : (List.length rs <= 3)%nat /\ stops_at_first_success rs = true).
    { destruct began; [now apply retry_outcomes_elim|].
      subst rs. split; [apply Nat.le_0_l | reflexivity]. }
    exists began, pre, post, rs. repeat split; auto; try apply B2.
    rewrite He, !calls_of_app, Hpre, Hpost, calls_of_attempt_blocks. lia.
  - intros timeout exit_after e e'.
    destruct (sendCommand_frames Engine.EnableEngineering [] timeout exit_after e)
      as [entered [Hw [Hin Hout]]].
    assert (E' : e' = snd (Engine.sendCommand Engine.EnableEngineering []
                             timeout exit_after e)).
    { unfold e', Engine.requestStartEngineeringMode.
      now destruct (Engine.sendCommand _ _ _ _ _) as [[a|] e2]. }
    rewrite <- E' in Hw.
    split; [|split].
    + exists entered. repeat split; auto.
      intros Hf. specialize (Hout Hf).
      unfold Engine.requestStartEngineeringMode.
      destruct (Engine.sendCommand _ _ _ _ _) as [[a|] e2];
        [discriminate | reflexivity].
    + rewrite (sent_app _ _ _ _ Hw). unfold Engine.sent, Engine.frames_of_call.
      destruct (Engine.in_configuration e), entered, exit_after; cbn; lia.
    + intros Hc. rewrite (sent_app _ _ _ _ Hw).
      rewrite (Hin Hc), Hc. unfold Engine.sent, Engine.frames_of_call.
      destruct exit_after; cbn; lia.
Qed.

(** ** The commands of setup *)

Lemma lib_events_attempt_blocks i results :
  lib_events (attempt_blocks i results) = flat_map engineering_pair results.
Proof.
  revert i. induction results as [|ok r IH]; intros i; [reflexivity|].
  change (attempt_blocks i (ok :: r))
    with (attempt_block i ok ++ attempt_blocks (S i) r).
  rewrite lib_events_app, IH. destruct ok; reflexivity.
Qed.

Lemma one_at_a_time_lib p es :
  one_at_a_time p (lib_events es) = one_at_a_time p es.
Proof.
  revert p. induction es as [|e es IH]; intros p; [reflexivity|].
  destruct e; simpl; try apply IH.
  - destruct p; [reflexivity | apply IH].
  - destruct p; [|reflexivity]. now rewrite IH.
Qed.

Lemma one_at_a_time_attempts attempts :
  one_at_a_time None (flat_map engineering_pair attempts) = true.
Proof. induction attempts as [|a l IH]; [reflexivity | exact IH]. Qed.

Lemma one_at_a_time_setup_commands began got attempts :
  one_at_a_time None (setup_commands began got attempts) = true.
Proof.
  destruct began; [|reflexivity]. cbn. apply one_at_a_time_attempts.
Qed.

Lemma enable_engineering_mode_shape :
  Shape (fun l => exists attempts, l = flat_map engineering_pair attempts /\
                                   (List.length attempts <= 3)%nat)
        (enable_engineering_mode (W := W) (B := B)).
Proof.
  intros s.
  assert (K : Keeps (fun _ => tt) (enable_engineering_mode (W := W))) by frame.
  pose (s0 := mkSt (world s) (set_engineeringMode false (globals s))).
  assert (E : trace_of (enable_engineering_mode s) =
              trace_of (enable_engineering_mode s0)).
  { unfold enable_engineering_mode. cbn.
    repeat match goal with
    | |- context [if fst (?f ?w) then _ else _] => destruct (fst (f w)); cbn
    end; reflexivity. }
  rewrite E.
  destruct (enable_engineering_mode_events s0 eq_refl) as [rs [He [Hl _]]].
  exists rs. rewrite He, lib_events_attempt_blocks. auto.
Qed.

Lemma setup_shape :
  Shape (fun l => exists began got attempts,
                    l = setup_commands began got attempts /\
                    (List.length attempts <= 3)%nat)
        (setup (W := W)).
Proof.
  unfold setup.
  repeat lazymatch goal with
  | |- Shape _ (bind (call Begin _) _) =>
      apply Shape_call; intros [|]
  | |- Shape _ (bind (call RequestCurrentConfiguration _) _) =>
      apply Shape_call; intros got
  | |- Shape _ (bind enable_engineering_mode _) =>
      eapply Shape_suffix;
      [ apply enable_engineering_mode_shape
      | now frame
      | intros l [attempts [-> Hl]]; exists true, got, attempts; split;
        [reflexivity | exact Hl] ]
  | |- Shape _ (bind _ _) => apply Shape_prefix; [now frame | intros]
  | |- Shape _ (println_str _) =>
      apply Shape_silent;
      [ now frame | exists false, false, []; split; [reflexivity | apply Nat.le_0_l] ]
  end.
Qed.

(** C8. The library calls of setup come one after the other, each returned
    before the next is entered: radar.begin first; if it returns true, then
    requestCurrentConfiguration, and after its return the attempts (at most
    three) of requestStartEngineeringMode; if radar.begin returns false, no
    command at all. *)
Theorem setup_commands_in_sequence (s : St W) :
  exists (began got : bool) (attempts : list bool),
    lib_events (events (trace_of (setup s))) = setup_commands began got attempts /\
    (List.length attempts <= 3)%nat /\
    one_at_a_time None (events (trace_of (setup s))) = true.
Proof.
  destruct (setup_shape s) as [began [got [attempts [E Hl]]]].
  exists began, got, attempts. repeat split; auto.
  rewrite <- one_at_a_time_lib, E. apply one_at_a_time_setup_commands.
Qed.

End Properties.

(** C5, as stated: there are no two distinct command strings that are both
    recognised (here on the simulated board). *)
Lemma two_commands_refuted :
  ~ (exists c1 c2 : string,
       c1 <> c2 /\
       recognised (W := Sim.World) c1 /\ recognised (W := Sim.World) c2).
Proof.
  intros [c1 [c2 [Hne [[s1 H1] [s2 H2]]]]].
  assert (E1 : c1 = "GET_CONFIG").
  { destruct (String.eqb_spec c1 "GET_CONFIG"); [assumption|].
    exfalso. apply H1. now apply dispatch_other. }
  assert (E2 : c2 = "GET_CONFIG").
  { destruct (String.eqb_spec c2 "GET_CONFIG"); [assumption|].
    exfalso. apply H2. now apply dispatch_other. }
  congruence.
Qed.

(** ** The decoder *)

(** C7. The decoder maps the target-state value "no target" to presence =
    false with both flags false, "moving only" to presence = true, moving =
    true, stationary = false, and "moving+stationary" to presence = true with
    both flags true, as the three accessors show them. *)
Theorem target_state_flags (md me sd se : Z) :
  let flags r := (Decoder.presenceDetected r, Decoder.movingTargetDetected r,
                  Decoder.stationaryTargetDetected r) in
  flags (Decoder.decode Decoder.NoTarget md me sd se) = (false, false, false) /\
  flags (Decoder.decode Decoder.MovingOnly md me sd se) = (true, true, false) /\
  flags (Decoder.decode Decoder.MovingAndStationary md me sd se) = (true, true, true).
Proof. repeat split. Qed.

(** ** Time stamps *)

Lemma marks_app {K} (mark : Event -> option K) (a b : Trace) :
  marks mark (a ++ b) = marks mark a ++ marks mark b.
Proof.
  induction a as [|[t e] a IH]; [reflexivity|].
  simpl. destruct (mark e); simpl; now rewrite IH.
Qed.

(** The gate [millis() - stamp > limit] in 32-bit arithmetic: when the stamp
    was taken at [b] and the clock is read at [a], not before, more than
    [limit] ms have passed. *)
Lemma gate_elapsed (a b limit : Z) :
  b <= a ->
  (wrap32 (wrap32 a - wrap32 b) >? limit) = true ->
  limit < a - b.
Proof.
  intros Hab H. unfold wrap32 in H.
  rewrite <- Zminus_mod in H.
  apply Z.gtb_lt in H.
  assert (Hle : (a - b) mod 2 ^ 32 <= a - b) by (apply Z.mod_le; lia).
  lia.
Qed.

Section Stamps.
Context {W : Type} {B : Board W} {L : BoardLaws W}.
Context {K : Type}.
Variable mark : Event -> option K.
Variable thr : K -> Z.
Variable stamp : Globals -> Z.

Lemma marks_silent {A} (m : M W A) :
  Silent (marked mark) m -> forall s, marks mark (trace_of (m s)) = [].
Proof.
  intros H s. specialize (H s).
  induction H as [|[t e] l He _ IH]; [reflexivity|].
  simpl in *. unfold marked in He. destruct (mark e); [discriminate | exact IH].
Qed.

Lemma Step_quiet {A} (m : M W A) :
  Silent (marked mark) m -> Keeps stamp m -> Forward m -> Step mark thr stamp m.
Proof.
  intros Hs Hk Hf s. split; [apply Hf|]. left.
  split; [now apply marks_silent | apply Hk].
Qed.

Lemma Step_prefix {A C} (m : M W A) (f : A -> M W C) :
  Silent (marked mark) m -> Keeps stamp m -> Forward m ->
  (forall a, Step mark thr stamp (f a)) -> Step mark thr stamp (bind m f).
Proof.
  intros Hs Hk Hf Hstep s.
  rewrite trace_bind, state_bind, marks_app, marks_silent by exact Hs.
  destruct (Hstep (value_of (m s)) (state_of (m s))) as [Hnow Hcase].
  specialize (Hf s). split; [lia|].
  destruct Hcase as [[Hm Hst] | [t [k [Hm [Hst [Ht Hgate]]]]]].
  - left. split; [exact Hm | now rewrite Hst].
  - right. exists t, k. split; [exact Hm|]. split; [exact Hst|].
    split; [exact Ht|].
    intros t0 H0 Hle. apply Hgate; [now rewrite Hk | lia].
Qed.

Lemma Step_suffix {A C} (m : M W A) (f : A -> M W C) :
  Step mark thr stamp m ->
  (forall a, Silent (marked mark) (f a)) -> (forall a, Keeps stamp (f a)) ->
  (forall a, Forward (f a)) -> Step mark thr stamp (bind m f).
Proof.
  intros Hstep Hs Hk Hf s.
  rewrite trace_bind, state_bind, marks_app.
  rewrite (marks_silent (f _)) by apply Hs.
  rewrite app_nil_r.
  destruct (Hstep s) as [Hnow Hcase].
  specialize (Hf (value_of (m s)) (state_of (m s))).
  specialize (Hk (value_of (m s)) (state_of (m s))).
  split; [lia|].
  destruct Hcase as [[Hm Hst] | [t [k [Hm [Hst [Ht Hgate]]]]]].
  - left. split; [exact Hm | congruence].
  - right. exists t, k. split; [exact Hm|]. split; [congruence|].
    split; [lia | exact Hgate].
Qed.

Lemma Step_if {A} (b : bool) (m1 m2 : M W A) :
  Step mark thr stamp m1 -> Step mark thr stamp m2 ->
  Step mark thr stamp (if b then m1 else m2).
Proof. destruct b; auto. Qed.

(** The pattern of lines 249-252 and 265-268: a gate on the clock, then the
    stamp, then the report. *)
Lemma Step_gate (set_stamp : Z -> Globals -> Globals) (k : K) (body : M W unit) :
  (forall v g, stamp (set_stamp v g) = v) ->
  (forall v, mark (Millis v) = None) ->
  (forall s, marks mark (trace_of (body s)) = [(now (world s), k)]) ->
  Keeps stamp body -> Forward body ->
  Step mark thr stamp
    (m <- sk_millis ;;
     g <- get_globals ;;
     when (wrap32 (m - stamp g) >? thr k) (
       m' <- sk_millis ;;
       modify_globals (set_stamp m') ;;
       body)).
Proof.
  intros Hset Hmillis Hbody Hk Hf s.
  rewrite !trace_bind, !state_bind.
  cbn [sk_millis ask get_globals trace_of state_of value_of fst snd globals world
       app marks].
  rewrite Hmillis.
  pose proof (millis_now (world s)) as Hm1.
  pose proof (millis_mono (world s)) as Hle1.
  set (w1 := snd (millis (world s))) in *.
  destruct (wrap32 (fst (millis (world s)) - stamp (globals s)) >? thr k) eqn:Hgate;
    cbn [when].
  - rewrite !trace_bind, !state_bind.
    cbn [sk_millis ask modify_globals trace_of state_of value_of fst snd globals
         world app marks].
    rewrite Hmillis.
    pose proof (millis_now w1) as Hm2.
    pose proof (millis_mono w1) as Hle2.
    set (w2 := snd (millis w1)) in *.
    set (s2 := mkSt w2 (set_stamp (fst (millis w1)) (globals s))).
    specialize (Hf s2). specialize (Hk s2). specialize (Hbody s2).
    change (world s2) with w2 in *. change (globals s2) with
      (set_stamp (fst (millis w1)) (globals s)) in Hk.
    split; [lia|]. right. exists (now w2), k.
    rewrite Hbody, Hk, Hset, Hm2. repeat split; auto.
    intros t0 H0 Ht0. rewrite Hm1, H0 in Hgate.
    apply gate_elapsed in Hgate; lia.
  - cbn [ret trace_of state_of value_of fst snd globals world marks].
    split; [lia|]. left. split; reflexivity.
Qed.

(** From one iteration to all of them. *)
Lemma paced_run :
  Step mark thr stamp (loop (W := W)) ->
  forall n s prev,
    stamped stamp prev s ->
    paced thr prev (marks mark (trace_of (run n s))) = true.
Proof.
  intros Hloop. induction n as [|n IH]; intros s prev Hprev; [reflexivity|].
  change (run (S n)) with (bind loop (fun _ => run n)).
  rewrite trace_bind, marks_app.
  destruct (Hloop s) as [Hnow [[Hm Hst] | [t [k [Hm [Hst [Ht Hgate]]]]]]];
    rewrite Hm; cbn [app].
  - apply IH. destruct prev as [t0|]; [|exact I].
    destruct Hprev as [H0 Hle]. split; [congruence | lia].
  - cbn [paced]. apply andb_true_intro. split.
    + destruct prev as [t0|]; [|reflexivity].
      destruct Hprev as [H0 Hle]. apply Z.ltb_lt. now apply Hgate.
    + apply IH. split; assumption.
Qed.

End Stamps.

Section Cadence.
Context {W : Type} {B : Board W} {L : BoardLaws W}.

(** ** The two periodic reports *)

Lemma printDetectionInfo_marks (s : St W) :
  marks report_of (trace_of (printDetectionInfo s)) = [(now (world s), Detection)].
Proof.
  unfold printDetectionInfo, detection_line.
  rewrite trace_bind, marks_app, trace_bind, marks_app.
  rewrite (marks_silent report_of gate_lines) by frame.
  match goal with
  | |- context [marks report_of (trace_of (bind ?m ?f ?x))] =>
      rewrite (marks_silent report_of (bind m f)) by frame
  end.
  reflexivity.
Qed.

Lemma disconnected_marks (s : St W) :
  marks report_of
    (trace_of (println_str "Radar disconnected - Check connections" s)) =
  [(now (world s), Disconnected)].
Proof. reflexivity. Qed.

Lemma loop_report_step : Step report_of threshold lastReading (loop (W := W)).
Proof.
  unfold loop.
  apply Step_prefix; [now frame | now frame | now frame | intros _].
  apply Step_prefix; [now frame | now frame | now frame | intros _].
  apply Step_prefix; [now frame | now frame | now frame | intros connected].
  apply Step_if.
  - apply Step_suffix; [| now frame | now frame | now frame].
    unfold report_detection.
    apply (Step_gate report_of threshold lastReading set_lastReading Detection
             printDetectionInfo).
    + reflexivity.
    + reflexivity.
    + apply printDetectionInfo_marks.
    + frame.
    + frame.
  - unfold report_disconnected.
    apply (Step_gate report_of threshold lastReading set_lastReading Disconnected
             (println_str "Radar disconnected - Check connections")).
    + reflexivity.
    + reflexivity.
    + apply disconnected_marks.
    + frame.
    + frame.
Qed.

Lemma not_marked_silent {A} (r : Report) (m : M W A) (s : St W) t :
  Silent (is_report r) m -> ~ In (t, r) (marks report_of (trace_of (m s))).
Proof.
  intros H. specialize (H s).
  induction H as [|[t' e] l He _ IH]; [intros []|].
  simpl in *. unfold is_report in He.
  destruct (report_of e) as [r'|]; [|exact IH].
  intros [E|E]; [|now apply IH].
  injection E as _ ->. destruct r; discriminate.
Qed.

Lemma loop_report_kind (s : St W) t r :
  In (t, r) (marks report_of (trace_of (loop s))) ->
  In (Ret IsConnected (Report_eqb r Detection)) (events (trace_of (loop s))).
Proof.
  unfold loop. intros H.
  rewrite trace_bind, marks_app in H. apply in_app_or in H.
  destruct H as [H|H]; [exfalso; revert H; apply not_marked_silent; frame|].
  rewrite trace_bind, events_app. apply in_or_app. right.
  rewrite trace_bind, marks_app in H. apply in_app_or in H.
  destruct H as [H|H]; [exfalso; revert H; apply not_marked_silent; frame|].
  rewrite trace_bind, events_app. apply in_or_app. right.
  rewrite trace_bind, marks_app in H. apply in_app_or in H.
  destruct H as [H|H]; [exfalso; revert H; apply not_marked_silent; frame|].
  rewrite trace_bind, events_app. apply in_or_app. left.
  cbv beta in H. revert H.
  set (s1 := state_of (poll_radar s)).
  set (s2 := state_of (serve_monitor s1)).
  change (value_of (call IsConnected radar_isConnected s2))
    with (fst (radar_isConnected (world s2))).
  cbn [call trace_of snd events map].
  destruct (fst (radar_isConnected (world s2))); intros H; destruct r; cbn; auto;
    exfalso; revert H; apply not_marked_silent; frame.
Qed.

(** C10. Over any number of iterations of loop, every report
    (printDetectionInfo, or the disconnected message) comes more than its
    own threshold after the report before it, whichever of the two that was:
    more than 500 ms for printDetectionInfo, more than 5000 ms for the
    disconnected message; and printDetectionInfo is called only in an
    iteration where isConnected() returned true, the message is printed only
    in one where it returned false. *)
Theorem reports_are_rate_limited (n : nat) (s : St W) :
  paced threshold None (marks report_of (trace_of (run n s))) = true /\
  (forall s' t r,
     In (t, r) (marks report_of (trace_of (loop s'))) ->
     In (Ret IsConnected (Report_eqb r Detection)) (events (trace_of (loop s')))).
Proof.
  split.
  - apply (paced_run report_of threshold lastReading loop_report_step). exact I.
  - apply loop_report_kind.
Qed.

(** ** Re-requesting the configuration *)

(** The pattern of lines 255-263, for any body that starts with the call. *)
Lemma Step_retry (body : M W unit) :
  (forall s, marks retry_of (trace_of (body s)) = [(now (world s), tt)]) ->
  Keeps lastConfigRead body -> Forward body ->
  Step retry_of (fun _ => 30000) lastConfigRead
    (g <- get_globals ;;
     due <- (if negb (configDisplayed g) then
               m <- sk_millis ;; ret (wrap32 (m - lastConfigRead g) >? 30000)
             else ret false) ;;
     when due (
       m' <- sk_millis ;;
       modify_globals (set_lastConfigRead m') ;;
       body)).
Proof.
  intros Hbody Hk Hf s.
  rewrite !trace_bind, !state_bind.
  cbn [get_globals trace_of state_of value_of fst snd globals world app marks].
  destruct (configDisplayed (globals s)); cbn [negb].
  { cbn [ret when trace_of state_of value_of fst snd globals world app marks].
    split; [lia|]. left. split; reflexivity. }
  rewrite !trace_bind, !state_bind, !value_bind.
  cbn [sk_millis ask ret trace_of state_of value_of fst snd globals world app
       marks retry_of].
  pose proof (millis_now (world s)) as Hm1.
  pose proof (millis_mono (world s)) as Hle1.
  set (w1 := snd (millis (world s))) in *.
  destruct (wrap32 (fst (millis (world s)) - lastConfigRead (globals s)) >? 30000)
    eqn:Hgate; cbn [when].
  - rewrite !trace_bind, !state_bind.
    cbn [sk_millis ask modify_globals trace_of state_of value_of fst snd globals
         world app marks retry_of].
    pose proof (millis_now w1) as Hm2.
    pose proof (millis_mono w1) as Hle2.
    set (w2 := snd (millis w1)) in *.
    set (s2 := mkSt w2 (set_lastConfigRead (fst (millis w1)) (globals s))).
    specialize (Hf s2). specialize (Hk s2). specialize (Hbody s2).
    change (world s2) with w2 in *.
    split; [lia|]. right. exists (now w2), tt.
    rewrite Hbody, Hk. cbn [globals s2 set_lastConfigRead lastConfigRead].
    rewrite Hm2. split; [reflexivity|]. split; [reflexivity|]. split; [assumption|].
    intros t0 H0 Ht0. rewrite Hm1, H0 in Hgate.
    apply gate_elapsed in Hgate; lia.
  - cbn [ret trace_of state_of value_of fst snd globals world marks].
    split; [lia|]. left. split; reflexivity.
Qed.

Lemma retry_body_marks (s : St W) :
  marks retry_of
    (trace_of
       ((println_str (nl ++ "Retrying configuration read...")%string ;;
         got <- call RequestCurrentConfiguration radar_requestCurrentConfiguration ;;
         when got (
           sk_delay 500 ;;
           printConfiguration ;;
           modify_globals (set_configDisplayed true))) s)) =
  [(now (world s), tt)].
Proof.
  rewrite trace_bind, marks_app, trace_bind, marks_app.
  match goal with
  | |- context [marks retry_of (trace_of (when ?b ?m ?x))] =>
      rewrite (marks_silent retry_of (when b m)) by frame
  end.
  reflexivity.
Qed.

Lemma loop_retry_step :
  Step retry_of (fun _ => 30000) lastConfigRead (loop (W := W)).
Proof.
  unfold loop.
  apply Step_prefix; [now frame | now frame | now frame | intros _].
  apply Step_prefix; [now frame | now frame | now frame | intros _].
  apply Step_prefix; [now frame | now frame | now frame | intros connected].
  apply Step_if.
  - apply Step_prefix; [now frame | now frame | now frame | intros _].
    unfold retry_configuration. apply Step_retry.
    + apply retry_body_marks.
    + frame.
    + frame.
  - apply Step_quiet; frame.
Qed.

Lemma Dormant_quiet {A} (m : M W A) :
  Silent (is_call_of RequestCurrentConfiguration) m ->
  Keeps configDisplayed m -> Dormant m.
Proof.
  intros Hs Hk s H. split; [now rewrite Hk | now apply Silent_calls_of].
Qed.

Lemma Dormant_bind {A C} (m : M W A) (f : A -> M W C) :
  Dormant m -> (forall a, Dormant (f a)) -> Dormant (bind m f).
Proof.
  intros Hm Hf s H. destruct (Hm s H) as [H1 C1].
  destruct (Hf (value_of (m s)) (state_of (m s)) H1) as [H2 C2].
  rewrite trace_bind, events_app, calls_of_app, state_bind, C1, C2. auto.
Qed.

Lemma Dormant_if {A} (b : bool) (m1 m2 : M W A) :
  Dormant m1 -> Dormant m2 -> Dormant (if b then m1 else m2).
Proof. destruct b; auto. Qed.

Lemma Dormant_retry_configuration : Dormant (retry_configuration (W := W)).
Proof.
  intros s H. unfold retry_configuration.
  rewrite !trace_bind, !state_bind.
  cbn [get_globals trace_of state_of value_of fst snd globals world app].
  rewrite H. cbn. auto.
Qed.

Lemma Dormant_loop : Dormant (loop (W := W)).
Proof.
  unfold loop.
  apply Dormant_bind; [apply Dormant_quiet; frame | intros _].
  apply Dormant_bind; [apply Dormant_quiet; frame | intros _].
  apply Dormant_bind; [apply Dormant_quiet; frame | intros connected].
  apply Dormant_if.
  - apply Dormant_bind; [apply Dormant_quiet; frame | intros _].
    apply Dormant_retry_configuration.
  - apply Dormant_quiet; frame.
Qed.

Lemma Dormant_run (n : nat) : Dormant (run (W := W) n).
Proof.
  induction n as [|n IH].
  - intros s H. auto.
  - change (run (S n)) with (bind loop (fun _ => run (W := W) n)).
    apply Dormant_bind; [apply Dormant_loop | intros _; exact IH].
Qed.

Lemma loop_displayed_justified :
  Justified configDisplayed (Ret RequestCurrentConfiguration true) (loop (W := W)).
Proof.
  unfold loop.
  apply Justified_bind; [now (apply Justified_keeps; frame) | intros _].
  apply Justified_bind; [now (apply Justified_keeps; frame) | intros _].
  apply Justified_bind; [now (apply Justified_keeps; frame) | intros connected].
  apply Justified_if; [|now (apply Justified_keeps; frame)].
  apply Justified_bind; [now (apply Justified_keeps; frame) | intros _].
  intros s H0. unfold retry_configuration.
  rewrite !trace_bind, !state_bind.
  cbn [get_globals trace_of state_of value_of fst snd globals world app].
  rewrite H0. cbn [negb].
  rewrite !trace_bind, !state_bind, !value_bind.
  cbn [sk_millis ask ret trace_of state_of value_of fst snd globals world app].
  destruct (wrap32 (fst (millis (world s)) - lastConfigRead (globals s)) >? 30000);
    cbn [when]; [|cbn; rewrite H0; discriminate].
  cbn.
  destruct (fst (radar_requestCurrentConfiguration
                   (snd (millis (snd (millis (world s)))))));
    [intros _; auto 10 | cbn; rewrite H0; discriminate].
Qed.

Lemma setup_displayed_justified :
  Justified configDisplayed (Ret RequestCurrentConfiguration true) (setup (W := W)).
Proof.
  unfold setup.
  repeat lazymatch goal with
  | |- Justified _ _ (bind (call RequestCurrentConfiguration _) _) =>
      apply Justified_call; now (apply Justified_keeps; frame)
  | |- Justified _ _ (bind _ _) =>
      apply Justified_bind; [now (apply Justified_keeps; frame) | intros]
  | |- Justified _ _ (if _ then _ else _) => apply Justified_if
  | |- Justified _ _ _ => now (apply Justified_keeps; frame)
  end.
Qed.

Lemma setup_displayed_stays : Stays configDisplayed (setup (W := W)).
Proof.
  unfold setup.
  repeat lazymatch goal with
  | |- Stays _ (bind _ _) => apply Stays_bind; [|intros]
  | |- Stays _ (if _ then _ else _) => apply Stays_if
  | |- Stays _ (modify_globals (set_configDisplayed true)) =>
      apply Stays_set; reflexivity
  | |- Stays _ _ => now (apply Stays_keeps; frame)
  end.
Qed.

Lemma no_call_no_retry (t : Trace) :
  calls_of RequestCurrentConfiguration (events t) = 0%nat ->
  marks retry_of t = [].
Proof.
  induction t as [|[time e] t IH]; [reflexivity|].
  destruct e; simpl; try exact IH.
  destruct c; simpl; try exact IH. discriminate.
Qed.

Lemma loop_retry_connected (s : St W) (t : Z) :
  In (t, tt) (marks retry_of (trace_of (loop s))) ->
  configDisplayed (globals s) = false /\
  In (Ret IsConnected true) (events (trace_of (loop s))).
Proof.
  intros H. split.
  - destruct (configDisplayed (globals s)) eqn:Hd; [|reflexivity].
    destruct (Dormant_loop s Hd) as [_ Hc].
    rewrite (no_call_no_retry _ Hc) in H. destruct H.
  - revert H. unfold loop.
    rewrite !trace_bind, !marks_app, !events_app.
    rewrite (marks_silent retry_of poll_radar) by frame.
    rewrite (marks_silent retry_of serve_monitor) by frame.
    cbv beta.
    set (s1 := state_of (poll_radar s)).
    set (s2 := state_of (serve_monitor s1)).
    change (value_of (call IsConnected radar_isConnected s2))
      with (fst (radar_isConnected (world s2))).
    intros H. apply in_or_app. right. apply in_or_app. right.
    apply in_or_app. left.
    cbn [call trace_of snd events map marks retry_of app] in *.
    destruct (fst (radar_isConnected (world s2))); [cbn; auto|].
    exfalso. revert H.
    rewrite (marks_silent retry_of report_disconnected) by frame.
    intros [].
Qed.

(** C9. configDisplayed is never reset: setup and any number of iterations
    of loop leave it true once it is true, and from then on loop does not
    call requestCurrentConfiguration; setup and loop turn it from false to
    true only in a run where requestCurrentConfiguration returned true; loop
    re-requests only in an iteration that starts with the flag false and in
    which isConnected() returned true; and over any number of iterations,
    every re-request made by loop comes more than 30000 ms after the
    re-request before it. *)
Theorem configuration_retry_policy (n : nat) (s : St W) :
  (configDisplayed (globals s) = true ->
     configDisplayed (globals (state_of (setup s))) = true /\
     configDisplayed (globals (state_of (run n s))) = true /\
     calls_of RequestCurrentConfiguration (events (trace_of (run n s))) = 0%nat) /\
  (configDisplayed (globals s) = false ->
     (configDisplayed (globals (state_of (setup s))) = true ->
      In (Ret RequestCurrentConfiguration true) (events (trace_of (setup s)))) /\
     (configDisplayed (globals (state_of (loop s))) = true ->
      In (Ret RequestCurrentConfiguration true) (events (trace_of (loop s))))) /\
  (forall t, In (t, tt) (marks retry_of (trace_of (loop s))) ->
     configDisplayed (globals s) = false /\
     In (Ret IsConnected true) (events (trace_of (loop s)))) /\
  paced (fun _ => 30000) None (marks retry_of (trace_of (run n s))) = true.
Proof.
  split; [|split; [|split]].
  - intros H. split; [now apply setup_displayed_stays | now apply Dormant_run].
  - intros H. split.
    + now apply setup_displayed_justified.
    + now apply loop_displayed_justified.
  - apply loop_retry_connected.
  - apply (paced_run retry_of (fun _ => 30000) lastConfigRead loop_retry_step).
    exact I.
Qed.

End Cadence.

(** * The simulated board obeys the laws, and the theorems at work on it *)

#[global] Instance Sim_laws : BoardLaws Sim.World.
Proof.
  constructor; intros; cbn; unfold wrap32; try reflexivity; lia.
Defined.

(** The presence line on the simulated board, with both targets and with
    none. *)
Example sim_presence_line :
  render (output (events (trace_of (detection_line Sim.after_setup)))) =
  ("Presence: YES | Stationary: 120cm E:45 | Moving: 75cm E:60" ++ crlf)%string.
Proof. vm_compute. reflexivity. Qed.

Example sim_no_presence :
  render (output (events (trace_of (printDetectionInfo Sim.unplugged)))) =
  ("Presence: NO" ++ crlf)%string.
Proof. vm_compute. reflexivity. Qed.

Example sim_gates :
  gates_line (world Sim.after_setup) =
  ("GATES_MOV:0,1,2,3,4,5,6,7,8 | GATES_STAT:10,11,12,13,14,15,16,17,18"
   ++ crlf)%string.
Proof. vm_compute. reflexivity. Qed.

(** GET_CONFIG is recognised; a command in lower case is not. *)
Example sim_get_config_recognised : recognised (W := Sim.World) "GET_CONFIG".
Proof. exists Sim.start. vm_compute. discriminate. Qed.

Example sim_lower_case_ignored :
  dispatch "get_config" Sim.start = (tt, Sim.start, []).
Proof. reflexivity. Qed.

(** The first iteration of loop on the simulated board: ten reads, the
    pending command, the connection test, two clock reads. *)
Example sim_first_iteration :
  filter (fun e => negb (is_out e)) (events (trace_of (loop Sim.after_setup))) =
  flat_map read_pair (repeat true 10) ++
  [SerialAvailable 1;
   SerialReadStringUntil "010"%char (" GET_CONFIG" ++ String "013"%char "")%string;
   Call IsConnected; Ret IsConnected true;
   Millis 5402; Millis 5403; Millis 5404].
Proof. vm_compute. reflexivity. Qed.

(** setup on the simulated board: two attempts, the second succeeds. *)
Example sim_setup_attempts :
  lib_events (events (trace_of (setup Sim.start))) =
  setup_commands true false [false; true].
Proof. vm_compute. reflexivity. Qed.

(** With the radar unplugged, radar.begin fails and setup sends no command. *)
Example sim_unplugged_setup :
  lib_events (events (trace_of (setup Sim.unplugged))) =
  setup_commands false false [].
Proof. vm_compute. reflexivity. Qed.

(** The first reports of the simulated board, a little over 500 ms apart. *)
Example sim_reports :
  marks report_of (trace_of (run 40 Sim.after_setup)) =
  [(5403, Detection); (5924, Detection); (6445, Detection); (6966, Detection)].
Proof. vm_compute. reflexivity. Qed.

(** With the radar unplugged, the message comes every 5 s or so. *)
Example sim_unplugged_reports :
  marks report_of (trace_of (run 300 Sim.unplugged)) =
  [(5050, Disconnected); (10100, Disconnected); (15150, Disconnected)].
Proof. vm_compute. reflexivity. Qed.

(** The re-requests of the configuration on the simulated board: the second
    one succeeds, and there is no third. *)
Example sim_retries :
  marks retry_of (trace_of (run 1500 Sim.after_setup)) =
  [(30048, tt); (60054, tt)].
Proof. vm_compute. reflexivity. Qed.

(** On the simulated board the second attempt succeeds, and there is no
    third. *)
Example sim_engineering_attempts :
  returns_of RequestStartEngineeringMode (events (trace_of (setup Sim.start))) =
    [false; true] /\
  engineeringMode (globals Sim.after_setup) = true.
Proof. vm_compute. split; reflexivity. Qed.

(** With engineering mode refused every time, setup gives up after the third
    attempt. *)
Example sim_engineering_refused :
  returns_of RequestStartEngineeringMode
    (events (trace_of (setup (mkSt (Sim.mkWorld 0 true [true] [] true []
                                      (Decoder.decode Decoder.NoTarget 0 0 0 0))
                                   initial_globals)))) =
    [false; false; false].
Proof. vm_compute. reflexivity. Qed.

(** The engine, out of configuration mode, with a sensor that acknowledges
    the entry and then only streams reports: the request times out and
    fails, and the command frame has been written once. *)
Example engine_timeout :
  let e := Engine.mkState false []
             [Engine.DataReport;
              Engine.Ack (Engine.mkAck Engine.EnterConfiguration true []);
              Engine.DataReport; Engine.DataReport; Engine.DataReport] in
  let r := Engine.requestStartEngineeringMode 3 false e in
  fst r = false /\
  Engine.written (snd r) =
    [Engine.mkCommand Engine.EnterConfiguration [];
     Engine.mkCommand Engine.EnableEngineering []].
Proof. vm_compute. split; reflexivity. Qed.

Lemma engineering_mode_retried_by_setup_witness :
  engineeringMode (globals Sim.start) = false /\
  ((exists (began : bool) (pre post : list Event) (results : list bool),
      events (trace_of (setup Sim.start)) =
        pre ++ attempt_blocks 0 results ++ post /\
      returns_of Begin pre = [began] /\
      (if began then In results retry_outcomes else results = []) /\
      calls_of RequestStartEngineeringMode pre = 0%nat /\
      calls_of RequestStartEngineeringMode post = 0%nat /\
      calls_of RequestStartEngineeringMode (events (trace_of (setup Sim.start))) =
        List.length results /\
      (List.length results <= 3)%nat /\
      stops_at_first_success results = true /\
      engineeringMode (globals (state_of (setup Sim.start))) =
        existsb (fun ok => ok) results) /\
   (forall (timeout : nat) (exit_after : bool) (e : Engine.State),
      let e' := snd (Engine.requestStartEngineeringMode timeout exit_after e) in
      (exists entered : bool,
         Engine.written e' =
           Engine.written e ++
           Engine.frames_of_call (Engine.mkCommand Engine.EnableEngineering [])
             exit_after (Engine.in_configuration e) entered /\
         (Engine.in_configuration e = true -> entered = true) /\
         (entered = false ->
          fst (Engine.requestStartEngineeringMode timeout exit_after e) = false)) /\
      (Engine.sent Engine.EnableEngineering e' <=
       Engine.sent Engine.EnableEngineering e + 1)%nat /\
      (Engine.in_configuration e = true ->
       Engine.sent Engine.EnableEngineering e' =
       (Engine.sent Engine.EnableEngineering e + 1)%nat))).
Proof.
  split; [reflexivity|].
  apply (engineering_mode_retried_by_setup Sim.start). reflexivity.
Defined.

Lemma get_config_reply_witness :
  fst (Serial_available (world (state_of (poll_radar Sim.after_setup)))) <> 0 /\
  String_trim
    (fst (Serial_readStringUntil "010"%char
            (snd (Serial_available
                    (world (state_of (poll_radar Sim.after_setup))))))) =
  "GET_CONFIG" /\
  render (output (events (trace_of
            (serve_monitor (state_of (poll_radar Sim.after_setup)))))) =
  wire (config_reply_lines
          (snd (Serial_readStringUntil "010"%char
                  (snd (Serial_available
                          (world (state_of (poll_radar Sim.after_setup)))))))) /\
  exists rest,
    output (events (trace_of (loop Sim.after_setup))) =
    output (events (trace_of
              (serve_monitor (state_of (poll_radar Sim.after_setup))))) ++ rest.
Proof.
  assert (H1 : fst (Serial_available
                      (world (state_of (poll_radar Sim.after_setup)))) <> 0)
    by (vm_compute; discriminate).
  assert (H2 : String_trim
    (fst (Serial_readStringUntil "010"%char
            (snd (Serial_available
                    (world (state_of (poll_radar Sim.after_setup))))))) =
    "GET_CONFIG") by (vm_compute; reflexivity).
  split; [exact H1|]. split; [exact H2|].
  exact (get_config_reply Sim.after_setup H1 H2).
Defined.

Lemma reports_are_rate_limited_witness :
  BoardLaws Sim.World /\
  paced threshold None (marks report_of (trace_of (run 40 Sim.after_setup))) = true /\
  (forall s' t r,
     In (t, r) (marks report_of (trace_of (loop s'))) ->
     In (Ret IsConnected (Report_eqb r Detection)) (events (trace_of (loop s')))).
Proof.
  split; [exact Sim_laws|].
  exact (reports_are_rate_limited (L := Sim_laws) 40 Sim.after_setup).
Defined.

Lemma configuration_retry_policy_witness :
  BoardLaws Sim.World /\
  (configDisplayed (globals Sim.after_setup) = true ->
     configDisplayed (globals (state_of (setup Sim.after_setup))) = true /\
     configDisplayed (globals (state_of (run 1500 Sim.after_setup))) = true /\
     calls_of RequestCurrentConfiguration
       (events (trace_of (run 1500 Sim.after_setup))) = 0%nat) /\
  (configDisplayed (globals Sim.after_setup) = false ->
     (configDisplayed (globals (state_of (setup Sim.after_setup))) = true ->
      In (Ret RequestCurrentConfiguration true)
         (events (trace_of (setup Sim.after_setup)))) /\
     (configDisplayed (globals (state_of (loop Sim.after_setup))) = true ->
      In (Ret RequestCurrentConfiguration true)
         (events (trace_of (loop Sim.after_setup))))) /\
  (forall t, In (t, tt) (marks retry_of (trace_of (loop Sim.after_setup))) ->
     configDisplayed (globals Sim.after_setup) = false /\
     In (Ret IsConnected true) (events (trace_of (loop Sim.after_setup)))) /\
  paced (fun _ => 30000) None
        (marks retry_of (trace_of (run 1500 Sim.after_setup))) = true.
Proof.
  split; [exact Sim_laws|].
  exact (configuration_retry_policy (L := Sim_laws) 1500 Sim.after_setup).
Defined.

(** * More about the sketch *)

(** ** Counting events *)

Lemma count_app p (a b : list Event) : count p (a ++ b) = (count p a + count p b)%nat.
Proof. unfold count. now rewrite filter_app, length_app. Qed.

Lemma delays_app (a b : list Event) : delays (a ++ b) = delays a ++ delays b.
Proof.
  induction a as [|e a IH]; [reflexivity|].
  destruct e; simpl; rewrite ?IH; reflexivity.
Qed.

Section Ledgers.
Context {W : Type} {B : Board W}.
Context {X : Type} (L : Ledger X) (laws : LedgerLaws L).

Lemma silent_forallb {A} (m : M W A) (s : St W) :
  Silent (fun e => negb (neutral L e)) m ->
  forallb (neutral L) (events (trace_of (m s))) = true.
Proof.
  intros H. specialize (H s). unfold events.
  induction H as [|[t e] l He _ IH]; [reflexivity|].
  simpl in *. rewrite IH. apply negb_false_iff in He. now rewrite He.
Qed.

Lemma Acc_quiet {A} (m : M W A) :
  Silent (fun e => negb (neutral L e)) m -> Keeps (part L) m -> Acc L m.
Proof.
  intros Hs Hk s H. rewrite Hk. split; [exact H|].
  apply (rel_neutral L laws). now apply silent_forallb.
Qed.

Lemma Acc_bind {A C} (m : M W A) (f : A -> M W C) :
  Acc L m -> (forall a, Acc L (f a)) -> Acc L (bind m f).
Proof.
  intros Hm Hf s H. destruct (Hm s H) as [H1 R1].
  destruct (Hf (value_of (m s)) (state_of (m s)) H1) as [H2 R2].
  rewrite trace_bind, events_app, state_bind. split; [exact H2|].
  exact (rel_app L laws _ _ _ _ _ R1 R2).
Qed.

Lemma Acc_if {A} (b : bool) (m1 m2 : M W A) :
  Acc L m1 -> Acc L m2 -> Acc L (if b then m1 else m2).
Proof. destruct b; auto. Qed.

Lemma Acc_when (b : bool) (m : M W unit) : Acc L m -> Acc L (when b m).
Proof.
  intros H. destruct b; [exact H|].
  apply Acc_quiet; [apply Silent_ret | apply Keeps_ret].
Qed.

Lemma Acc_for_each {A} (l : list A) (body : A -> M W unit) :
  (forall x, Acc L (body x)) -> Acc L (for_each l body).
Proof.
  intros H. induction l as [|x l IH]; simpl.
  - apply Acc_quiet; [apply Silent_ret | apply Keeps_ret].
  - apply Acc_bind; auto.
Qed.

Lemma Acc_for_break {A V} (l : list A) (body : A -> V -> M W (V * bool)) :
  (forall x v, Acc L (body x v)) -> forall v, Acc L (for_break l body v).
Proof.
  intros H. induction l as [|x l IH]; simpl; intros v.
  - apply Acc_quiet; [apply Silent_ret | apply Keeps_ret].
  - apply Acc_bind; [apply H|]. intros a. apply Acc_if; [|apply IH].
    apply Acc_quiet; [apply Silent_ret | apply Keeps_ret].
Qed.

Lemma Acc_assoc {A C D} (m : M W A) (g : A -> M W C) (f : C -> M W D) :
  Acc L (bind (bind m g) f) -> Acc L (bind m (fun a => bind (g a) f)).
Proof.
  intros H s Hs. destruct (H s Hs) as [H1 R1].
  rewrite !trace_bind, !events_app, !state_bind in *.
  rewrite app_assoc. auto.
Qed.

Lemma Acc_run (n : nat) : Acc L (loop (W := W)) -> Acc L (run (W := W) n).
Proof.
  intros H. induction n as [|n IH].
  - apply Acc_quiet; [apply Silent_ret | apply Keeps_ret].
  - change (run (S n)) with (bind loop (fun _ => run (W := W) n)).
    apply Acc_bind; [exact H | intros _; exact IH].
Qed.

End Ledgers.

(** Follow the structure of a computation for a ledger: parts that are
    quiet for it are closed at once, [leaf] closes the parts that matter. *)
Ltac acc laws leaf :=
  intros;
  lazymatch goal with
  | |- Acc _ (bind _ _) =>
      apply (Acc_bind _ laws); [acc_part laws leaf | acc laws leaf]
  | |- _ => acc_part laws leaf
  end
with acc_part laws leaf :=
  intros;
  first
    [ solve [ apply (Acc_quiet _ laws); [now frame | now frame] ]
    | solve [ leaf ]
    | lazymatch goal with
      | |- Acc _ (bind _ _) =>
          apply (Acc_bind _ laws); [acc_part laws leaf | acc laws leaf]
      | |- Acc _ (if _ then _ else _) =>
          apply Acc_if; [acc laws leaf | acc laws leaf]
      | |- Acc _ (when _ _) => apply (Acc_when _ laws); acc laws leaf
      | |- Acc _ (for_each _ _) => apply (Acc_for_each _ laws); acc laws leaf
      | |- Acc _ (for_break _ _ _) => apply (Acc_for_break _ laws); acc laws leaf
      | |- Acc _ ?m => let h := head_of m in unfold h; acc laws leaf
      end ].

Lemma tally_laws : LedgerLaws tally.
Proof.
  constructor.
  - intros x es H. cbn [rel tally neutral] in *.
    assert (E : count is_detection es = 0%nat /\ count is_debug_notice es = 0%nat).
    { induction es as [|e es IH]; [auto|].
      cbn in H. apply andb_prop in H. destruct H as [He Hes].
      destruct (IH Hes) as [I1 I2].
      apply negb_true_iff, orb_false_iff in He. destruct He as [E1 E2].
      unfold count in *. cbn. rewrite E1, E2. auto. }
    destruct E as [-> ->]. lia.
  - intros x y z a b. cbn [rel tally]. rewrite !count_app. lia.
Qed.

Lemma gated_laws : LedgerLaws gated.
Proof.
  constructor.
  - intros x es H. cbn [rel gated neutral] in *.
    assert (E : count is_detection es = 0%nat /\ count is_debug_notice es = 0%nat
                /\ count is_gates_line es = 0%nat).
    { induction es as [|e es IH]; [auto|].
      cbn in H. apply andb_prop in H. destruct H as [He Hes].
      destruct (IH Hes) as [I1 [I2 I3]].
      apply negb_true_iff, orb_false_iff in He. destruct He as [He E3].
      apply orb_false_iff in He. destruct He as [E1 E2].
      unfold count in *. cbn. rewrite E1, E2, E3. auto. }
    destruct E as [-> [-> ->]]. auto.
  - intros x y z a b. cbn [rel gated]. rewrite !count_app.
    intros [E1 [D1 G1]] [E2 [D2 G2]]. repeat split; lia || congruence.
Qed.

Section Counters.
Context {W : Type} {B : Board W}.

(** ** The reminder and the per-gate line *)

Lemma detection_line_counts (s : St W) :
  count is_detection (events (trace_of (detection_line s))) = 1%nat /\
  count is_debug_notice (events (trace_of (detection_line s))) = 0%nat /\
  count is_gates_line (events (trace_of (detection_line s))) = 0%nat.
Proof.
  unfold detection_line. cbn.
  destruct (presenceDetected (world s)); cbn; [|auto].
  destruct (stationaryTargetDetected (world s)); cbn;
    destruct (movingTargetDetected (world s)); cbn; auto.
Qed.

Lemma printDetectionInfo_tally : Acc tally (printDetectionInfo (W := W)).
Proof.
  intros s [Hf Hc]. cbn [tally part holds rel fst snd] in *.
  unfold printDetectionInfo.
  rewrite state_bind, trace_bind, events_app, !count_app, detection_line_state.
  destruct (detection_line_counts s) as [-> [-> _]].
  unfold gate_lines. cbn. rewrite Hf. cbn.
  destruct (Z.geb_spec (debugCounter (globals s) + 1) 50); cbn;
    rewrite ?Hf; unfold count; cbn; repeat split; auto; lia.
Qed.

Lemma printDetectionInfo_gated : Acc gated (printDetectionInfo (W := W)).
Proof.
  intros s Hf. cbn [gated part holds rel fst snd] in *.
  unfold printDetectionInfo.
  rewrite state_bind, trace_bind, events_app, !count_app, detection_line_state.
  destruct (detection_line_counts s) as [-> [-> ->]].
  unfold gate_lines. cbn. rewrite Hf. cbn. rewrite Hf. auto.
Qed.

Lemma loop_tally : Acc tally (loop (W := W)).
Proof. acc tally_laws ltac:(apply printDetectionInfo_tally). Qed.

Lemma loop_gated : Acc gated (loop (W := W)).
Proof. acc gated_laws ltac:(apply printDetectionInfo_gated). Qed.

(** X1. With engineering mode off and [debugCounter] in its range 0..49,
    over any number of iterations of loop the reminder "DEBUG: Engineering
    mode not enabled" is printed once for every 50 calls of
    printDetectionInfo: with [c] the counter at the start and [k] the number
    of calls, it is printed (c + k) / 50 times and the counter ends at
    (c + k) mod 50; engineering mode stays off. *)
Theorem debug_notice_every_fiftieth_report (n : nat) (s : St W) :
  engineeringMode (globals s) = false ->
  0 <= debugCounter (globals s) < 50 ->
  let es := events (trace_of (run n s)) in
  let calls := Z.of_nat (count is_detection es) in
  Z.of_nat (count is_debug_notice es) = (debugCounter (globals s) + calls) / 50 /\
  debugCounter (globals (state_of (run n s))) =
    (debugCounter (globals s) + calls) mod 50 /\
  engineeringMode (globals (state_of (run n s))) = false.
Proof.
  intros Hf Hc es calls.
  destruct (Acc_run tally tally_laws n loop_tally s) as [[Hf' Hc'] R].
  { split; assumption. }
  cbn [tally part holds rel fst snd] in *. fold es in R. fold calls in R.
  assert (E : debugCounter (globals s) + calls =
              50 * Z.of_nat (count is_debug_notice es) +
              debugCounter (globals (state_of (run n s)))) by exact R.
  repeat split; [| |exact Hf'].
  - apply (Z.div_unique _ 50 _ (debugCounter (globals (state_of (run n s)))));
      [left; exact Hc' | exact E].
  - apply (Z.mod_unique _ 50 (Z.of_nat (count is_debug_notice es)));
      [left; exact Hc' | exact E].
Qed.

(** X2. With engineering mode on, over any number of iterations of loop
    every call of printDetectionInfo prints one per-gate line, the reminder
    is never printed, [debugCounter] is not touched and engineering mode
    stays on. *)
Theorem gates_line_with_every_report (n : nat) (s : St W) :
  engineeringMode (globals s) = true ->
  let es := events (trace_of (run n s)) in
  count is_gates_line es = count is_detection es /\
  count is_debug_notice es = 0%nat /\
  debugCounter (globals (state_of (run n s))) = debugCounter (globals s) /\
  engineeringMode (globals (state_of (run n s))) = true.
Proof.
  intros Hf es.
  destruct (Acc_run gated gated_laws n loop_gated s Hf) as [Hf' [E [D G]]].
  cbn [gated part holds rel fst snd] in *. auto.
Qed.

(** ** Library calls, delays and monitor input *)

Lemma count_silent {A} p (m : M W A) :
  Silent p m -> forall s, count p (events (trace_of (m s))) = 0%nat.
Proof.
  intros H s. specialize (H s). unfold count, events.
  induction H as [|[t e] l He _ IH]; [reflexivity|].
  simpl in *. now rewrite He.
Qed.

Lemma delays_silent {A} (m : M W A) :
  Silent is_delay m -> forall s, delays (events (trace_of (m s))) = [].
Proof.
  intros H s. specialize (H s). unfold events.
  induction H as [|[t e] l He _ IH]; [reflexivity|].
  simpl in *. destruct e; try exact IH. discriminate.
Qed.

Lemma retry_configuration_cases (s : St W) :
  let es := events (trace_of (retry_configuration s)) in
  (calls_of RequestCurrentConfiguration es = 0%nat /\ delays es = []) \/
  (calls_of RequestCurrentConfiguration es = 1%nat /\
   configDisplayed (globals s) = false /\
   ((delays es = [] /\ In (Ret RequestCurrentConfiguration false) es) \/
    (delays es = [500] /\ In (Ret RequestCurrentConfiguration true) es))).
Proof.
  unfold retry_configuration. cbn.
  destruct (configDisplayed (globals s)); cbn; [auto|].
  destruct (wrap32 (fst (millis (world s)) - lastConfigRead (globals s)) >? 30000);
    cbn; [|auto].
  destruct (fst (radar_requestCurrentConfiguration
                   (snd (millis (snd (millis (world s))))))); cbn.
  - right. repeat split; auto. right. split; [reflexivity|]. auto 10.
  - right. repeat split; auto. left. split; [reflexivity|]. auto 10.
Qed.

Lemma loop_retry_part (s : St W) :
  exists s4 : St W,
    configDisplayed (globals s4) = configDisplayed (globals s) /\
    let es := events (trace_of (loop s)) in
    let er := events (trace_of (retry_configuration s4)) in
    calls_of IsConnected es = 1%nat /\
    (calls_of RequestCurrentConfiguration es = 0%nat /\ delays es = [] \/
     calls_of RequestCurrentConfiguration es =
       calls_of RequestCurrentConfiguration er /\
     delays es = delays er /\
     forall e, In e er -> In e es).
Proof.
  assert (Kd : Keeps configDisplayed
                 (poll_radar ;; serve_monitor ;;
                  _ <- call IsConnected radar_isConnected ;;
                  report_detection (W := W))) by frame.
  exists (state_of ((poll_radar ;; serve_monitor ;;
                     _ <- call IsConnected radar_isConnected ;;
                     report_detection (W := W)) s)).
  split; [apply Kd|]. cbv zeta.
  unfold loop.
  rewrite !trace_bind, !events_app, !calls_of_app, !delays_app.
  rewrite !(Silent_calls_of IsConnected poll_radar) by frame.
  rewrite !(Silent_calls_of IsConnected serve_monitor) by frame.
  rewrite !(Silent_calls_of RequestCurrentConfiguration poll_radar) by frame.
  rewrite !(Silent_calls_of RequestCurrentConfiguration serve_monitor) by frame.
  rewrite !(delays_silent poll_radar) by frame.
  rewrite !(delays_silent serve_monitor) by frame.
  rewrite !state_bind.
  cbv beta.
  set (s1 := state_of (poll_radar s)).
  set (s2 := state_of (serve_monitor s1)).
  set (s3 := state_of (call IsConnected radar_isConnected s2)).
  change (value_of (call IsConnected radar_isConnected s2))
    with (fst (radar_isConnected (world s2))).
  change (events (trace_of (call IsConnected radar_isConnected s2)))
    with [Call IsConnected; Ret IsConnected (fst (radar_isConnected (world s2)))].
  cbn [calls_of delays LibCall_eqb app Nat.add].
  destruct (fst (radar_isConnected (world s2))).
  - rewrite !trace_bind, !events_app, !calls_of_app, !delays_app.
    rewrite !(Silent_calls_of IsConnected report_detection) by frame.
    rewrite !(Silent_calls_of RequestCurrentConfiguration report_detection) by frame.
    rewrite !(delays_silent report_detection) by frame.
    rewrite !(Silent_calls_of IsConnected retry_configuration) by frame.
    cbv beta. cbn [app Nat.add].
    split; [reflexivity|]. right. split; [reflexivity|]. split; [reflexivity|].
    intros e He.
    apply in_or_app. right. apply in_or_app. right. right. right.
    apply in_or_app. right. exact He.
  - rewrite !(Silent_calls_of IsConnected report_disconnected) by frame.
    rewrite !(Silent_calls_of RequestCurrentConfiguration report_disconnected)
      by frame.
    rewrite !(delays_silent report_disconnected) by frame.
    split; [reflexivity|]. left. split; reflexivity.
Qed.

(** X3. One iteration of loop tests isConnected() exactly once, never
    calls radar.begin or requestStartEngineeringMode, requests the
    configuration at most once and only while configDisplayed is false, and
    never waits in delay() except for the 500 ms that follow a
    requestCurrentConfiguration that returned true. *)
Theorem loop_call_discipline (s : St W) :
  let es := events (trace_of (loop s)) in
  calls_of IsConnected es = 1%nat /\
  calls_of Begin es = 0%nat /\
  calls_of RequestStartEngineeringMode es = 0%nat /\
  (calls_of RequestCurrentConfiguration es <= 1)%nat /\
  (calls_of RequestCurrentConfiguration es = 1%nat ->
     configDisplayed (globals s) = false) /\
  (delays es = [] \/
   (delays es = [500] /\ In (Ret RequestCurrentConfiguration true) es)).
Proof.
  intros es.
  assert (Hb : calls_of Begin es = 0%nat).
  { subst es. apply Silent_calls_of. frame. }
  assert (He : calls_of RequestStartEngineeringMode es = 0%nat).
  { subst es. apply Silent_calls_of. frame. }
  destruct (loop_retry_part s) as [s4 [Hd [Hc Hr]]].
  fold es in Hc, Hr.
  pose proof (retry_configuration_cases s4) as Hcases. cbv zeta in Hcases.
  generalize dependent (events (trace_of (retry_configuration s4))).
  intros er Hr Hcases. clearbody es.
  split; [exact Hc|]. split; [exact Hb|]. split; [exact He|].
  destruct Hr as [[C D] | [C [D I]]].
  - rewrite C, D. split; [apply Nat.le_0_l|]. split; [discriminate|].
    left. reflexivity.
  - rewrite C, D.
    destruct Hcases as [[C' D'] | [C' [F [[D' I'] | [D' I']]]]]; rewrite C', D'.
    + split; [apply Nat.le_0_l|]. split; [discriminate|]. left. reflexivity.
    + split; [apply Nat.le_refl|]. split; [intros _; congruence|].
      left. reflexivity.
    + split; [apply Nat.le_refl|]. split; [intros _; congruence|].
      right. split; [reflexivity|]. apply I, I'.
Qed.

(** X4. One iteration of loop asks MONITOR_SERIAL.available() exactly once
    and reads a line only when the answer is not zero, and then exactly one
    line; when nothing is available the command part of loop prints nothing
    and leaves the globals as they are. *)
Theorem monitor_read_only_when_available (s : St W) :
  let s1 := state_of (poll_radar s) in
  let n := fst (Serial_available (world s1)) in
  let es := events (trace_of (loop s)) in
  count is_available es = 1%nat /\
  count is_line_read es = (if n =? 0 then 0%nat else 1%nat) /\
  (n = 0 ->
     output (events (trace_of (serve_monitor s1))) = [] /\
     globals (state_of (serve_monitor s1)) = globals s).
Proof.
  intros s1 n es.
  assert (Hsend : forall p, (forall t, p (Out t) = false) ->
                            Silent p (send_config (W := W))).
  { intros p Hp. unfold send_config, println_str, println_dec, print_str,
      print_dec, println.
    repeat lazymatch goal with
    | |- forall _, _ => intros
    | |- Silent _ (bind _ _) => apply Silent_bind
    | |- Silent _ (emit _) => apply Silent_emit; apply Hp
    | |- Silent _ (radar_get _) => apply Silent_radar_get
    | |- Silent _ (for_each _ _) => apply Silent_for_each
    end. }
  assert (Hserve : count is_available (events (trace_of (serve_monitor s1))) = 1%nat
                   /\ count is_line_read (events (trace_of (serve_monitor s1))) =
                      (if n =? 0 then 0%nat else 1%nat)).
  { unfold serve_monitor.
    rewrite !trace_bind, !events_app, !count_app. cbv beta.
    change (value_of (ask SerialAvailable Serial_available s1)) with n.
    destruct (n =? 0); cbn [negb when]; [split; reflexivity|].
    rewrite !trace_bind, !events_app, !count_app. cbv beta.
    unfold dispatch.
    match goal with |- context [when ?b send_config] => destruct b end;
      cbn [when].
    - rewrite (count_silent is_available send_config) by (apply Hsend; reflexivity).
      rewrite (count_silent is_line_read send_config) by (apply Hsend; reflexivity).
      split; reflexivity.
    - split; reflexivity. }
  destruct Hserve as [Ha Hr].
  split; [|split].
  - subst es. unfold loop.
    rewrite trace_bind, events_app, count_app, (count_silent _ poll_radar) by frame.
    rewrite trace_bind, events_app, count_app. fold s1. rewrite Ha.
    match goal with
    | |- context [count is_available (events (trace_of (?m ?x)))] =>
        rewrite (count_silent is_available m) by frame
    end. reflexivity.
  - subst es. unfold loop.
    rewrite trace_bind, events_app, count_app, (count_silent _ poll_radar) by frame.
    rewrite trace_bind, events_app, count_app. fold s1. rewrite Hr.
    match goal with
    | |- context [count is_line_read (events (trace_of (?m ?x)))] =>
        rewrite (count_silent is_line_read m) by frame
    end. now rewrite Nat.add_0_r.
  - intros Hn. unfold serve_monitor.
    rewrite trace_bind, events_app, output_app, state_bind. cbv beta.
    change (value_of (ask SerialAvailable Serial_available s1)) with n.
    rewrite Hn. cbn. split; [reflexivity|].
    assert (K : Keeps (fun g => g) (poll_radar (W := W))) by frame.
    apply K.
Qed.

End Counters.

(** ** Views *)

Section Viewing.
Context {W : Type} {B : Board W}.
Variable keep : Event -> bool.

Lemma filter_silent {A} (m : M W A) :
  Silent keep m -> forall s, filter keep (events (trace_of (m s))) = [].
Proof.
  intros H s. specialize (H s). unfold events.
  induction H as [|[t e] l He _ IH]; [reflexivity|].
  simpl in *. now rewrite He.
Qed.

Lemma View_any {A} (P : list Event -> Prop) (m : M W A) :
  (forall l, P l) -> View keep P m.
Proof. intros H s. apply H. Qed.

Lemma View_silent {A} (P : list Event -> Prop) (m : M W A) :
  Silent keep m -> P [] -> View keep P m.
Proof. intros H HP s. now rewrite filter_silent. Qed.

Lemma View_prefix {A C} (P : list Event -> Prop) (m : M W A) (f : A -> M W C) :
  Silent keep m -> (forall a, View keep P (f a)) -> View keep P (bind m f).
Proof.
  intros Hm Hf s. rewrite trace_bind, events_app, filter_app.
  rewrite filter_silent by exact Hm. apply Hf.
Qed.

Lemma View_then {A C} (P : list Event -> Prop) (l : list Event)
    (m : M W A) (f : A -> M W C) :
  (forall s, filter keep (events (trace_of (m s))) = l) ->
  (forall a, View keep (fun t => P (l ++ t)) (f a)) -> View keep P (bind m f).
Proof.
  intros Hm Hf s. rewrite trace_bind, events_app, filter_app, Hm. apply Hf.
Qed.

Lemma View_call {C} (P : list Event -> Prop) c g (f : bool -> M W C) :
  keep (Call c) = true -> (forall r, keep (Ret c r) = true) ->
  (forall r, View keep (fun t => P ([Call c; Ret c r] ++ t)) (f r)) ->
  View keep P (bind (call c g) f).
Proof.
  intros H1 H2 Hf s. rewrite trace_bind, events_app, filter_app.
  cbn [call trace_of snd events map filter]. rewrite H1, H2. apply Hf.
Qed.

Lemma View_assoc {A C D} (P : list Event -> Prop)
    (m : M W A) (g : A -> M W C) (f : C -> M W D) :
  View keep P (bind m (fun a => bind (g a) f)) ->
  View keep P (bind (bind m g) f).
Proof.
  intros H s. specialize (H s).
  rewrite !trace_bind, !events_app, !filter_app in *.
  rewrite <- app_assoc. exact H.
Qed.

Lemma View_suffix {A C} (P Q : list Event -> Prop) (m : M W A) (f : A -> M W C) :
  View keep Q m -> (forall a, Silent keep (f a)) ->
  (forall l, Q l -> P l) -> View keep P (bind m f).
Proof.
  intros Hm Hf HQ s. rewrite trace_bind, events_app, filter_app.
  rewrite (filter_silent (f _)) by apply Hf.
  rewrite app_nil_r. apply HQ, Hm.
Qed.

End Viewing.

(** Follow a computation for a view: a part whose selected events do not
    depend on the state adds them, a call adds its two events for either
    result, any other part must be silent. *)
Ltac view_step :=
  lazymatch goal with
  | |- View _ _ (bind (bind _ _) _) => apply View_assoc
  | |- View _ _ (bind (if true then _ else _) _) => cbv iota
  | |- View _ _ (bind (if false then _ else _) _) => cbv iota
  | |- View _ _ (if true then _ else _) => cbv iota
  | |- View _ _ (if false then _ else _) => cbv iota
  | |- View _ _ (bind (call _ _) _) =>
      apply View_call; [reflexivity | reflexivity | intros [|]; cbv beta]
  | |- View _ _ (bind _ _) =>
      first [ apply View_prefix; [now frame | intros]
            | eapply View_then; [intros; cbn; reflexivity | intros] ]
  end.

Section SetupViews.
Context {W : Type} {B : Board W}.

(** ** The timing of setup *)

Lemma enable_engineering_mode_trace (s : St W) :
  exists results : list bool,
    events (trace_of (enable_engineering_mode s)) = attempt_blocks 0 results /\
    (List.length results <= 3)%nat /\
    stops_at_first_success results = true /\
    (In true results \/ List.length results = 3%nat).
Proof.
  pose (s0 := mkSt (world s) (set_engineeringMode false (globals s))).
  assert (E : trace_of (enable_engineering_mode s) =
              trace_of (enable_engineering_mode s0)).
  { unfold enable_engineering_mode. cbn.
    repeat match goal with
    | |- context [if fst (?f ?w) then _ else _] => destruct (fst (f w)); cbn
    end; reflexivity. }
  rewrite E.
  destruct (enable_engineering_mode_events s0 eq_refl) as [rs [He [Hl [Hs [Hi _]]]]].
  exists rs. auto.
Qed.

Lemma timing_attempt_blocks i results :
  filter timing (attempt_blocks i results) = flat_map attempt_timing results.
Proof.
  revert i. induction results as [|ok r IH]; intros i; [reflexivity|].
  change (attempt_blocks i (ok :: r))
    with (attempt_block i ok ++ attempt_blocks (S i) r).
  rewrite filter_app, IH. destruct ok; reflexivity.
Qed.

Lemma delays_filter_timing (es : list Event) :
  delays (filter timing es) = delays es.
Proof.
  induction es as [|e es IH]; [reflexivity|].
  destruct e; cbn; rewrite ?IH; reflexivity.
Qed.

Lemma total_delay_app (a b : list Event) :
  total_delay (a ++ b) = total_delay a + total_delay b.
Proof.
  unfold total_delay. rewrite delays_app.
  induction (delays a) as [|x l IH]; cbn; [reflexivity | rewrite IH; lia].
Qed.

Lemma total_delay_attempts (attempts : list bool) :
  0 <= total_delay (flat_map attempt_timing attempts) <=
  1000 * Z.of_nat (List.length attempts).
Proof.
  induction attempts as [|ok r IH]; [cbn; lia|].
  change (flat_map attempt_timing (ok :: r))
    with (attempt_timing ok ++ flat_map attempt_timing r).
  rewrite total_delay_app.
  change (List.length (ok :: r)) with (S (List.length r)).
  rewrite Nat2Z.inj_succ.
  destruct ok; cbn [attempt_timing app total_delay delays fold_right]; lia.
Qed.

Lemma enable_engineering_mode_timing :
  View timing
    (fun l => exists attempts : list bool,
       l = flat_map attempt_timing attempts /\
       (List.length attempts <= 3)%nat /\
       stops_at_first_success attempts = true)
    (enable_engineering_mode (W := W)).
Proof.
  intros s. destruct (enable_engineering_mode_trace s) as [rs [E [Hl [Hs _]]]].
  rewrite E, timing_attempt_blocks. exists rs. auto.
Qed.

Lemma setup_timing_view :
  View timing
    (fun l => exists (began got : bool) (attempts : list bool),
       l = setup_timing ARDUINO_USB_CDC_ON_BOOT began got attempts /\
       (List.length attempts <= 3)%nat /\
       stops_at_first_success attempts = true)
    (setup (W := W)).
Proof.
  unfold setup.
  apply View_prefix; [now frame | intros _].
  apply (View_then _ _ (if ARDUINO_USB_CDC_ON_BOOT then [Delay 100] else []));
    [intros s; destruct ARDUINO_USB_CDC_ON_BOOT; reflexivity | intros _].
  repeat view_step.
  - (* radar.begin returned true, the configuration was read *)
    eapply View_suffix.
    + apply enable_engineering_mode_timing.
    + now frame.
    + intros l [rs [-> [Hl Hs]]]. exists true, true, rs. auto.
  - (* radar.begin returned true, the configuration was not read *)
    eapply View_suffix.
    + apply enable_engineering_mode_timing.
    + now frame.
    + intros l [rs [-> [Hl Hs]]]. exists true, false, rs. auto.
  - (* radar.begin returned false *)
    apply View_silent; [now frame|].
    exists false, false, []. auto using Nat.le_0_l.
Qed.

(** X5. The library calls and delays of setup are, in this order:
    delay(100) if ARDUINO_USB_CDC_ON_BOOT, delay(2000), delay(1000),
    radar.begin; and if that returned true, requestCurrentConfiguration,
    delay(500) if it returned true, delay(1000), and at most three attempts
    of requestStartEngineeringMode with delay(1000) after each failed one,
    ended by the first success.  So setup spends between 3000 and 7600 ms in
    delay(). *)
Theorem setup_timing_and_delays (s : St W) :
  let es := events (trace_of (setup s)) in
  exists (began got : bool) (attempts : list bool),
    filter timing es = setup_timing ARDUINO_USB_CDC_ON_BOOT began got attempts /\
    (List.length attempts <= 3)%nat /\
    stops_at_first_success attempts = true /\
    3000 <= total_delay es <= 7600.
Proof.
  intros es. destruct (setup_timing_view s) as [began [got [rs [E [Hl Hs]]]]].
  fold es in E. exists began, got, rs.
  split; [exact E|]. split; [exact Hl|]. split; [exact Hs|].
  unfold total_delay. rewrite <- delays_filter_timing, E.
  fold (total_delay (setup_timing ARDUINO_USB_CDC_ON_BOOT began got rs)).
  unfold setup_timing. rewrite !total_delay_app.
  pose proof (total_delay_attempts rs) as Ht.
  destruct ARDUINO_USB_CDC_ON_BOOT, began, got; rewrite ?total_delay_app;
    set (T := total_delay (flat_map attempt_timing rs)) in *; clearbody T;
    cbn [total_delay delays fold_right app]; lia.
Qed.

(** ** setup when radar.begin fails *)

Lemma touched_laws : LedgerLaws touched.
Proof.
  constructor.
  - intros x es _. right. reflexivity.
  - intros x y z a b [Ha | ->] [Hb | ->]; cbn.
    + left. apply in_or_app. now left.
    + left. apply in_or_app. now left.
    + left. apply in_or_app. now right.
    + right. reflexivity.
Qed.

Lemma touched_after_begin {C} g (f : bool -> M W C) :
  Acc touched (f false) -> Acc touched (bind (call Begin g) f).
Proof.
  intros H s _. split; [exact I|].
  rewrite trace_bind, events_app, state_bind.
  change (value_of (call Begin g s)) with (fst (g (world s))).
  cbn [call trace_of snd events map].
  destruct (fst (g (world s))).
  - left. cbn. auto.
  - destruct (H (state_of (call Begin g s)) I) as [_ [R | R]].
    + left. apply in_or_app. now right.
    + right. exact R.
Qed.

Lemma setup_touched : Acc touched (setup (W := W)).
Proof.
  unfold setup.
  repeat lazymatch goal with
  | |- Acc _ (bind (call Begin _) _) =>
      apply touched_after_begin; apply (Acc_quiet _ touched_laws);
      [now frame | now frame]
  | |- Acc _ (bind _ _) =>
      apply (Acc_bind _ touched_laws);
      [apply (Acc_quiet _ touched_laws); [now frame | now frame] | intros]
  end.
Qed.

Lemma View_leaf {A} keep (P : list Event -> Prop) (l : list Event) (m : M W A) :
  (forall s, filter keep (events (trace_of (m s))) = l) -> P l -> View keep P m.
Proof. intros H HP s. now rewrite H. Qed.

Lemma setup_failure_view :
  View said_or_called
    (fun l => ~ In (Ret Begin true) l ->
              render (output l) = wire setup_failure_lines)
    (setup (W := W)).
Proof.
  unfold setup.
  repeat lazymatch goal with
  | |- View _ _ (bind (call Begin _) _) =>
      apply View_call; [reflexivity | reflexivity | intros [|]; cbv beta iota]
  | |- View _ _ (bind (println_str "SUCCESS") _) =>
      apply View_any; intros l H; exfalso; apply H; cbn [app In];
      repeat first [left; reflexivity | right]
  | |- View _ _ (bind _ _) => view_step
  end.
  eapply View_leaf; [intros s; cbn; reflexivity|].
  intros _. vm_compute. reflexivity.
Qed.

Lemma in_filter_lib (e : Event) (es : list Event) :
  timing e = true -> In e es -> In e (filter timing es).
Proof. intros H Hin. apply filter_In. auto. Qed.

Lemma no_begin_in_attempts r attempts :
  ~ In (Ret Begin r) (flat_map attempt_timing attempts).
Proof.
  induction attempts as [|ok l IH]; [intros []|].
  change (flat_map attempt_timing (ok :: l))
    with (attempt_timing ok ++ flat_map attempt_timing l).
  intros H. apply in_app_or in H. destruct H as [H|H]; [|now apply IH].
  destruct ok; cbn in H; intuition discriminate.
Qed.

Lemma begin_returns_once (s : St W) :
  In (Ret Begin false) (events (trace_of (setup s))) ->
  ~ In (Ret Begin true) (events (trace_of (setup s))).
Proof.
  intros Hf Ht.
  apply (in_filter_lib (Ret Begin false) _ eq_refl) in Hf.
  apply (in_filter_lib (Ret Begin true) _ eq_refl) in Ht.
  destruct (setup_timing_view s) as [began [got [rs [E _]]]].
  rewrite E in Hf, Ht. unfold setup_timing in *.
  destruct ARDUINO_USB_CDC_ON_BOOT, began, got; cbn in Hf, Ht;
    repeat match goal with
    | H : _ \/ _ |- _ => destruct H
    | H : Delay _ = _ |- _ => discriminate H
    | H : Call _ = _ |- _ => discriminate H
    | H : Ret _ _ = _ |- _ => discriminate H
    | H : False |- _ => destruct H
    | H : In (Ret Begin _) (flat_map attempt_timing _) |- _ =>
        exact (no_begin_in_attempts _ _ H)
    end.
Qed.

(** X6. If radar.begin returns false, setup changes none of the globals
    and prints exactly the banner, the two pin lines, the two UART lines and
    "Initializing LD2410 radar: FAILED - Check connections". *)
Theorem setup_when_begin_fails (s : St W) :
  In (Ret Begin false) (events (trace_of (setup s))) ->
  globals (state_of (setup s)) = globals s /\
  render (output (events (trace_of (setup s)))) = wire setup_failure_lines.
Proof.
  intros Hf. pose proof (begin_returns_once s Hf) as Hn. split.
  - destruct (setup_touched s I) as [_ [R | R]]; [contradiction | exact R].
  - pose proof (setup_failure_view s) as V. cbv beta in V.
    assert (Ho : forall es, output (filter said_or_called es) = output es).
    { induction es as [|e es IH]; [reflexivity|].
      destruct e; cbn; rewrite ?IH; reflexivity. }
    rewrite Ho in V. apply V.
    intros H. apply Hn. apply filter_In in H. apply H.
Qed.

End SetupViews.

(** ** Showing the configuration *)

Lemma count_zero_of_neutral p (q : Event -> bool) (es : list Event) :
  (forall e, q e = true -> p e = false) ->
  forallb q es = true -> count p es = 0%nat.
Proof.
  intros Hpq H. induction es as [|e es IH]; [reflexivity|].
  cbn in H. apply andb_prop in H. destruct H as [He Hes].
  unfold count in *. cbn. rewrite (Hpq e He). now apply IH.
Qed.

Lemma calls_zero_of_neutral c (q : Event -> bool) (es : list Event) :
  (forall e, q e = true -> is_call_of c e = false) ->
  forallb q es = true -> calls_of c es = 0%nat.
Proof.
  intros Hpq H. induction es as [|e es IH]; [reflexivity|].
  cbn in H. apply andb_prop in H. destruct H as [He Hes].
  specialize (Hpq e He). destruct e; cbn in *; try (now apply IH).
  rewrite Hpq. now apply IH.
Qed.

Lemma shown_laws : LedgerLaws shown.
Proof.
  constructor.
  - intros x es H. cbn [rel shown neutral] in *.
    assert (N : forall e,
      negb (is_config_header e || is_config_success e ||
            is_call_of RequestCurrentConfiguration e) = true ->
      is_config_header e = false /\ is_config_success e = false).
    { intros e He. apply negb_true_iff in He.
      apply orb_false_iff in He. destruct He as [He _].
      apply orb_false_iff in He. exact He. }
    rewrite (count_zero_of_neutral is_config_header _ es (fun e He => proj1 (N e He)) H).
    rewrite (count_zero_of_neutral is_config_success _ es (fun e He => proj2 (N e He)) H).
    cbn. rewrite orb_false_r. auto using Nat.le_0_l.
  - intros x y z a b. cbn [rel shown]. rewrite !count_app, !calls_of_app.
    intros [H1 [-> L1]] [H2 [-> L2]]. split; [lia|]. split; [|lia].
    rewrite <- orb_assoc. f_equal.
    destruct (count is_config_success a), (count is_config_success b); reflexivity.
Qed.

Lemma once_laws : LedgerLaws once.
Proof.
  constructor.
  - intros x es H. cbn [rel once neutral] in *.
    rewrite (count_zero_of_neutral is_config_success _ es
               (fun e He => proj1 (negb_true_iff _) He) H).
    cbn. rewrite orb_false_r. destruct x; auto using Nat.le_0_l.
  - intros x y z a b. cbn [rel once]. rewrite !count_app.
    intros [-> L1] [-> L2]. split.
    + rewrite <- orb_assoc. f_equal.
      destruct (count is_config_success a), (count is_config_success b); reflexivity.
    + destruct x; cbn in *.
      * rewrite L1 in *. cbn in *. lia.
      * destruct (count is_config_success a) as [|[|k]]; cbn in *; lia.
Qed.

Section Shown.
Context {W : Type} {B : Board W}.

Lemma retry_configuration_outcome (s : St W) :
  let es := events (trace_of (retry_configuration s)) in
  let shown' := configDisplayed (globals (state_of (retry_configuration s))) in
  (configDisplayed (globals s) = true /\ es = [] /\ shown' = true) \/
  (configDisplayed (globals s) = false /\
   count is_config_header es = count is_config_success es /\
   (count is_config_success es <= calls_of RequestCurrentConfiguration es)%nat /\
   (count is_config_success es <= 1)%nat /\
   shown' = (0 <? count is_config_success es)%nat).
Proof.
  unfold retry_configuration. cbn.
  destruct (configDisplayed (globals s)) eqn:Hd; cbn; [left; rewrite Hd; auto|].
  right. split; [reflexivity|].
  destruct (wrap32 (fst (millis (world s)) - lastConfigRead (globals s)) >? 30000);
    cbn; [|rewrite Hd; auto].
  destruct (fst (radar_requestCurrentConfiguration
                   (snd (millis (snd (millis (world s))))))); cbn;
    rewrite ?Hd; auto.
Qed.

Lemma retry_configuration_shown : Acc shown (retry_configuration (W := W)).
Proof.
  intros s _. split; [exact I|]. cbn [rel shown part].
  destruct (retry_configuration_outcome s) as [[Hd [E F]] | [Hd [H1 [H2 [H3 F]]]]];
    cbv zeta in *.
  - rewrite E, F, Hd. cbn. auto.
  - rewrite F, Hd. auto.
Qed.

Lemma retry_configuration_once : Acc once (retry_configuration (W := W)).
Proof.
  intros s _. split; [exact I|]. cbn [rel once part].
  destruct (retry_configuration_outcome s) as [[Hd [E F]] | [Hd [H1 [H2 [H3 F]]]]];
    cbv zeta in *.
  - rewrite E, F, Hd. cbn. auto.
  - rewrite F, Hd. auto.
Qed.

Lemma loop_shown : Acc shown (loop (W := W)).
Proof. acc shown_laws ltac:(apply retry_configuration_shown). Qed.

Lemma loop_once : Acc once (loop (W := W)).
Proof. acc once_laws ltac:(apply retry_configuration_once). Qed.

(** The request of setup with what follows it at once (lines 165-172). *)
Lemma setup_request_shown g :
  Acc shown
    (bind (call RequestCurrentConfiguration g) (fun got =>
       if got then
         println_str "Configuration read successfully" ;;
         sk_delay 500 ;;
         printConfiguration ;;
         modify_globals (set_configDisplayed true)
       else
         println_str "Failed to read configuration")).
Proof.
  intros s _. split; [exact I|]. cbn [rel shown part].
  unfold bind, call. cbn [fst snd].
  destruct (fst (g (world s))); cbn.
  - rewrite orb_true_r. auto.
  - rewrite orb_false_r. auto.
Qed.

Lemma setup_shown : Acc shown (setup (W := W)).
Proof.
  unfold setup.
  repeat lazymatch goal with
  | |- Acc _ (bind (call RequestCurrentConfiguration ?g) _) =>
      refine (Acc_assoc shown (call RequestCurrentConfiguration g)
                (fun got : bool => if got then _ else _) _ _);
      apply (Acc_bind _ shown_laws);
      [ apply setup_request_shown
      | intros; apply (Acc_quiet _ shown_laws); [now frame | now frame] ]
  | |- Acc _ (bind _ _) =>
      apply (Acc_bind _ shown_laws);
      [apply (Acc_quiet _ shown_laws); [now frame | now frame] | intros]
  | |- Acc _ (if _ then _ else _) => apply Acc_if
  | |- Acc _ (println_str _) =>
      apply (Acc_quiet _ shown_laws); [now frame | now frame]
  end.
Qed.

Lemma calls_of_lib_events c (es : list Event) :
  calls_of c (lib_events es) = calls_of c es.
Proof.
  induction es as [|e es IH]; [reflexivity|].
  destruct e; cbn; rewrite ?IH; reflexivity.
Qed.

Lemma setup_requests_once (s : St W) :
  (calls_of RequestCurrentConfiguration (events (trace_of (setup s))) <= 1)%nat.
Proof.
  assert (H : forall rs, calls_of RequestCurrentConfiguration
                           (flat_map engineering_pair rs) = 0%nat).
  { induction rs as [|r l IH]; [reflexivity | exact IH]. }
  destruct (setup_shape s) as [began [got [rs [E _]]]].
  rewrite <- calls_of_lib_events, E. unfold setup_commands.
  destruct began; cbn; [|lia].
  rewrite H. lia.
Qed.

(** X7. Over the whole life of the sketch, printConfiguration runs exactly
    once for each requestCurrentConfiguration that returns true;
    configDisplayed is true at the end exactly when it was true at the start
    or a request returned true; and started with configDisplayed false (as
    at boot), at most one request ever returns true: after a success the
    sketch does not ask again. *)
Theorem configuration_shown_once_per_success (n : nat) (s : St W) :
  let es := events (trace_of (sketch n s)) in
  count is_config_header es = count is_config_success es /\
  configDisplayed (globals (state_of (sketch n s))) =
    configDisplayed (globals s) || (0 <? count is_config_success es)%nat /\
  (configDisplayed (globals s) = false ->
   (count is_config_success es <= 1)%nat).
Proof.
  intros es.
  assert (H : Acc shown (sketch (W := W) n)).
  { unfold sketch. apply (Acc_bind _ shown_laws).
    - apply setup_shown.
    - intros _. apply (Acc_run _ shown_laws), loop_shown. }
  destruct (H s I) as [_ [H1 [H2 _]]]. cbn [part shown] in *.
  fold es in H1, H2. split; [exact H1|]. split; [exact H2|].
  intros Hd. subst es. unfold sketch.
  rewrite trace_bind, events_app, count_app. cbv beta.
  destruct (setup_shown s I) as [_ [_ [F L]]]. cbn [part shown] in *.
  pose proof (setup_requests_once s) as C.
  destruct (Acc_run _ once_laws n loop_once (state_of (setup s)) I) as [_ [_ O]].
  cbn [part once] in *.
  set (k := count is_config_success (events (trace_of (setup s)))) in *.
  set (r := count is_config_success
              (events (trace_of (run n (state_of (setup s)))))) in *.
  set (y := configDisplayed (globals (state_of (setup s)))) in *.
  clearbody k r y. rewrite Hd in F. subst y.
  destruct k as [|[|k]]; cbn [orb Nat.ltb Nat.leb] in O; lia.
Qed.

End Shown.

(** ** Reports and re-requests when they are due *)

(** The gate [millis() - stamp > limit] decides exactly "more than [limit]
    ms since the stamp" as long as less than 2^32 ms have passed, whether
    or not millis() has rolled over in between. *)
Lemma gate_exact (a b limit : Z) :
  0 <= a - b < 2 ^ 32 ->
  (wrap32 (wrap32 a - wrap32 b) >? limit) = (limit <? a - b).
Proof.
  intros H. unfold wrap32. rewrite <- Zminus_mod, Z.mod_small by exact H.
  apply Z.gtb_ltb.
Qed.

Section Due.
Context {W : Type} {B : Board W} {L : BoardLaws W}.
Context {K : Type}.
Variable mark : Event -> option K.
Variable thr : K -> Z.
Variable stamp : Globals -> Z.

Lemma gate_outcome (set_stamp : Z -> Globals -> Globals) (k : K)
    (body : M W unit) (s : St W) (t0 : Z) :
  (forall v g, stamp (set_stamp v g) = v) ->
  (forall v, mark (Millis v) = None) ->
  (forall s', marks mark (trace_of (body s')) = [(now (world s'), k)]) ->
  Keeps stamp body ->
  let r := (m <- sk_millis ;;
            g <- get_globals ;;
            when (wrap32 (m - stamp g) >? thr k) (
              m' <- sk_millis ;;
              modify_globals (set_stamp m') ;;
              body)) s in
  let tg := now (snd (millis (world s))) in
  stamp (globals s) = wrap32 t0 ->
  0 <= tg - t0 < 2 ^ 32 ->
  (thr k < tg - t0 ->
     exists t, marks mark (trace_of r) = [(t, k)] /\ tg <= t /\
               stamp (globals (state_of r)) = wrap32 t) /\
  (tg - t0 <= thr k ->
     marks mark (trace_of r) = [] /\
     stamp (globals (state_of r)) = stamp (globals s)).
Proof.
  intros Hset Hmillis Hbody Hk r tg H0 Hrange. subst r.
  rewrite !trace_bind, !state_bind.
  cbn [sk_millis ask get_globals trace_of state_of value_of fst snd globals world
       app marks].
  rewrite Hmillis, (millis_now (world s)), H0. fold tg.
  rewrite (gate_exact tg t0 (thr k) Hrange).
  destruct (Z.ltb_spec (thr k) (tg - t0)) as [Hlt | Hge]; cbn [when].
  - split; [intros _ | lia].
    rewrite !trace_bind, !state_bind.
    cbn [sk_millis ask modify_globals trace_of state_of value_of fst snd globals
         world app marks].
    rewrite Hmillis.
    set (w1 := snd (millis (world s))) in *.
    pose proof (millis_now w1) as Hm2.
    pose proof (millis_mono w1) as Hle2.
    set (w2 := snd (millis w1)) in *.
    set (s2 := mkSt w2 (set_stamp (fst (millis w1)) (globals s))).
    exists (now w2). rewrite (Hbody s2), (Hk s2).
    change (globals s2) with (set_stamp (fst (millis w1)) (globals s)).
    rewrite Hset, Hm2. auto.
  - split; [lia | intros _].
    cbn [ret trace_of state_of value_of fst snd globals world marks].
    auto.
Qed.

End Due.

Section DueInLoop.
Context {W : Type} {B : Board W} {L : BoardLaws W}.

(** X8. In an iteration of loop the report is printed exactly when it is
    due, also across the rollover of millis(): if lastReading was stamped at
    time t0 and the clock read that gates the report happens at tg, less
    than 2^32 ms later, then the report of this iteration (printDetectionInfo
    if isConnected() returned true, the disconnected message otherwise) is
    printed, once, and lastReading stamped anew, when tg - t0 exceeds the
    threshold (500 or 5000 ms); otherwise nothing is reported and
    lastReading is left as it is. *)
Theorem report_printed_exactly_when_due (s : St W) (t0 : Z) :
  let s2 := state_of (serve_monitor (state_of (poll_radar s))) in
  let c := radar_isConnected (world s2) in
  let kind := if fst c then Detection else Disconnected in
  let tg := now (snd (millis (snd c))) in
  lastReading (globals s) = wrap32 t0 ->
  0 <= tg - t0 < 2 ^ 32 ->
  (threshold kind < tg - t0 ->
     exists t, marks report_of (trace_of (loop s)) = [(t, kind)] /\ tg <= t /\
               lastReading (globals (state_of (loop s))) = wrap32 t) /\
  (tg - t0 <= threshold kind ->
     marks report_of (trace_of (loop s)) = [] /\
     lastReading (globals (state_of (loop s))) = lastReading (globals s)).
Proof.
  intros s2 c kind tg H0 Hrange.
  assert (Kpre : Keeps lastReading
                   (poll_radar ;; serve_monitor ;;
                    call IsConnected (radar_isConnected (W := W)))) by frame.
  pose (s3 := mkSt (snd c) (globals s2)).
  assert (H3 : lastReading (globals s3) = wrap32 t0).
  { rewrite <- H0. exact (Kpre s). }
  assert (Hloop : marks report_of (trace_of (loop s)) =
                  marks report_of
                    (trace_of ((if fst c then report_detection ;; retry_configuration
                                else report_disconnected) s3)) /\
                  state_of (loop s) =
                  state_of ((if fst c then report_detection ;; retry_configuration
                             else report_disconnected) s3)).
  { unfold loop. rewrite !trace_bind, !marks_app, !state_bind.
    rewrite (marks_silent report_of poll_radar) by frame.
    rewrite (marks_silent report_of serve_monitor) by frame.
    split; reflexivity. }
  destruct Hloop as [-> ->]. subst kind.
  destruct (fst c).
  - rewrite trace_bind, marks_app, state_bind.
    rewrite (marks_silent report_of retry_configuration) by frame.
    rewrite app_nil_r.
    assert (Kr : Keeps lastReading (retry_configuration (W := W))) by frame.
    assert (Kb : Keeps lastReading (printDetectionInfo (W := W))) by frame.
    destruct (gate_outcome report_of threshold lastReading set_lastReading
                Detection printDetectionInfo s3 t0 (fun _ _ => eq_refl)
                (fun _ => eq_refl) printDetectionInfo_marks Kb H3 Hrange)
      as [G1 G2].
    split.
    + intros Hlt. destruct (G1 Hlt) as [t [Hm [Ht Hs]]].
      exists t. rewrite Kr. auto.
    + intros Hge. destruct (G2 Hge) as [Hm Hs].
      rewrite Kr, H0, <- H3. auto.
  - rewrite H0, <- H3.
    assert (Kb : Keeps lastReading
                   (println_str (W := W) "Radar disconnected - Check connections"))
      by frame.
    exact (gate_outcome report_of threshold lastReading set_lastReading Disconnected
             (println_str "Radar disconnected - Check connections") s3 t0
             (fun _ _ => eq_refl) (fun _ => eq_refl)
             disconnected_marks Kb H3 Hrange).
Qed.

Lemma retry_outcome (body : M W unit) (s : St W) (t0 : Z) :
  (forall s', marks retry_of (trace_of (body s')) = [(now (world s'), tt)]) ->
  Keeps lastConfigRead body ->
  let r := (g <- get_globals ;;
            due <- (if negb (configDisplayed g) then
                      m <- sk_millis ;; ret (wrap32 (m - lastConfigRead g) >? 30000)
                    else ret false) ;;
            when due (
              m' <- sk_millis ;;
              modify_globals (set_lastConfigRead m') ;;
              body)) s in
  let tg := now (snd (millis (world s))) in
  configDisplayed (globals s) = false ->
  lastConfigRead (globals s) = wrap32 t0 ->
  0 <= tg - t0 < 2 ^ 32 ->
  (30000 < tg - t0 ->
     exists t, marks retry_of (trace_of r) = [(t, tt)] /\ tg <= t /\
               lastConfigRead (globals (state_of r)) = wrap32 t) /\
  (tg - t0 <= 30000 ->
     marks retry_of (trace_of r) = [] /\
     lastConfigRead (globals (state_of r)) = lastConfigRead (globals s)).
Proof.
  intros Hbody Hk r tg Hd H0 Hrange. subst r.
  rewrite !trace_bind, !state_bind.
  cbn [get_globals trace_of state_of value_of fst snd globals world app marks].
  rewrite Hd. cbn [negb].
  rewrite !trace_bind, !state_bind, !value_bind.
  cbn [sk_millis ask ret trace_of state_of value_of fst snd globals world app
       marks retry_of].
  rewrite (millis_now (world s)), H0. fold tg.
  rewrite (gate_exact tg t0 30000 Hrange).
  destruct (Z.ltb_spec 30000 (tg - t0)) as [Hlt | Hge]; cbn [when].
  - split; [intros _ | lia].
    rewrite !trace_bind, !state_bind.
    cbn [sk_millis ask modify_globals trace_of state_of value_of fst snd globals
         world app marks retry_of].
    set (w1 := snd (millis (world s))) in *.
    pose proof (millis_now w1) as Hm2.
    pose proof (millis_mono w1) as Hle2.
    set (w2 := snd (millis w1)) in *.
    set (s5 := mkSt w2 (set_lastConfigRead (fst (millis w1)) (globals s))).
    exists (now w2). rewrite (Hbody s5), (Hk s5).
    cbn [globals s5 set_lastConfigRead lastConfigRead]. auto.
  - split; [lia | intros _].
    cbn [ret trace_of state_of value_of fst snd globals world marks].
    auto.
Qed.

(** X9. The configuration is re-requested exactly when it is due: in an
    iteration in which isConnected() returned true and that started with
    configDisplayed false, if lastConfigRead was stamped at t0 and the clock
    read of line 255 happens at tg, less than 2^32 ms later, then
    requestCurrentConfiguration is called, once, and lastConfigRead stamped
    anew, when tg - t0 exceeds 30000 ms; otherwise it is not called and
    lastConfigRead is left as it is. *)
Theorem configuration_requested_exactly_when_due (s : St W) (t0 : Z) :
  let s2 := state_of (serve_monitor (state_of (poll_radar s))) in
  let c := radar_isConnected (world s2) in
  let s4 := state_of (report_detection (mkSt (snd c) (globals s2))) in
  let tg := now (snd (millis (world s4))) in
  fst c = true ->
  configDisplayed (globals s) = false ->
  lastConfigRead (globals s) = wrap32 t0 ->
  0 <= tg - t0 < 2 ^ 32 ->
  (30000 < tg - t0 ->
     exists t, marks retry_of (trace_of (loop s)) = [(t, tt)] /\ tg <= t /\
               lastConfigRead (globals (state_of (loop s))) = wrap32 t) /\
  (tg - t0 <= 30000 ->
     marks retry_of (trace_of (loop s)) = [] /\
     lastConfigRead (globals (state_of (loop s))) = lastConfigRead (globals s)).
Proof.
  intros s2 c s4 tg Hc Hd H0 Hrange.
  assert (Kpre : Keeps (fun g => (lastConfigRead g, configDisplayed g))
                   (poll_radar ;; serve_monitor ;;
                    _ <- call IsConnected (radar_isConnected (W := W)) ;;
                    report_detection)) by frame.
  assert (H4 : lastConfigRead (globals s4) = wrap32 t0 /\
               configDisplayed (globals s4) = false).
  { pose proof (Kpre s) as E. cbv beta in E.
    change (state_of ((poll_radar ;; serve_monitor ;;
                       _ <- call IsConnected radar_isConnected ;;
                       report_detection) s)) with s4 in E.
    injection E as E1 E2. split; congruence. }
  destruct H4 as [H4 Hd4].
  assert (Hloop : marks retry_of (trace_of (loop s)) =
                  marks retry_of (trace_of (retry_configuration s4)) /\
                  state_of (loop s) = state_of (retry_configuration s4)).
  { unfold loop. rewrite !trace_bind, !marks_app, !state_bind.
    rewrite (marks_silent retry_of poll_radar) by frame.
    rewrite (marks_silent retry_of serve_monitor) by frame.
    cbv beta. cbn [call value_of fst]. fold s2. fold c. rewrite Hc.
    rewrite !trace_bind, !marks_app, !state_bind.
    rewrite (marks_silent retry_of report_detection) by frame.
    split; reflexivity. }
  destruct Hloop as [-> ->]. rewrite H0, <- H4.
  assert (Kb : Keeps lastConfigRead
                 (println_str (nl ++ "Retrying configuration read...")%string ;;
                  got <- call RequestCurrentConfiguration
                           (radar_requestCurrentConfiguration (W := W)) ;;
                  when got (sk_delay 500 ;; printConfiguration ;;
                            modify_globals (set_configDisplayed true)))) by frame.
  exact (retry_outcome _ s4 t0 retry_body_marks Kb Hd4 H4 Hrange).
Qed.

End DueInLoop.

(** ** An iteration with nothing to do *)

Section Idle.
Context {W : Type} {B : Board W}.

Lemma unmarked_gate {K} (mark : Event -> option K) (stamp : Globals -> Z)
    (set_stamp : Z -> Globals -> Globals) (limit : Z) (body : M W unit) (s : St W) :
  (forall v, mark (Millis v) = None) ->
  (forall s', marks mark (trace_of (body s')) <> []) ->
  let r := (m <- sk_millis ;;
            g <- get_globals ;;
            when (wrap32 (m - stamp g) >? limit) (
              m' <- sk_millis ;;
              modify_globals (set_stamp m') ;;
              body)) s in
  marks mark (trace_of r) = [] ->
  output (events (trace_of r)) = [] /\ globals (state_of r) = globals s.
Proof.
  intros Hmillis Hbody r. subst r.
  rewrite !trace_bind, !state_bind.
  cbn [sk_millis ask get_globals trace_of state_of value_of fst snd globals world
       app marks events map output].
  rewrite Hmillis.
  destruct (wrap32 (fst (millis (world s)) - stamp (globals s)) >? limit);
    cbn [when].
  - rewrite !trace_bind.
    cbn [sk_millis ask modify_globals trace_of state_of value_of fst snd globals
         world app marks].
    rewrite Hmillis. intros H. exfalso. exact (Hbody _ H).
  - intros _. split; reflexivity.
Qed.

Lemma unmarked_retry (body : M W unit) (s : St W) :
  (forall s', marks retry_of (trace_of (body s')) <> []) ->
  let r := (g <- get_globals ;;
            due <- (if negb (configDisplayed g) then
                      m <- sk_millis ;; ret (wrap32 (m - lastConfigRead g) >? 30000)
                    else ret false) ;;
            when due (
              m' <- sk_millis ;;
              modify_globals (set_lastConfigRead m') ;;
              body)) s in
  marks retry_of (trace_of r) = [] ->
  output (events (trace_of r)) = [] /\ globals (state_of r) = globals s.
Proof.
  intros Hbody r. subst r.
  rewrite !trace_bind, !state_bind.
  cbn [get_globals trace_of state_of value_of fst snd globals world app marks
       events map output].
  destruct (configDisplayed (globals s)); cbn [negb].
  { intros _. split; reflexivity. }
  rewrite !trace_bind, !state_bind, !value_bind.
  cbn [sk_millis ask ret trace_of state_of value_of fst snd globals world app
       marks retry_of events map output].
  destruct (wrap32 (fst (millis (world s)) - lastConfigRead (globals s)) >? 30000);
    cbn [when].
  - rewrite !trace_bind.
    cbn [sk_millis ask modify_globals trace_of state_of value_of fst snd globals
         world app marks retry_of].
    intros H. exfalso. exact (Hbody _ H).
  - intros _. split; reflexivity.
Qed.

Lemma retry_body_marked (s : St W) :
  marks retry_of
    (trace_of
       ((println_str (nl ++ "Retrying configuration read...")%string ;;
         got <- call RequestCurrentConfiguration radar_requestCurrentConfiguration ;;
         when got (
           sk_delay 500 ;;
           printConfiguration ;;
           modify_globals (set_configDisplayed true))) s)) <> [].
Proof.
  rewrite trace_bind, marks_app, trace_bind, marks_app. cbn. discriminate.
Qed.

Lemma printDetectionInfo_marked (s : St W) :
  marks report_of (trace_of (printDetectionInfo s)) <> [].
Proof.
  unfold printDetectionInfo, detection_line.
  rewrite trace_bind, marks_app, trace_bind, marks_app. cbn. discriminate.
Qed.

(** X10. An iteration of loop in which no line is waiting on the monitor
    port, no report is printed and the configuration is not re-requested
    prints nothing at all and leaves every global as it is. *)
Theorem idle_iteration_is_silent (s : St W) :
  fst (Serial_available (world (state_of (poll_radar s)))) = 0 ->
  marks report_of (trace_of (loop s)) = [] ->
  marks retry_of (trace_of (loop s)) = [] ->
  output (events (trace_of (loop s))) = [] /\
  globals (state_of (loop s)) = globals s.
Proof.
  intros Hn.
  assert (Kp : Keeps (fun g => g) (poll_radar (W := W))) by frame.
  set (s1 := state_of (poll_radar s)) in *.
  assert (Hserve : output (events (trace_of (serve_monitor s1))) = [] /\
                   globals (state_of (serve_monitor s1)) = globals s /\
                   marks report_of (trace_of (serve_monitor s1)) = [] /\
                   marks retry_of (trace_of (serve_monitor s1)) = []).
  { unfold serve_monitor.
    rewrite !trace_bind, !events_app, !output_app, !marks_app, !state_bind.
    cbv beta. cbn [ask value_of fst]. rewrite Hn. cbn.
    repeat split; try apply Kp. }
  destruct Hserve as [Ho [Hg [Hr1 Hr2]]].
  set (s2 := state_of (serve_monitor s1)) in *.
  unfold loop.
  rewrite !trace_bind, !events_app, !output_app, !marks_app, !state_bind.
  rewrite (Silent_output poll_radar) by frame.
  assert (Hp1 : marks report_of (trace_of (poll_radar s)) = []).
  { apply marks_silent. frame. }
  assert (Hp2 : marks retry_of (trace_of (poll_radar s)) = []).
  { apply marks_silent. frame. }
  cbv beta. fold s1. rewrite Hp1, Hp2, Ho. fold s2. rewrite Hr1, Hr2.
  cbn [call trace_of state_of value_of fst snd events map output marks
       report_of retry_of app].
  set (s3 := mkSt (snd (radar_isConnected (world s2))) (globals s2)).
  destruct (fst (radar_isConnected (world s2))).
  - rewrite !trace_bind, !events_app, !output_app, !marks_app, !state_bind.
    cbv beta.
    intros Hrep Hret.
    apply app_eq_nil in Hrep. destruct Hrep as [Hrep _].
    apply app_eq_nil in Hret. destruct Hret as [_ Hret].
    destruct (unmarked_gate report_of lastReading set_lastReading 500
                printDetectionInfo s3 (fun _ => eq_refl)
                printDetectionInfo_marked Hrep) as [O1 G1].
    destruct (unmarked_retry _ (state_of (report_detection s3))
                retry_body_marked Hret) as [O2 G2].
    split.
    + change (output (events (trace_of (report_detection s3))) ++
              output (events (trace_of (retry_configuration
                                          (state_of (report_detection s3))))) = []).
      unfold report_detection at 1. rewrite O1.
      unfold retry_configuration. rewrite O2. reflexivity.
    + change (globals (state_of (retry_configuration
                                   (state_of (report_detection s3)))) = globals s).
      unfold retry_configuration at 1. rewrite G2.
      unfold report_detection. rewrite G1. exact Hg.
  - intros Hrep _.
    destruct (unmarked_gate report_of lastReading set_lastReading 5000
                (println_str "Radar disconnected - Check connections") s3
                (fun _ => eq_refl)
                (fun s' => ltac:(discriminate)) Hrep) as [O1 G1].
    split.
    + exact O1.
    + rewrite <- Hg. exact G1.
Qed.

End Idle.

(** ** The text of printConfiguration *)

Section Layout.
Context {W : Type} {B : Board W}.

(** X11. printConfiguration writes exactly the separator, the header, the
    separator, the three gate limits, the idle time, the nine motion
    sensitivities and the nine stationary sensitivities, each gate on a line
    "  Gate i: v" in ascending order, and a closing separator; it makes no
    library call and leaves the board and the globals as they are. *)
Theorem printConfiguration_layout (s : St W) :
  render (output (events (trace_of (printConfiguration s)))) =
    wire (configuration_lines (world s)) /\
  filter (fun e => negb (is_out e)) (events (trace_of (printConfiguration s))) = [] /\
  state_of (printConfiguration s) = s.
Proof.
  split; [|split].
  - unfold printConfiguration, render, wire, configuration_lines, separator.
    string_normal. reflexivity.
  - apply filter_silent. frame.
  - assert (K : Keeps (fun g => g) (printConfiguration (W := W))) by frame.
    assert (P : Pure (printConfiguration (W := W))) by frame.
    specialize (K s). specialize (P s).
    destruct (state_of (printConfiguration s)), s. simpl in *. congruence.
Qed.

End Layout.

(** * The further theorems at work on the simulated board *)

(** With engineering mode refused: 60 reports in 600 iterations, one
    reminder (at the 50th), and the counter at 10. *)
Example sim_debug_notice :
  (count is_detection (events (trace_of (run 600 Sim_basic))),
   count is_debug_notice (events (trace_of (run 600 Sim_basic))),
   debugCounter (globals (state_of (run 600 Sim_basic)))) = (60%nat, 1%nat, 10).
Proof. vm_compute. reflexivity. Qed.

(** With engineering mode on: a per-gate line with each of the 10 reports. *)
Example sim_gates_lines :
  (count is_detection (events (trace_of (run 100 Sim.after_setup))),
   count is_gates_line (events (trace_of (run 100 Sim.after_setup)))) =
  (10%nat, 10%nat).
Proof. vm_compute. reflexivity. Qed.

(** setup on the simulated board: 5000 ms of delay. *)
Example sim_setup_timing :
  filter timing (events (trace_of (setup Sim.start))) =
  setup_timing false true false [false; true] /\
  total_delay (events (trace_of (setup Sim.start))) = 5000.
Proof. vm_compute. split; reflexivity. Qed.

(** The whole sketch on the simulated board: three requests, the third
    succeeds, the configuration is printed once. *)
Example sim_configuration_shown :
  (count is_config_header (events (trace_of (sketch 1500 Sim.start))),
   count is_config_success (events (trace_of (sketch 1500 Sim.start))),
   calls_of RequestCurrentConfiguration (events (trace_of (sketch 1500 Sim.start))))
  = (1%nat, 1%nat, 3%nat).
Proof. vm_compute. reflexivity. Qed.

Lemma debug_notice_every_fiftieth_report_witness :
  engineeringMode (globals Sim_basic) = false /\
  0 <= debugCounter (globals Sim_basic) < 50 /\
  (let es := events (trace_of (run 600 Sim_basic)) in
   let calls := Z.of_nat (count is_detection es) in
   Z.of_nat (count is_debug_notice es) =
     (debugCounter (globals Sim_basic) + calls) / 50 /\
   debugCounter (globals (state_of (run 600 Sim_basic))) =
     (debugCounter (globals Sim_basic) + calls) mod 50 /\
   engineeringMode (globals (state_of (run 600 Sim_basic))) = false).
Proof.
  assert (H1 : engineeringMode (globals Sim_basic) = false) by reflexivity.
  assert (H2 : 0 <= debugCounter (globals Sim_basic) < 50)
    by (vm_compute; split; [discriminate | reflexivity]).
  exact (conj H1 (conj H2
           (debug_notice_every_fiftieth_report 600 Sim_basic H1 H2))).
Defined.

Lemma gates_line_with_every_report_witness :
  engineeringMode (globals Sim.after_setup) = true /\
  (let es := events (trace_of (run 100 Sim.after_setup)) in
   count is_gates_line es = count is_detection es /\
   count is_debug_notice es = 0%nat /\
   debugCounter (globals (state_of (run 100 Sim.after_setup))) =
     debugCounter (globals Sim.after_setup) /\
   engineeringMode (globals (state_of (run 100 Sim.after_setup))) = true).
Proof.
  assert (H1 : engineeringMode (globals Sim.after_setup) = true) by reflexivity.
  exact (conj H1 (gates_line_with_every_report 100 Sim.after_setup H1)).
Defined.

Lemma setup_when_begin_fails_witness :
  In (Ret Begin false) (events (trace_of (setup Sim.unplugged))) /\
  globals (state_of (setup Sim.unplugged)) = globals Sim.unplugged /\
  render (output (events (trace_of (setup Sim.unplugged)))) =
    wire setup_failure_lines.
Proof.
  assert (H1 : In (Ret Begin false) (events (trace_of (setup Sim.unplugged)))).
  { vm_compute. repeat first [left; reflexivity | right]. }
  exact (conj H1 (setup_when_begin_fails Sim.unplugged H1)).
Defined.

Lemma report_printed_exactly_when_due_witness :
  BoardLaws Sim.World /\
  lastReading (globals Sim.after_setup) = wrap32 0 /\
  (let s2 := state_of (serve_monitor (state_of (poll_radar Sim.after_setup))) in
   let c := radar_isConnected (world s2) in
   let kind := if fst c then Detection else Disconnected in
   let tg := now (snd (millis (snd c))) in
   0 <= tg - 0 < 2 ^ 32 /\
   (threshold kind < tg - 0 ->
      exists t, marks report_of (trace_of (loop Sim.after_setup)) = [(t, kind)] /\
                tg <= t /\
                lastReading (globals (state_of (loop Sim.after_setup))) = wrap32 t) /\
   (tg - 0 <= threshold kind ->
      marks report_of (trace_of (loop Sim.after_setup)) = [] /\
      lastReading (globals (state_of (loop Sim.after_setup))) =
        lastReading (globals Sim.after_setup))).
Proof.
  assert (H1 : lastReading (globals Sim.after_setup) = wrap32 0) by reflexivity.
  assert (H2 : 0 <= now (snd (millis (snd (radar_isConnected
                       (world (state_of (serve_monitor
                          (state_of (poll_radar Sim.after_setup))))))))) - 0
               < 2 ^ 32)
    by (vm_compute; split; [discriminate | reflexivity]).
  split; [exact Sim_laws|]. split; [exact H1|]. split; [exact H2|].
  exact (report_printed_exactly_when_due (L := Sim_laws) Sim.after_setup 0 H1 H2).
Defined.

Lemma configuration_requested_exactly_when_due_witness :
  BoardLaws Sim.World /\
  configDisplayed (globals Sim.after_setup) = false /\
  lastConfigRead (globals Sim.after_setup) = wrap32 0 /\
  (let s2 := state_of (serve_monitor (state_of (poll_radar Sim.after_setup))) in
   let c := radar_isConnected (world s2) in
   let s4 := state_of (report_detection (mkSt (snd c) (globals s2))) in
   let tg := now (snd (millis (world s4))) in
   fst c = true /\
   0 <= tg - 0 < 2 ^ 32 /\
   (30000 < tg - 0 ->
      exists t, marks retry_of (trace_of (loop Sim.after_setup)) = [(t, tt)] /\
                tg <= t /\
                lastConfigRead (globals (state_of (loop Sim.after_setup))) =
                  wrap32 t) /\
   (tg - 0 <= 30000 ->
      marks retry_of (trace_of (loop Sim.after_setup)) = [] /\
      lastConfigRead (globals (state_of (loop Sim.after_setup))) =
        lastConfigRead (globals Sim.after_setup))).
Proof.
  assert (Hd : configDisplayed (globals Sim.after_setup) = false) by reflexivity.
  assert (H0 : lastConfigRead (globals Sim.after_setup) = wrap32 0) by reflexivity.
  assert (Hc : fst (radar_isConnected
                      (world (state_of (serve_monitor
                         (state_of (poll_radar Sim.after_setup)))))) = true)
    by reflexivity.
  assert (H2 : 0 <= now (snd (millis (world (state_of (report_detection
                  (mkSt (snd (radar_isConnected
                            (world (state_of (serve_monitor
                               (state_of (poll_radar Sim.after_setup)))))))
                        (globals (state_of (serve_monitor
                               (state_of (poll_radar Sim.after_setup))))))))))) - 0
               < 2 ^ 32)
    by (vm_compute; split; [discriminate | reflexivity]).
  split; [exact Sim_laws|]. split; [exact Hd|]. split; [exact H0|].
  split; [exact Hc|]. split; [exact H2|].
  exact (configuration_requested_exactly_when_due (L := Sim_laws)
           Sim.after_setup 0 Hc Hd H0 H2).
Defined.

Lemma idle_iteration_is_silent_witness :
  fst (Serial_available
         (world (state_of (poll_radar (state_of (loop Sim.after_setup)))))) = 0 /\
  marks report_of (trace_of (loop (state_of (loop Sim.after_setup)))) = [] /\
  marks retry_of (trace_of (loop (state_of (loop Sim.after_setup)))) = [] /\
  output (events (trace_of (loop (state_of (loop Sim.after_setup))))) = [] /\
  globals (state_of (loop (state_of (loop Sim.after_setup)))) =
    globals (state_of (loop Sim.after_setup)).
Proof.
  assert (H1 : fst (Serial_available
                      (world (state_of (poll_radar
                         (state_of (loop Sim.after_setup)))))) = 0)
    by reflexivity.
  assert (H2 : marks report_of
                 (trace_of (loop (state_of (loop Sim.after_setup)))) = [])
    by reflexivity.
  assert (H3 : marks retry_of
                 (trace_of (loop (state_of (loop Sim.after_setup)))) = [])
    by reflexivity.
  exact (conj H1 (conj H2 (conj H3
           (idle_iteration_is_silent (state_of (loop Sim.after_setup)) H1 H2 H3)))).
Defined.
